(* ===== verification/_CoqProject ===== *)
-Q . S2P
Prelude.v
Curses.v
PyStr.v
Box.v
Layout.v
Geometry.v
Display.v
Lifecycle.v
BannerDraw.v
VulnScan.v
Startup.v
