(* ===== verification/Prelude.v ===== *)
(** * wordfence-cli: the scan progress dashboard and the vuln-scan subcommand

    The development models the two source files of the repository:
    [src/wordfence/cli/scan/progress.py] and
    [src/wordfence/cli/vulnscan/vulnscan.py].

    ** The program

    [progress.py] draws the terminal dashboard of a scan.  A [Box] is a
    curses window with an optional border and title.  [MetricBox] draws
    one labelled counter per line, with the value right-aligned.
    [BannerBox] draws the welcome banner over the full width.
    [BoxLayout.position] places boxes left to right and starts a new row
    when a box does not fit.  [ProgressDisplay] registers itself in the
    module list [_displays] and sets curses up.  It then places the
    banner and one metric box per worker.  [handle_update] redraws every
    box from a progress snapshot.  [scan_finished_handler] writes the
    summary below the boxes.  [end] restores the terminal and
    deregisters the display; [reset_terminal] ends every registered
    display.  The static methods [metric_boxes_per_row],
    [get_layout_values] and [requirements_met] predict the geometry
    without placing any window.

    [vulnscan.py] is the [vuln-scan] subcommand.  Its [invoke] loads the
    vulnerability index of the configured feed through a cache, builds
    the scanner with it and a filter, opens the report file and, inside
    that [with] block, hands sites, core installations, plugin and theme
    directories to the scanner, then logs a summary.

    ** Files, in dependency order

    - [Prelude]: Python's values shared by all files.
      - Exceptions ([exn]) and results ([res]).
      - The state and exception monad [PyM S A = S -> S * res A] with
        notations [x <- c ;; k] and [c ;;; k] in [py_scope].  The state
        at a [raise] is kept, as in Python.
      - [for] loops ([py_for], [py_foldM]) and [enumerate].
      - [//], [ceil(a / b)] and [len].
      - The reflexive-transitive closure [steps] of a step relation,
        the lock-step refinement rule [steps_refine] (an abstraction
        function maps every run to a run of an abstract machine),
        and [reaches next P s]: iterating [next] from [s] eventually
        meets [P], with the rule [reaches_by_measure] (a decreasing
        measure under an invariant).
      - The hint databases [py] and [py_rw], and the generic lemmas.
    - [Curses]: the curses library as the code uses it.  A [window] is
      its position, its size and the drawing requests made on it.  The
      library's checks raise [CursesError]: [mvwin] off the screen,
      [waddstr] outside the window, [wresize] to an empty size.
      [newwin] does not check the screen: as in ncurses, a window
      larger than the screen is created.  This file is the
      environment of the code and is not mapped to repository lines.
    - [PyStr]: [str(n)] on counters ([py_str], by fuel), and the
      bound on its length that decides whether a value fits its box.
    - [Box] (Module [Box]): [Box], [Metric], [MetricBox] and [BannerBox].
      A box object is the record [box]; its subclass is [box_class].
      Boxes with the same frame (border, title, class, origin) are a
      setoid, [frame_eq], with [Proper] instances for the methods that
      read only the frame.
      Each method is a [PyM box] statement: [compute_size],
      [set_position], [set_title], [resize], [render], [draw_content],
      [update], and
      the constructors [new_box], [new_metric_box], [new_banner_box].
    - [Layout]: [BoxLayout] and [position].  [position] is written
      against the typeclass [Panel] (a size and a fallible move), which
      [Box.box] implements ([box_panel]).  [place] is the arithmetic of
      one call; [pack] runs it on a sequence of box sizes.
    - [Geometry]: [metric_boxes_per_row], [get_layout_values] (and
      [layout_values] once its optional arguments are known), and
      [requirements_met].  It also states what the packer does with
      the dashboard's boxes ([packed_last_line]).
    - [Display]: [ProgressDisplay] and the [_displays] registry.
      - The process state is a [world]: the terminal size, curses mode,
        echo, cursor, [_displays] and the log.
      - A display's attributes are a [display] record.
      - Each method is a [PyM state] statement: [init] ([__init__] and
        [_setup_curses]), [handle_update], [scan_finished_handler],
        [end_display], [end_on_input], [reset_terminal].
    - [Lifecycle]: [lifecycle_step], what can happen to a built
      display: a progress update, the scan-finished summary, a key
      press, or a terminal resize; the spec's phases ([Live],
      [Terminated]) and the abstraction [phase_of] of a state.
    - [Startup]: when [ProgressDisplay(worker_count)] succeeds.  It
      follows [init] through the banner box and the loop of
      [_initialize_metric_boxes], box by box, against the rectangles
      the packer gives the dashboard ([dashboard_rects]).
    - [BannerDraw]: the module function [compute_center_offset] (and
      its [_str] form) and [ProgressDisplay.display_banner], a
      [PyM state] statement on the world and the display of [Display].
    - [VulnScan] (Module [VulnScan]): [VulnScanSubcommand].  Its calls
      on the API client, the scanner, the report manager and the logger
      are a trace of [event]s.  What the feed lookup, the API, the site
      reader and the loaders return is an [environment].  The cache of
      [util.caching] is the class [Cache] with the law [CacheLaws]; the
      state of [invoke] is the cache beside the trace.

    ** What is proved

    - Geometry against the packer ([Geometry], [Layout]).
      - Packed boxes never overlap, and a box that does not start a row
        ends within the columns.
      - The last-line formula of [get_layout_values] is exact given the
        packer's per-row count [(cols + 1) / 42].
      - [metric_boxes_per_row] divides by 39 instead, so the prediction
        under-reports the last line wherever the two counts differ.
      - [requirements_met] raises on terminals narrower than 39
        columns.
      - [metric_boxes_per_row] against its reference [(cols + 1) / 40]:
        equal below 1638 columns, never smaller, one more at 1638.
    - Boxes ([Box]).
      - [update] on a metric box is given exactly: its size and every
        drawing request it makes.
      - [update] raises when a value has more than 40 characters.
      - Counters below [10^40] always fit.
      - [update] is idempotent.
      - The constructor [MetricBox(...)] draws the box at the origin on
        a screen of any size, and raises only when a value is too long.
      - A title shorter than the box is centred, the odd column on the
        right.
      - [render]'s title column is [compute_center_offset_str]'s
        ([BannerDraw], a lemma).
      - [update] on a banner box draws row [i] at line [i] ([Startup]).
    - The dashboard ([Display], [Lifecycle]).
      - After a successful [init] there is one bordered metric box per
        worker.  This holds in every state reached by [lifecycle_step],
        by rule induction.
      - The lifecycle refines the spec's state machine: a built display
        is [Live] until the exit key, then [Terminated] (terminal
        restored, display deregistered) for good.
      - A completed [handle_update] shows each worker's counters of the
        snapshot, in every reachable state.
      - A [handle_update] that raises has updated the workers in
        order up to the failing one: the boxes before it show the new
        snapshot, the boxes after it are untouched.
      - [scan_finished_handler] places the summary below the boxes, or
        pulls it up to end on the last line when it fits; the engine's
        timeout notice goes to the log, and only when it is not empty.  It raises
        when the summary is taller than the screen.
      - [_get_metrics] raises [IndexError] exactly when a counter list
        has no entry for the worker; its [ValueError] never fires.
    - Building the dashboard ([Startup]).
      - On a terminal at least one box wide, [init] raises nothing but
        [CursesError].  It succeeds exactly when every packed
        rectangle is on the screen, that is when the packer's last
        line is above the screen's last line.
      - With at least one worker, that is [last_line_of] applied to
        [ceil(n / ((cols + 1) / 42))] rows: the test [requirements_met]
        should make, and does not.
      - The last line [get_layout_values] predicts is never below the
        one the packer really uses, so every terminal no taller than
        the predicted line makes [__init__] raise; [requirements_met]
        accepts the one exactly that tall.
    - The registry ([Display]).
      - [reset_terminal] ends only the displays at even positions,
        because [end] removes from the list being iterated.
      - A second [end] raises [ValueError].
      - [init] registers the display before anything can raise.
      - Repeated calls of [reset_terminal] eventually empty the
        registry ([reaches]).
    - [display_banner] ([BannerDraw]) raises [AttributeError] without a
      banner and [UnboundLocalError] on an empty one; otherwise it draws
      each row centred and returns the row count.
    - [VulnScan], for every cache obeying [CacheLaws].
      - Once the index is loaded (no call on a hit, one fetch on a
        miss), [invoke] creates the scanner with it and the configured
        filter, opens the report, makes exactly the scanner calls of
        the inputs in the source's order, logs the summary last, closes
        the report and returns 0.
      - When loading the index raises, [invoke] raises the same
        exception after the one fetch, before any scan or report.

    Each claim is marked C<n> in the doc comment of its theorem.  Each
    theorem with hypotheses has a [_witness] lemma that applies it to
    concrete inputs, such as the 24 x 160 dashboard with two workers.

    ** Bounds, fuel and arithmetic

    - Python ints are [Z] (or [N] for counters): they do not overflow.
    - [ceil(a / b)] goes through a float in Python.  It is modelled by
      exact integer division, which agrees while [a] and [b] stay below
      [2^53]; screen sizes and worker counts do.
    - [reset_terminal]'s loop ([reset_loop]) reads the list by index at
      every iteration, as Python's list iterator does.  Its fuel is the
      length of the list when the loop starts; each iteration either
      stops or moves past one element, so the fuel is enough
      ([reset_loop_spec]), and the theorem gives the final state for
      every registry.
    - [py_str] uses [N.size n + 1] digits of fuel, more than any
      number has ([pow10_size]).
    - [reaches] is inductive: a proof of it is a finite number of
      calls, so the liveness theorem of [reset_terminal] is a real
      bound, not a statement about an infinite run.

    ** Not modelled

    - Curses output beyond the drawing requests: refresh, colours,
      [getkey] input and [update_lines_cols].  A resize changes the
      screen size that the next operation sees.
    - Text wrapping of [addstr] past the end of a line, and the error
      ncurses reports when a write ends in the screen's bottom-right
      cell.  The theorems on the banner take its rows to be no wider
      than the terminal, and the summary placement is exact only on
      terminals wider than the 21-character exit prompt.
    - Failures of vuln-scan's collaborators (site reader, plugin and
      theme loaders, scanner): they are total functions of the
      environment, so [invoke] raises only through the index load.
    - What ncurses' [resizeterm] does to existing windows when the
      terminal shrinks: a resize changes only the screen size.  The
      interrupted-update example avoids it: the box whose [mvwin] fails
      is too tall for the new screen whatever its width becomes.
    - The base class [Box] on its own ([draw_content] is [pass]): it has
      no [get_width]/[get_height], so [Box(...)] raises before drawing
      and the code never builds one; [box_class] holds the two
      subclasses.
    - The scan engine, the welcome banner generator, logging and
      timing.  They are outside src/; their values are inputs,
      modelled from the spec, which gives only their shape.
    - Python's [import] lines and the class headers of the two files:
      they bind names and carry no behaviour of their own.  Everything
      else under src/ is modelled: no further code of the repository is
      left to translate.
    - The cache of [util.caching] is not modelled: [invoke] is proved
      for every cache obeying [CacheLaws], and the expiry after
      [DURATION_ONE_DAY] is the cache's business.  The API client,
      the scanner's matching and the report's contents are outside
      src/; only their calls are recorded. *)

From Stdlib Require Import ZArith List String Ascii Lia.
Import ListNotations.

(** ** Python values the models share

    Exceptions are values of [exn]; a Python computation that may raise
    returns a [res].  A statement sequence that threads state and may
    raise is a [PyM S A]: the state reached at the [raise] is kept, as in
    Python, where the effects before an exception are not undone. *)

Inductive exn : Type :=
| ValueError
| IndexError
| ZeroDivisionError
| CursesError
| AttributeError
| UnboundLocalError
| ApiException.

Inductive res (A : Type) : Type :=
| Ok (a : A)
| Exc (e : exn).
Arguments Ok {A} a.
Arguments Exc {A} e.

Definition PyM (S A : Type) : Type := S -> S * res A.

Definition py_ret {S A} (a : A) : PyM S A := fun s => (s, Ok a).

Definition py_raise {S A} (e : exn) : PyM S A := fun s => (s, Exc e).

Definition py_bind {S A B} (c : PyM S A) (k : A -> PyM S B) : PyM S B :=
  fun s => match c s with
           | (s', Ok a) => k a s'
           | (s', Exc e) => (s', Exc e)
           end.

Definition py_get {S} : PyM S S := fun s => (s, Ok s).

Definition py_put {S} (s : S) : PyM S unit := fun _ => (s, Ok tt).

Definition py_modify {S} (f : S -> S) : PyM S unit := fun s => (f s, Ok tt).

(** Lift a pure fallible value into a statement. *)
Definition py_lift {S A} (r : res A) : PyM S A := fun s => (s, r).

Declare Scope py_scope.
Delimit Scope py_scope with py.
Notation "x <- c ;; k" := (py_bind c (fun x => k))
  (at level 61, c at next level, right associativity) : py_scope.
Notation "c ;;; k" := (py_bind c (fun _ => k))
  (at level 61, right associativity) : py_scope.
Open Scope py_scope.

(** [for x in xs: body(x)] over a list that the body does not change. *)
Fixpoint py_for {S A} (xs : list A) (body : A -> PyM S unit) : PyM S unit :=
  match xs with
  | [] => py_ret tt
  | x :: rest => body x ;;; py_for rest body
  end.

(** A [for] loop that threads local variables [b] through its body. *)
Fixpoint py_foldM {S A B} (f : B -> A -> PyM S B) (xs : list A) (b : B) : PyM S B :=
  match xs with
  | [] => py_ret b
  | x :: rest => b' <- f b x ;; py_foldM f rest b'
  end.

(** [enumerate(xs)] starting at [k]. *)
Definition enumerate_from {A} (k : nat) (xs : list A) : list (nat * A) :=
  combine (seq k (List.length xs)) xs.

Definition enumerate {A} (xs : list A) : list (nat * A) := enumerate_from 0 xs.

Lemma enumerate_from_cons {A} (k : nat) (x : A) (xs : list A) :
  enumerate_from k (x :: xs) = (k, x) :: enumerate_from (S k) xs.
Proof. reflexivity. Qed.

(** The state after running a statement, and whether it raised. *)
Definition exec {S A} (c : PyM S A) (s : S) : S := fst (c s).
Definition outcome {S A} (c : PyM S A) (s : S) : res A := snd (c s).

Definition is_ok {A} (r : res A) : bool :=
  match r with Ok _ => true | Exc _ => false end.

(** ** Sequences of steps *)

Section Steps.
Context {St : Type} (step : St -> St -> Prop).

(** [steps s t]: [t] is reached from [s] by zero or more [step]s, the
    last one taken last. *)
Inductive steps (s : St) : St -> Prop :=
| steps_none : steps s s
| steps_more t u : steps s t -> step t u -> steps s u.

(** A property every step keeps holds of every state reached. *)
Lemma steps_keep (Inv : St -> Prop) s t :
  (forall a b, Inv a -> step a b -> Inv b) -> Inv s -> steps s t -> Inv t.
Proof. intros Hkeep Hs Hr. induction Hr as [|t u _ IH Hst]; [exact Hs|exact (Hkeep t u IH Hst)]. Qed.

End Steps.

(** ** Refinement by an abstraction function

    A concrete step relation refines an abstract one when every step
    taken under an invariant maps, through [abs], to an abstract step;
    then every run maps to an abstract run. *)
Section Refinement.
Context {St A : Type} (step : St -> St -> Prop) (astep : A -> A -> Prop).
Context (abs : St -> A) (Inv : St -> Prop).
Hypothesis step_refines : forall s t, Inv s -> step s t -> Inv t /\ astep (abs s) (abs t).

Lemma steps_refine s t : Inv s -> steps step s t -> Inv t /\ steps astep (abs s) (abs t).
Proof.
  intros Hs Hr. induction Hr as [|t u _ [Ht IH] Htu]; [split; [exact Hs|apply steps_none]|].
  destruct (step_refines t u Ht Htu) as [Hu Ha]. split; [exact Hu|eapply steps_more; eassumption].
Qed.

End Refinement.

Section Reaches.
Context {St : Type} (next : St -> St).

(** [reaches next P s]: calling [next] again and again from [s] comes
    to a state where [P] holds. *)
Inductive reaches (P : St -> Prop) : St -> Prop :=
| reaches_now s : P s -> reaches P s
| reaches_later s : reaches P (next s) -> reaches P s.

(** A measure that decreases at each call outside [P], under an
    invariant [Inv] the calls keep, gives [reaches]. *)
Lemma reaches_by_measure (Inv P : St -> Prop) (m : St -> nat) :
  (forall s, Inv s -> P s \/ (Inv (next s) /\ (m (next s) < m s)%nat)) ->
  forall s, Inv s -> reaches P s.
Proof.
  intros Hstep s. remember (m s) as k eqn:Ek. revert s Ek.
  induction k as [k IH] using (well_founded_induction Wf_nat.lt_wf). intros s Ek Hs.
  destruct (Hstep s Hs) as [HP|[Hs' Hlt]]; [now apply reaches_now|].
  apply reaches_later. apply (IH (m (next s))); [lia|reflexivity|exact Hs'].
Qed.

End Reaches.
Arguments reaches {St} next P _.

(** ** Python integer arithmetic on Z

    [a // b] is [Z.div] (floor); [int(a / b)] truncates toward zero, which
    is [Z.quot]; [ceil(a / b)] raises [ZeroDivisionError] when [b = 0]. *)

Definition py_floordiv (a b : Z) : res Z :=
  if (b =? 0)%Z then Exc ZeroDivisionError else Ok (a / b)%Z.

Definition ceil_div (a b : Z) : Z := (- ((- a) / b))%Z.

Definition py_ceil_div (a b : Z) : res Z :=
  if (b =? 0)%Z then Exc ZeroDivisionError else Ok (ceil_div a b).

Definition py_int_div2 (a : Z) : Z := Z.quot a 2.

Definition py_len (s : string) : Z := Z.of_nat (String.length s).

(** ** Automation *)

Create HintDb py discriminated.
Create Rewrite HintDb py_rw.

Lemma py_bind_ret_l {S A B} (a : A) (k : A -> PyM S B) (s : S) :
  py_bind (py_ret a) k s = k a s.
Proof. reflexivity. Qed.

Lemma py_bind_raise {S A B} (e : exn) (k : A -> PyM S B) (s : S) :
  py_bind (py_raise e) k s = (s, Exc e).
Proof. reflexivity. Qed.

Lemma py_bind_assoc {S A B C} (c : PyM S A) (f : A -> PyM S B)
      (g : B -> PyM S C) (s : S) :
  py_bind (py_bind c f) g s = py_bind c (fun a => py_bind (f a) g) s.
Proof. unfold py_bind. destruct (c s) as [s' [a|e]]; reflexivity. Qed.

Lemma py_bind_ok {S A B} (c : PyM S A) (k : A -> PyM S B) (s s' : S) (a : A) :
  c s = (s', Ok a) -> py_bind c k s = k a s'.
Proof. intros H. unfold py_bind. rewrite H. reflexivity. Qed.

Lemma py_bind_exc {S A B} (c : PyM S A) (k : A -> PyM S B) (s s' : S) e :
  c s = (s', Exc e) -> py_bind c k s = (s', Exc e).
Proof. intros H. unfold py_bind. rewrite H. reflexivity. Qed.

#[export] Hint Rewrite @py_bind_ret_l @py_bind_raise @py_bind_assoc : py_rw.

Lemma py_bind_congr {S A B} (c : PyM S A) (k1 k2 : A -> PyM S B) (s : S) :
  (forall a s', k1 a s' = k2 a s') -> py_bind c k1 s = py_bind c k2 s.
Proof. intros H. unfold py_bind. destruct (c s) as [s' [a|e]]; [apply H|reflexivity]. Qed.

Lemma py_for_app {S A} (xs ys : list A) (body : A -> PyM S unit) (s : S) :
  py_for (xs ++ ys) body s = py_bind (py_for xs body) (fun _ => py_for ys body) s.
Proof.
  revert s. induction xs as [|x xs IH]; intros s; simpl; [reflexivity|].
  rewrite py_bind_assoc. apply py_bind_congr. intros [] s'. apply IH.
Qed.

(** A statement sequence that succeeded ran each part successfully. *)
Lemma py_bind_inv_ok {S A B} (c : PyM S A) (k : A -> PyM S B) (s s' : S) (b : B) :
  py_bind c k s = (s', Ok b) -> exists s1 a, c s = (s1, Ok a) /\ k a s1 = (s', Ok b).
Proof.
  unfold py_bind. destruct (c s) as [s1 [a|e]]; intros H; [eauto|discriminate].
Qed.

(** A loop that succeeded, with an invariant over the elements done, the
    local variables and the state. *)
Lemma py_foldM_ok_inv {S A B} (f : B -> A -> PyM S B) (Inv : list A -> B -> S -> Prop) :
  (forall done x b s s' b', Inv done b s -> f b x s = (s', Ok b') -> Inv (done ++ [x]) b' s') ->
  forall xs done b s s' b', py_foldM f xs b s = (s', Ok b') -> Inv done b s -> Inv (done ++ xs) b' s'.
Proof.
  intros Hstep. induction xs as [|x xs IH]; intros done b s s' b' Hrun Hinv; simpl in Hrun.
  - injection Hrun as <- <-. rewrite app_nil_r. exact Hinv.
  - apply py_bind_inv_ok in Hrun as (s1 & b1 & E1 & E2).
    replace (done ++ x :: xs) with ((done ++ [x]) ++ xs) by (rewrite <- app_assoc; reflexivity).
    eapply IH; [exact E2|]. eapply Hstep; eassumption.
Qed.

(** A statement sequence that raised: the first part raised, or it
    succeeded and the rest raised. *)
Lemma py_bind_inv_exc {S A B} (c : PyM S A) (k : A -> PyM S B) (s s' : S) e :
  py_bind c k s = (s', Exc e) ->
  c s = (s', Exc e) \/ exists s1 a, c s = (s1, Ok a) /\ k a s1 = (s', Exc e).
Proof.
  unfold py_bind. destruct (c s) as [s1 [a|e']]; intros H; [right; eauto|left; congruence].
Qed.

(** A loop that raised: the iterations before the raising one kept the
    invariant, and the raising one started from there. *)
Lemma py_foldM_exc_inv {S A B} (f : B -> A -> PyM S B) (Inv : list A -> B -> S -> Prop) :
  (forall done x b s s' b', Inv done b s -> f b x s = (s', Ok b') -> Inv (done ++ [x]) b' s') ->
  forall xs done b s s' e, py_foldM f xs b s = (s', Exc e) -> Inv done b s ->
  exists pre x post b1 s1, xs = pre ++ x :: post /\ Inv (done ++ pre) b1 s1 /\ f b1 x s1 = (s', Exc e).
Proof.
  intros Hstep. induction xs as [|x xs IH]; intros done b s s' e Hrun Hinv; [discriminate|].
  cbn in Hrun. apply py_bind_inv_exc in Hrun as [E|(s1 & b1 & E1 & E2)].
  - exists [], x, xs, b, s. rewrite app_nil_r. auto.
  - destruct (IH _ _ _ _ _ E2 (Hstep _ _ _ _ _ _ Hinv E1)) as (pre & y & post & b2 & s2 & -> & Hi & Ef).
    exists (x :: pre), y, post, b2, s2. rewrite <- app_assoc in Hi. auto.
Qed.

(** A loop whose body never raises and keeps an invariant keeps it. *)
Lemma py_for_invariant {S A} (P : S -> Prop) (xs : list A)
      (body : A -> PyM S unit) :
  (forall x s, In x xs -> P s -> exists s', body x s = (s', Ok tt) /\ P s') ->
  forall s, P s -> exists s', py_for xs body s = (s', Ok tt) /\ P s'.
Proof.
  induction xs as [|x xs IH]; intros Hbody s Hs; simpl.
  - exists s. split; [reflexivity|exact Hs].
  - destruct (Hbody x s (or_introl eq_refl) Hs) as (s1 & E1 & H1).
    rewrite (py_bind_ok _ _ _ _ _ E1).
    apply IH; [|exact H1].
    intros y t Hy Ht. apply Hbody; [right; exact Hy|exact Ht].
Qed.

Lemma ceil_div_spec (a b : Z) :
  (0 < b)%Z -> ((ceil_div a b - 1) * b < a <= ceil_div a b * b)%Z.
Proof.
  intros Hb. unfold ceil_div.
  pose proof (Z.div_mod (- a) b ltac:(lia)).
  pose proof (Z.mod_pos_bound (- a) b Hb). nia.
Qed.

Lemma ceil_div_unique (a b q : Z) :
  (0 < b)%Z -> ((q - 1) * b < a <= q * b)%Z -> ceil_div a b = q.
Proof.
  intros Hb Hq. pose proof (ceil_div_spec a b Hb).
  assert (ceil_div a b <= q)%Z by nia. assert (q <= ceil_div a b)%Z by nia.
  lia.
Qed.

Lemma ceil_div_nonneg (a b : Z) : (0 < b)%Z -> (0 <= a)%Z -> (0 <= ceil_div a b)%Z.
Proof. intros Hb Ha. pose proof (ceil_div_spec a b Hb). nia. Qed.

Lemma ceil_div_le_1 (a b : Z) :
  (0 < a <= b)%Z -> ceil_div a b = 1%Z.
Proof. intros H. apply ceil_div_unique; lia. Qed.

Lemma py_int_div2_nonneg (a : Z) : (0 <= a)%Z -> py_int_div2 a = (a / 2)%Z.
Proof. intros H. unfold py_int_div2. apply Z.quot_div_nonneg; lia. Qed.

Lemma py_int_div2_bounds (a : Z) :
  (0 <= a)%Z -> (0 <= py_int_div2 a /\ 2 * py_int_div2 a <= a)%Z.
Proof.
  intros H. rewrite py_int_div2_nonneg by exact H.
  pose proof (Z.div_mod a 2 ltac:(lia)). pose proof (Z.mod_pos_bound a 2 ltac:(lia)).
  lia.
Qed.

#[export] Hint Resolve ceil_div_nonneg py_int_div2_bounds : py.

Lemma py_len_nonneg (s : string) : (0 <= py_len s)%Z.
Proof. unfold py_len. lia. Qed.

#[export] Hint Resolve py_len_nonneg : py.

(** Unfold the Python arithmetic helpers and let [lia] finish. *)
Ltac py_arith :=
  unfold py_floordiv, py_ceil_div, py_len in *; simpl in *; lia.

(** Case on every boolean comparison of Z appearing in the goal. *)
Ltac z_cases :=
  repeat match goal with
         | |- context [(?a <? ?b)%Z] => destruct (Z.ltb_spec a b)
         | |- context [(?a <=? ?b)%Z] => destruct (Z.leb_spec a b)
         | |- context [(?a =? ?b)%Z] => destruct (Z.eqb_spec a b)
         end.

(** Put every hypothesis back into the goal, last first, so that a lemma
    with the same binders closes it with [exact]. *)
Ltac revert_all := repeat match goal with H : _ |- _ => revert H end.
