(* ===== verification/Curses.v ===== *)
(** * The curses primitives the dashboard calls

    A model of the part of Python's [curses] module (over ncurses) that
    [progress.py] uses: windows with a position, a size and the drawing
    requests made on them since the last [clear], and the library's
    error cases that Python turns into [_curses.error] ([CursesError]).
    This is the library's documented behaviour, not code of the
    repository: it is the environment the modelled code runs in.

    - [newwin h w y x] fails on a negative argument or an empty window
      and does not check the screen: a zero size stretches to the
      screen's edge, and a window larger than the screen is created
      (ncurses' [newwin] and [_nc_makenew]);
    - [mvwin] fails, and leaves the window in place, when the moved
      window would leave the screen;
    - [wresize] fails on a non-positive size and does not check the screen;
    - [waddstr] fails when its start position is outside the window;
      wrapping past the window's last cell is not modelled;
    - [refresh], [noutrefresh], [syncup] and [doupdate] only copy the
      windows to the physical screen, which is not modelled. *)

From Stdlib Require Import ZArith List String Lia.
From S2P Require Import Prelude.
Import ListNotations.
Open Scope Z_scope.
Open Scope bool_scope.

(** The screen size as curses sees it ([curses.LINES], [curses.COLS]). *)
Record screen := mkScreen { lines : Z; cols : Z }.

Inductive draw_op : Type :=
| DBorder
| DText (y x : Z) (s : string)
| DClrtobot (y x : Z).

Record window := mkWindow {
  win_y : Z; win_x : Z;
  win_h : Z; win_w : Z;
  win_ops : list draw_op
}.

Definition fits_on (scr : screen) (y x h w : Z) : bool :=
  (0 <=? y) && (0 <=? x) && (y + h <=? lines scr) && (x + w <=? cols scr).

Definition newwin (scr : screen) (h w y x : Z) : res window :=
  if (y <? 0) || (x <? 0) || (h <? 0) || (w <? 0) then Exc CursesError
  else
    let h' := if h =? 0 then lines scr - y else h in
    let w' := if w =? 0 then cols scr - x else w in
    if (0 <? h') && (0 <? w') then Ok (mkWindow y x h' w' []) else Exc CursesError.

Definition mvwin (scr : screen) (y x : Z) (win : window) : res window :=
  if fits_on scr y x (win_h win) (win_w win)
  then Ok (mkWindow y x (win_h win) (win_w win) (win_ops win))
  else Exc CursesError.

Definition wresize (h w : Z) (win : window) : res window :=
  if (0 <? h) && (0 <? w)
  then Ok (mkWindow (win_y win) (win_x win) h w (win_ops win))
  else Exc CursesError.

Definition wclear (win : window) : window :=
  mkWindow (win_y win) (win_x win) (win_h win) (win_w win) [].

Definition in_window (win : window) (y x : Z) : bool :=
  (0 <=? y) && (y <? win_h win) && (0 <=? x) && (x <? win_w win).

Definition waddstr (y x : Z) (s : string) (win : window) : res window :=
  if in_window win y x
  then Ok (mkWindow (win_y win) (win_x win) (win_h win) (win_w win)
                    (win_ops win ++ [DText y x s]))
  else Exc CursesError.

(** [win.move(y, x)] fails outside the window; the cursor position is
    passed explicitly to the call that follows it. *)
Definition wmove (y x : Z) (win : window) : res window :=
  if in_window win y x then Ok win else Exc CursesError.

(** [win.clrtobot()] after a move to [(y, x)]. *)
Definition wclrtobot (y x : Z) (win : window) : window :=
  mkWindow (win_y win) (win_x win) (win_h win) (win_w win) (win_ops win ++ [DClrtobot y x]).

Definition wborder (win : window) : window :=
  mkWindow (win_y win) (win_x win) (win_h win) (win_w win) (win_ops win ++ [DBorder]).

(** ** Facts about the primitives *)

Lemma mvwin_ok scr y x win win' :
  mvwin scr y x win = Ok win' ->
  win_y win' = y /\ win_x win' = x /\ win_h win' = win_h win /\
  win_w win' = win_w win /\ win_ops win' = win_ops win /\
  0 <= y /\ 0 <= x /\ y + win_h win <= lines scr /\ x + win_w win <= cols scr.
Proof.
  unfold mvwin, fits_on. intros H.
  destruct (0 <=? y) eqn:E1, (0 <=? x) eqn:E2,
           (y + win_h win <=? lines scr) eqn:E3, (x + win_w win <=? cols scr) eqn:E4;
    simpl in H; try discriminate.
  injection H as <-. simpl. apply Z.leb_le in E1, E2, E3, E4. repeat split; assumption.
Qed.

Lemma mvwin_fits scr y x win :
  0 <= y -> 0 <= x -> y + win_h win <= lines scr -> x + win_w win <= cols scr ->
  mvwin scr y x win = Ok (mkWindow y x (win_h win) (win_w win) (win_ops win)).
Proof.
  intros. unfold mvwin, fits_on.
  repeat rewrite (proj2 (Z.leb_le _ _)) by lia. reflexivity.
Qed.

Lemma waddstr_in y x s win :
  in_window win y x = true ->
  waddstr y x s win = Ok (mkWindow (win_y win) (win_x win) (win_h win) (win_w win)
                                   (win_ops win ++ [DText y x s])).
Proof. intros H. unfold waddstr. rewrite H. reflexivity. Qed.

Lemma in_window_iff win y x :
  in_window win y x = true <-> 0 <= y < win_h win /\ 0 <= x < win_w win.
Proof.
  unfold in_window. rewrite !Bool.andb_true_iff, !Z.leb_le, !Z.ltb_lt. tauto.
Qed.

Lemma wresize_pos h w win :
  0 < h -> 0 < w ->
  wresize h w win = Ok (mkWindow (win_y win) (win_x win) h w (win_ops win)).
Proof.
  intros. unfold wresize.
  rewrite (proj2 (Z.ltb_lt 0 h)), (proj2 (Z.ltb_lt 0 w)) by lia. reflexivity.
Qed.

#[export] Hint Rewrite waddstr_in wresize_pos using (try apply in_window_iff; lia) : py_rw.

Lemma newwin_origin scr h w :
  0 < h -> 0 < w -> newwin scr h w 0 0 = Ok (mkWindow 0 0 h w []).
Proof.
  intros. unfold newwin.
  rewrite (proj2 (Z.ltb_ge h 0)), (proj2 (Z.ltb_ge w 0)), (proj2 (Z.eqb_neq h 0)), (proj2 (Z.eqb_neq w 0))
    by lia.
  rewrite (proj2 (Z.ltb_lt 0 h)), (proj2 (Z.ltb_lt 0 w)) by lia. reflexivity.
Qed.
