(* ===== verification/PyStr.v ===== *)
(** * Decimal rendering of the counters: Python's [str(int)]

    [Metric.__init__] stores [str(value)] for the file, byte and match
    counters and the worker index, all non-negative Python ints.  [py_str]
    is the decimal rendering without leading zeros, with [N.size n + 1]
    digits of fuel, which is more than any number has ([pow10_size]).
    What the box layout needs of it: the rendering has at most [k]
    characters exactly when the number is below [10^k]
    ([py_str_length_iff]), so that a counter below [10^40] fits in a
    metric box. *)

From Stdlib Require Import NArith ZArith List String Ascii Lia.
From S2P Require Import Prelude.
Open Scope N_scope.
Open Scope bool_scope.

Definition digit_char (d : N) : ascii := ascii_of_N (48 + d).

(** Emit the digits of [n] in front of [acc], least significant last. *)
Fixpoint str_digits (fuel : nat) (n : N) (acc : string) : string :=
  match fuel with
  | O => acc
  | S f =>
      let acc' := String (digit_char (n mod 10)) acc in
      if n <? 10 then acc' else str_digits f (n / 10) acc'
  end.

(** [N.size n] bits are more than enough decimal digits. *)
Definition py_str (n : N) : string := str_digits (S (N.to_nat (N.size n))) n EmptyString.

(** ** Lemmas *)

Lemma str_digits_S (f : nat) (n : N) (acc : string) :
  str_digits (S f) n acc =
  if n <? 10 then String (digit_char (n mod 10)) acc
  else str_digits f (n / 10) (String (digit_char (n mod 10)) acc).
Proof. reflexivity. Qed.

Lemma pow10_size (n : N) : n < 10 ^ N.of_nat (S (N.to_nat (N.size n))).
Proof.
  pose proof (N.size_gt n) as H.
  rewrite Nat2N.inj_succ, N2Nat.id.
  assert (2 ^ N.size n <= 10 ^ N.size n) by (apply N.pow_le_mono_l; lia).
  assert (10 ^ N.size n <= 10 ^ N.succ (N.size n))
    by (apply N.pow_le_mono_r; lia).
  lia.
Qed.

Lemma div10_bound (n : N) (f : nat) :
  n < 10 ^ N.of_nat (S (S f)) -> n / 10 < 10 ^ N.of_nat (S f).
Proof.
  intros H. apply N.Div0.div_lt_upper_bound.
  rewrite Nat2N.inj_succ, N.pow_succ_r' in H. lia.
Qed.

Lemma str_digits_length (f : nat) :
  forall n acc, n < 10 ^ N.of_nat (S f) ->
  exists k, String.length (str_digits (S f) n acc) = (String.length acc + S k)%nat /\
            n < 10 ^ N.of_nat (S k) /\ (k = O \/ 10 ^ N.of_nat k <= n).
Proof.
  induction f as [|f IH]; intros n acc Hn; rewrite str_digits_S.
  - replace (n <? 10) with true by (symmetry; apply N.ltb_lt; simpl in Hn; lia).
    exists O. simpl. split; [lia|]. split; [simpl in Hn; lia|now left].
  - destruct (N.ltb_spec n 10) as [Hlt|Hge].
    + exists O. simpl. split; [lia|]. split; [lia|now left].
    + destruct (IH (n / 10) (String (digit_char (n mod 10)) acc)
                  (div10_bound n f Hn)) as (k & Hlen & Hhi & Hlo).
      exists (S k). split; [rewrite Hlen; cbn [String.length]; lia|].
      pose proof (N.div_mod n 10 ltac:(lia)). pose proof (N.mod_lt n 10 ltac:(lia)).
      rewrite !Nat2N.inj_succ, !N.pow_succ_r' in *.
      split; [lia|right].
      destruct Hlo as [->|Hlo]; [change (N.of_nat 0) with 0; rewrite N.pow_0_r; lia|].
      set (p := 10 ^ N.of_nat k) in *. set (r := n mod 10) in *. lia.
Qed.

Lemma py_str_length_iff (n : N) (k : nat) :
  (1 <= k)%nat -> ((String.length (py_str n) <= k)%nat <-> n < 10 ^ N.of_nat k).
Proof.
  intros Hk. unfold py_str.
  destruct (str_digits_length (N.to_nat (N.size n)) n EmptyString (pow10_size n))
    as (j & Hj & Hhi & Hlo).
  rewrite Hj. simpl String.length. split; intros H.
  - eapply N.lt_le_trans; [exact Hhi|]. apply N.pow_le_mono_r; lia.
  - destruct Hlo as [->|Hlo]; [lia|].
    destruct (Nat.le_gt_cases (S j) k) as [|Hgt]; [lia|].
    assert (10 ^ N.of_nat k <= 10 ^ N.of_nat j) by (apply N.pow_le_mono_r; lia).
    lia.
Qed.
