(* ===== verification/Box.v ===== *)
(** * Panels: [Box], [MetricBox] and [BannerBox] of [progress.py]

    A box owns one curses window.  [Box.compute_size] adds the border to
    the content size; [render] draws the border, the title centred when
    it is shorter than the box, then the content; [resize] clears the
    window and resizes it to the computed size; [update] is [resize]
    followed by [render] ([syncup] and [noutrefresh] only publish the
    window).  The two subclasses are the two constructors of [box_class]:
    their [get_width], [get_height] and [draw_content] are the branches
    of the functions below.  The parent window is the standard screen,
    whose width is the screen's column count. *)

From Stdlib Require Import ZArith List String Lia Setoid Morphisms.
From S2P Require Import Prelude Curses PyStr.
Import ListNotations.
Open Scope Z_scope.

(** The module-level constant: the interior width of a metric box. *)
Definition METRIC_BOX_WIDTH : Z := 39.

(** The banner handed over by [get_welcome_banner] (not under src/). *)
Record banner := mkBanner {
  banner_rows : list string;
  row_count : Z;
  column_count : Z
}.

Module Box.

(** [Metric(label, value)] keeps [str(value)]. *)
Record metric := mkMetric { label : string; value : string }.

Definition Metric (lbl : string) (v : N) : metric := mkMetric lbl (py_str v).

Inductive box_class : Type :=
| MetricBox (metrics : list metric)
| BannerBox (b : banner).

Record box := mkBox {
  border : bool;
  title : option string;
  cls : box_class;
  window : Curses.window
}.

Definition set_window (b : box) (w : Curses.window) : box :=
  mkBox (border b) (title b) (cls b) w.

Definition set_metrics (b : box) (ms : list metric) : box :=
  match cls b with
  | MetricBox _ => mkBox (border b) (title b) (MetricBox ms) (window b)
  | BannerBox _ => b
  end.

Definition get_width (scr : screen) (k : box_class) : Z :=
  match k with
  | MetricBox _ => METRIC_BOX_WIDTH
  | BannerBox _ => cols scr
  end.

Definition get_height (k : box_class) : Z :=
  match k with
  | MetricBox ms => Z.of_nat (List.length ms)
  | BannerBox bn => row_count bn
  end.

Definition size_of (scr : screen) (brd : bool) (k : box_class) : Z * Z :=
  let height := get_height k in
  let width := get_width scr k in
  if brd then (height + 2, width + 2) else (height, width).

Definition compute_size (scr : screen) (b : box) : Z * Z :=
  size_of scr (border b) (cls b).

Definition get_border_offset (b : box) : Z := if border b then 1 else 0.

(** A window call of the box: the box keeps the new window, or the call
    raises and the box is unchanged. *)
Definition with_window (f : Curses.window -> res Curses.window) : PyM box unit :=
  fun b => match f (window b) with
           | Ok w => (set_window b w, Ok tt)
           | Exc e => (b, Exc e)
           end.

Definition set_position (scr : screen) (y x : Z) : PyM box unit :=
  with_window (mvwin scr y x).

Definition resize (scr : screen) : PyM box unit :=
  b <- py_get ;;
  with_window (fun w => Ok (wclear w)) ;;;
  let '(height, width) := compute_size scr b in
  with_window (wresize height width).

(** [set_title(title)]: the title the next [render] draws. *)
Definition set_title (t : string) : PyM box unit :=
  py_modify (fun b => mkBox (border b) (Some t) (cls b) (window b)).

(** The column of a title: centred when shorter than the box. *)
Definition title_offset (width : Z) (t : string) : Z :=
  let title_length := py_len t in
  if title_length <? width then py_int_div2 (width - title_length) else 0.

Definition draw_metric (offset width : Z) (im : nat * metric) : PyM box unit :=
  let '(index, m) := im in
  let line := Z.of_nat index + offset in
  with_window (waddstr line offset (label m ++ ":")) ;;;
  let value_offset := offset + width - py_len (value m) in
  with_window (waddstr line value_offset (value m)).

Definition draw_banner_row (offset : Z) (ir : nat * string) : PyM box unit :=
  let '(index, row) := ir in
  with_window (waddstr (Z.of_nat index + offset) offset row).

Definition draw_content (scr : screen) : PyM box unit :=
  b <- py_get ;;
  let offset := get_border_offset b in
  match cls b with
  | MetricBox ms => py_for (enumerate ms) (draw_metric offset (get_width scr (cls b)))
  | BannerBox bn => py_for (enumerate (banner_rows bn)) (draw_banner_row offset)
  end.

Definition render (scr : screen) : PyM box unit :=
  b <- py_get ;;
  let '(height, width) := compute_size scr b in
  (if border b then with_window (fun w => Ok (wborder w)) else py_ret tt) ;;;
  match title b with
  | Some t => with_window (waddstr 0 (title_offset width t) t)
  | None => py_ret tt
  end ;;;
  draw_content scr.

(** [update]: [syncup] and [noutrefresh] do not change the window. *)
Definition update (scr : screen) : PyM box unit :=
  resize scr ;;; render scr.

(** [Box.__init__]: a window of the computed size at the origin, then a
    first [render]. *)
Definition new_box (scr : screen) (brd : bool) (ttl : option string) (k : box_class) : res box :=
  let '(height, width) := size_of scr brd k in
  match newwin scr height width 0 0 with
  | Exc e => Exc e
  | Ok w =>
      match render scr (mkBox brd ttl k w) with
      | (b', Ok _) => Ok b'
      | (_, Exc e) => Exc e
      end
  end.

Definition new_metric_box (scr : screen) (ms : list metric) (ttl : option string) : res box :=
  new_box scr true ttl (MetricBox ms).

Definition new_banner_box (scr : screen) (bn : banner) : res box :=
  new_box scr false None (BannerBox bn).

(** ** What a metric box draws

    The reference list of drawing requests of [MetricBox.draw_content]
    from row [k] on, and the test a value passes when its right-aligned
    start column is still inside the window. *)

Fixpoint metric_ops (offset width : Z) (k : nat) (ms : list metric) : list draw_op :=
  match ms with
  | [] => []
  | m :: ms' =>
      DText (Z.of_nat k + offset) offset (label m ++ ":")
      :: DText (Z.of_nat k + offset) (offset + width - py_len (value m)) (value m)
      :: metric_ops offset width (S k) ms'
  end.

Definition value_fits (offset width : Z) (m : metric) : bool :=
  py_len (value m) <=? offset + width.

Definition title_ops (width : Z) (t : option string) : list draw_op :=
  match t with
  | Some s => [DText 0 (title_offset width s) s]
  | None => []
  end.

Definition with_ops (w : Curses.window) (ops : list draw_op) : Curses.window :=
  mkWindow (win_y w) (win_x w) (win_h w) (win_w w) ops.

(** ** Window-only computations keep the box's frame

    Every method of a box changes its window only, and only [mvwin]
    moves it. *)

Definition frame_eq (b b' : box) : Prop :=
  border b' = border b /\ title b' = title b /\ cls b' = cls b /\
  win_y (window b') = win_y (window b) /\ win_x (window b') = win_x (window b).

Definition window_only {A} (c : PyM box A) : Prop := forall b, frame_eq b (fst (c b)).

Definition keeps_origin (f : Curses.window -> res Curses.window) : Prop :=
  forall w w', f w = Ok w' -> win_y w' = win_y w /\ win_x w' = win_x w.

Lemma frame_eq_refl b : frame_eq b b.
Proof. repeat split. Qed.

Lemma frame_eq_sym b1 b2 : frame_eq b1 b2 -> frame_eq b2 b1.
Proof. unfold frame_eq. intuition congruence. Qed.

Lemma frame_eq_trans b1 b2 b3 : frame_eq b1 b2 -> frame_eq b2 b3 -> frame_eq b1 b3.
Proof. unfold frame_eq. intuition congruence. Qed.

(** Boxes with the same frame are interchangeable for everything that
    does not read the window's contents: [frame_eq] is a setoid. *)
#[export] Instance frame_eq_equivalence : Equivalence frame_eq.
Proof. split; [exact frame_eq_refl|exact frame_eq_sym|exact frame_eq_trans]. Qed.

Lemma window_only_ret {A} (a : A) : window_only (py_ret a).
Proof. intros b. apply frame_eq_refl. Qed.

Lemma window_only_get : window_only py_get.
Proof. intros b. apply frame_eq_refl. Qed.

Lemma window_only_bind {A B} (c : PyM box A) (k : A -> PyM box B) :
  window_only c -> (forall a, window_only (k a)) -> window_only (py_bind c k).
Proof.
  intros Hc Hk b. unfold py_bind. specialize (Hc b).
  destruct (c b) as [b1 [a|e]]; simpl in *; [|exact Hc].
  etransitivity; [exact Hc|apply Hk].
Qed.

Lemma window_only_with_window f : keeps_origin f -> window_only (with_window f).
Proof.
  intros Hf b. unfold with_window. destruct (f (window b)) as [w|e] eqn:E.
  - destruct (Hf _ _ E). repeat split; assumption.
  - apply frame_eq_refl.
Qed.

Lemma window_only_for {A} (xs : list A) (body : A -> PyM box unit) :
  (forall x, window_only (body x)) -> window_only (py_for xs body).
Proof.
  intros Hb. induction xs as [|x xs IH]; simpl.
  - apply window_only_ret.
  - apply window_only_bind; [apply Hb|intros _; exact IH].
Qed.

Lemma keeps_origin_clear : keeps_origin (fun w => Ok (wclear w)).
Proof. intros w w' H. injection H as <-. split; reflexivity. Qed.

Lemma keeps_origin_border : keeps_origin (fun w => Ok (wborder w)).
Proof. intros w w' H. injection H as <-. split; reflexivity. Qed.

Lemma keeps_origin_resize h w : keeps_origin (wresize h w).
Proof.
  intros w0 w' H. unfold wresize in H.
  destruct ((0 <? h) && (0 <? w))%bool; [injection H as <-; split; reflexivity|discriminate].
Qed.

Lemma keeps_origin_addstr y x s : keeps_origin (waddstr y x s).
Proof.
  intros w0 w' H. unfold waddstr in H.
  destruct (in_window w0 y x); [injection H as <-; split; reflexivity|discriminate].
Qed.

Create HintDb box discriminated.
#[export] Hint Resolve keeps_origin_clear keeps_origin_border keeps_origin_resize
  keeps_origin_addstr window_only_ret window_only_get : box.

(** Decompose a box method into window calls. *)
Ltac window_only_tac :=
  repeat first
    [ apply window_only_bind; [|intros ?]
    | apply window_only_for; intros [? ?]; cbn beta iota
    | apply window_only_with_window; auto with box
    | solve [auto with box]
    | match goal with
      | |- window_only (match ?x with _ => _ end) => destruct x
      | |- window_only (if ?x then _ else _) => destruct x
      | |- window_only (draw_metric _ _ _) => unfold draw_metric
      | |- window_only (draw_banner_row _ _) => unfold draw_banner_row
      end ].

Lemma window_only_update scr : window_only (update scr).
Proof. unfold update, resize, render, draw_content. window_only_tac. Qed.

Lemma window_only_render scr : window_only (render scr).
Proof. unfold render, draw_content. window_only_tac. Qed.

(** A new box has the border, title and class it was built with. *)
Lemma new_box_frame scr brd ttl k b :
  new_box scr brd ttl k = Ok b -> border b = brd /\ title b = ttl /\ cls b = k.
Proof.
  unfold new_box. destruct (size_of scr brd k) as [h w].
  destruct (newwin scr h w 0 0) as [win|e]; [|discriminate].
  pose proof (window_only_render scr (mkBox brd ttl k win)) as (E1 & E2 & E3 & _).
  destruct (render scr (mkBox brd ttl k win)) as [b' [[]|e]]; intros H; [|discriminate].
  injection H as <-. cbn in *. auto.
Qed.

Lemma with_window_ok f b w :
  f (window b) = Ok w -> with_window f b = (set_window b w, Ok tt).
Proof. intros H. unfold with_window. rewrite H. reflexivity. Qed.

Lemma set_window_twice b w1 w2 : set_window (set_window b w1) w2 = set_window b w2.
Proof. reflexivity. Qed.

Lemma set_window_id b : set_window b (with_ops (window b) (win_ops (window b))) = b.
Proof. destruct b as [? ? ? []]. reflexivity. Qed.

#[export] Instance compute_size_proper scr : Proper (frame_eq ==> eq) (compute_size scr).
Proof. intros b b' (E1 & _ & E3 & _). unfold compute_size. rewrite E1, E3. reflexivity. Qed.

#[export] Instance get_border_offset_proper : Proper (frame_eq ==> eq) get_border_offset.
Proof. intros b b' (E1 & _). unfold get_border_offset. rewrite E1. reflexivity. Qed.

(** [resize] empties the window and gives it the computed size. *)
Lemma resize_ok scr b h w :
  compute_size scr b = (h, w) -> 0 < h -> 0 < w ->
  resize scr b =
  (set_window b (mkWindow (win_y (window b)) (win_x (window b)) h w []), Ok tt).
Proof.
  intros E Hh Hw. unfold resize. cbn - [wresize compute_size].
  rewrite E. cbn - [wresize].
  erewrite with_window_ok; [reflexivity|apply wresize_pos; assumption].
Qed.

Lemma resize_fails scr b h w :
  compute_size scr b = (h, w) -> ~ (0 < h /\ 0 < w) ->
  outcome (update scr) b = Exc CursesError.
Proof.
  intros E Hhw. unfold outcome, update, resize. rewrite py_bind_assoc.
  cbn - [wresize compute_size]. rewrite E. cbn - [wresize].
  unfold wresize. destruct (Z.ltb_spec 0 h), (Z.ltb_spec 0 w); try lia; reflexivity.
Qed.

(** [update] does not look at what the window held before: boxes with
    the same frame are updated to the same result. *)
Lemma update_frame_indep scr b b' h w :
  frame_eq b b' -> compute_size scr b = (h, w) -> 0 < h -> 0 < w ->
  update scr b' = update scr b.
Proof.
  intros Hf E Hh Hw. unfold update.
  assert (E' : compute_size scr b' = (h, w)) by (rewrite <- Hf; exact E).
  rewrite (py_bind_ok _ _ _ _ _ (resize_ok scr b h w E Hh Hw)).
  rewrite (py_bind_ok _ _ _ _ _ (resize_ok scr b' h w E' Hh Hw)).
  destruct Hf as (E1 & E2 & E3 & E4 & E5). unfold set_window.
  rewrite E1, E2, E3, E4, E5. reflexivity.
Qed.

Lemma draw_metrics_ok offset width ms :
  forall k b,
  0 <= offset -> 0 <= width -> offset + width < win_w (window b) ->
  Z.of_nat (k + List.length ms) + offset <= win_h (window b) ->
  forallb (value_fits offset width) ms = true ->
  py_for (enumerate_from k ms) (draw_metric offset width) b =
  (set_window b (with_ops (window b) (win_ops (window b) ++ metric_ops offset width k ms)),
   Ok tt).
Proof.
  induction ms as [|m ms IH]; intros k b Hoff Hwd Hw Hh Hfit.
  - simpl. rewrite app_nil_r, set_window_id. reflexivity.
  - rewrite enumerate_from_cons. simpl in Hfit, Hh. apply andb_prop in Hfit as [Hm Hfit].
    unfold value_fits in Hm. apply Z.leb_le in Hm. pose proof (py_len_nonneg (value m)).
    cbn [py_for draw_metric]. rewrite !py_bind_assoc.
    erewrite py_bind_ok by (apply with_window_ok, waddstr_in, in_window_iff; lia).
    erewrite py_bind_ok by (apply with_window_ok, waddstr_in, in_window_iff; simpl; lia).
    rewrite IH by (cbn [window set_window win_h win_w]; first [exact Hfit | lia]).
    cbn. rewrite <- !app_assoc. reflexivity.
Qed.

Lemma draw_metrics_exc offset width ms :
  forall k b,
  0 <= offset -> 0 <= width -> offset + width < win_w (window b) ->
  Z.of_nat (k + List.length ms) + offset <= win_h (window b) ->
  forallb (value_fits offset width) ms = false ->
  outcome (py_for (enumerate_from k ms) (draw_metric offset width)) b = Exc CursesError.
Proof.
  induction ms as [|m ms IH]; intros k b Hoff Hwd Hw Hh Hfit; [discriminate|].
  rewrite enumerate_from_cons. simpl in Hfit, Hh. unfold outcome.
  cbn [py_for draw_metric]. rewrite !py_bind_assoc.
  erewrite py_bind_ok by (apply with_window_ok, waddstr_in, in_window_iff; lia).
  unfold value_fits in Hfit. destruct (Z.leb_spec (py_len (value m)) (offset + width)) as [Hm|Hm].
  - pose proof (py_len_nonneg (value m)).
    erewrite py_bind_ok by (apply with_window_ok, waddstr_in, in_window_iff; simpl; lia).
    apply IH; cbn [window set_window win_h win_w]; first [exact Hfit | lia].
  - erewrite py_bind_exc; [reflexivity|]. unfold with_window, waddstr.
    replace (in_window _ _ _) with false; [reflexivity|].
    symmetry. apply Bool.not_true_iff_false. rewrite in_window_iff. simpl. lia.
Qed.

Lemma title_offset_lt (width : Z) (t : string) :
  0 < width -> 0 <= title_offset width t < width.
Proof.
  intros Hw. unfold title_offset. pose proof (py_len_nonneg t).
  destruct (Z.ltb_spec (py_len t) width); [|lia].
  pose proof (py_int_div2_bounds (width - py_len t) ltac:(lia)). lia.
Qed.

Lemma render_title_ok (t : option string) (width : Z) (b : box) :
  0 < win_h (window b) -> 0 < width -> win_w (window b) = width ->
  match t with
  | Some s => with_window (waddstr 0 (title_offset width s) s)
  | None => py_ret tt
  end b = (set_window b (with_ops (window b) (win_ops (window b) ++ title_ops width t)), Ok tt).
Proof.
  intros Hh Hw Ew. destruct t as [s|]; simpl.
  - apply with_window_ok, waddstr_in, in_window_iff.
    pose proof (title_offset_lt width s Hw). lia.
  - rewrite app_nil_r, set_window_id. reflexivity.
Qed.

Lemma metric_box_size scr b ms :
  cls b = MetricBox ms -> border b = true ->
  compute_size scr b = (Z.of_nat (List.length ms) + 2, METRIC_BOX_WIDTH + 2).
Proof. intros E1 E2. unfold compute_size, size_of. rewrite E1, E2. reflexivity. Qed.

(** The state [update] reaches on a metric box up to its content loop. *)
Lemma update_metric_prefix scr b ms :
  cls b = MetricBox ms -> border b = true ->
  update scr b =
  py_for (enumerate ms) (draw_metric 1 METRIC_BOX_WIDTH)
    (set_window b (mkWindow (win_y (window b)) (win_x (window b))
                     (Z.of_nat (List.length ms) + 2) (METRIC_BOX_WIDTH + 2)
                     (DBorder :: title_ops (METRIC_BOX_WIDTH + 2) (title b)))).
Proof.
  intros E1 E2. unfold update.
  rewrite (py_bind_ok _ _ _ _ _ (resize_ok scr b _ _ (metric_box_size scr b ms E1 E2)
                                   ltac:(lia) ltac:(unfold METRIC_BOX_WIDTH; lia))).
  unfold render. cbn [py_bind py_get]. unfold compute_size, size_of. cbn [border cls set_window].
  rewrite E1, E2. cbn - [py_for enumerate title_offset title_ops].
  erewrite py_bind_ok by (apply render_title_ok; cbn; lia).
  unfold draw_content, get_border_offset. cbn - [py_for enumerate title_ops]. rewrite E1, E2. reflexivity.
Qed.

(** ** Theorems *)

Lemma update_metric_box_ok scr b ms :
  cls b = MetricBox ms -> border b = true ->
  forallb (value_fits 1 METRIC_BOX_WIDTH) ms = true ->
  update scr b =
  (set_window b (mkWindow (win_y (window b)) (win_x (window b))
                  (Z.of_nat (List.length ms) + 2) (METRIC_BOX_WIDTH + 2)
                  (DBorder :: title_ops (METRIC_BOX_WIDTH + 2) (title b)
                           ++ metric_ops 1 METRIC_BOX_WIDTH 0 ms)), Ok tt).
Proof.
  intros E1 E2 Hfit. rewrite (update_metric_prefix scr b ms E1 E2).
  unfold enumerate. rewrite draw_metrics_ok; cbn - [title_ops metric_ops];
    unfold METRIC_BOX_WIDTH in *; [reflexivity|lia|lia|lia|lia|exact Hfit].
Qed.

(** ** Fresh boxes *)

(** [resize] on a cleared window that already has the computed size
    changes nothing, so a first [render] is an [update]. *)
Lemma resize_fresh scr b y x h w :
  window b = mkWindow y x h w [] -> compute_size scr b = (h, w) -> 0 < h -> 0 < w ->
  resize scr b = (b, Ok tt).
Proof.
  intros Ew E Hh Hw. rewrite (resize_ok scr b h w E Hh Hw), Ew.
  destruct b as [? ? ? win]. cbn in Ew. subst win. reflexivity.
Qed.

Lemma render_fresh scr b y x h w :
  window b = mkWindow y x h w [] -> compute_size scr b = (h, w) -> 0 < h -> 0 < w ->
  render scr b = update scr b.
Proof.
  intros Ew E Hh Hw. unfold update.
  rewrite (py_bind_ok _ _ _ _ _ (resize_fresh scr b y x h w Ew E Hh Hw)). reflexivity.
Qed.

Lemma new_metric_box_ok scr ms t :
  forallb (value_fits 1 METRIC_BOX_WIDTH) ms = true ->
  new_metric_box scr ms (Some t) =
  Ok (mkBox true (Some t) (MetricBox ms)
        (mkWindow 0 0 (Z.of_nat (List.length ms) + 2) (METRIC_BOX_WIDTH + 2)
           (DBorder :: title_ops (METRIC_BOX_WIDTH + 2) (Some t)
                    ++ metric_ops 1 METRIC_BOX_WIDTH 0 ms))).
Proof.
  intros Hfit. unfold new_metric_box, new_box, size_of.
  cbn [get_height get_width].
  rewrite newwin_origin by (unfold METRIC_BOX_WIDTH in *; lia).
  rewrite (render_fresh scr _ 0 0 (Z.of_nat (List.length ms) + 2) (METRIC_BOX_WIDTH + 2))
    by (try reflexivity; unfold METRIC_BOX_WIDTH; lia).
  rewrite (update_metric_box_ok scr _ ms) by (try reflexivity; exact Hfit). reflexivity.
Qed.

(** C19: updating a metric box whose values all fit gives its window the
    size [(len metrics + 2) x 41], at the same place, holding exactly the
    border, the title and, for each metric [i], its label at [(i+1, 1)]
    and its value right-aligned at [(i+1, 40 - len value)]. *)
Theorem update_metric_box scr b ms :
  cls b = MetricBox ms -> border b = true ->
  forallb (value_fits 1 METRIC_BOX_WIDTH) ms = true ->
  update scr b =
  (set_window b (mkWindow (win_y (window b)) (win_x (window b))
                  (Z.of_nat (List.length ms) + 2) (METRIC_BOX_WIDTH + 2)
                  (DBorder :: title_ops (METRIC_BOX_WIDTH + 2) (title b)
                           ++ metric_ops 1 METRIC_BOX_WIDTH 0 ms)), Ok tt).
Proof. revert_all. exact update_metric_box_ok. Qed.

(** Every text a metric box draws is a label at the left inner
    column or a value whose last character is on the last inner column
    [offset + width - 1]: values are right-aligned. *)
Theorem metric_ops_aligned offset width k ms y x s :
  In (DText y x s) (metric_ops offset width k ms) ->
  (x = offset /\ exists m, In m ms /\ s = (label m ++ ":")%string) \/
  (x + py_len s = offset + width /\ exists m, In m ms /\ s = value m).
Proof.
  revert k. induction ms as [|m ms IH]; intros k H; [contradiction|].
  destruct H as [H|[H|H]].
  - injection H as <- <- <-. left. split; [reflexivity|]. exists m. simpl; auto.
  - injection H as <- <- <-. right. split; [lia|]. exists m. simpl; auto.
  - destruct (IH (S k) H) as [(Hx & m' & Hm & Hs)|(Hx & m' & Hm & Hs)];
      [left|right]; (split; [exact Hx|exists m'; simpl; auto]).
Qed.

Lemma update_metric_box_exc scr b ms :
  cls b = MetricBox ms -> border b = true ->
  forallb (value_fits 1 METRIC_BOX_WIDTH) ms = false ->
  outcome (update scr) b = Exc CursesError.
Proof.
  intros E1 E2 Hfit. unfold outcome. rewrite (update_metric_prefix scr b ms E1 E2).
  apply draw_metrics_exc; cbn; unfold METRIC_BOX_WIDTH in *; [lia|lia|lia|lia|exact Hfit].
Qed.

Lemma new_metric_box_exc scr ms t :
  forallb (value_fits 1 METRIC_BOX_WIDTH) ms = false ->
  new_metric_box scr ms (Some t) = Exc CursesError.
Proof.
  intros Hfit. unfold new_metric_box, new_box, size_of. cbn [get_height get_width].
  rewrite newwin_origin by (unfold METRIC_BOX_WIDTH in *; lia).
  rewrite (render_fresh scr _ 0 0 (Z.of_nat (List.length ms) + 2) (METRIC_BOX_WIDTH + 2))
    by (try reflexivity; unfold METRIC_BOX_WIDTH; lia).
  pose proof (update_metric_box_exc scr (mkBox true (Some t) (MetricBox ms)
                (mkWindow 0 0 (Z.of_nat (List.length ms) + 2) (METRIC_BOX_WIDTH + 2) []))
                ms eq_refl eq_refl Hfit) as H.
  unfold outcome in H. destruct (update scr _) as [b' [[]|e]]; cbn in H; congruence.
Qed.

(** C20: a metric value longer than [offset + width = 40] characters
    starts left of the window, and curses raises: the update fails. *)
Theorem update_metric_value_overflow scr b ms :
  cls b = MetricBox ms -> border b = true ->
  forallb (value_fits 1 METRIC_BOX_WIDTH) ms = false ->
  outcome (update scr) b = Exc CursesError.
Proof. revert_all. exact update_metric_box_exc. Qed.

Lemma Metric_fits (lbl : string) (n : N) :
  (n < 10 ^ 40)%N -> value_fits 1 METRIC_BOX_WIDTH (Metric lbl n) = true.
Proof.
  intros Hn. unfold value_fits, Metric, py_len. simpl value. apply Z.leb_le.
  assert (String.length (py_str n) <= 40)%nat
    by (apply (py_str_length_iff n 40); [lia|exact Hn]).
  unfold METRIC_BOX_WIDTH. lia.
Qed.

(** C26: counters below [10^40] always fit in a metric box. *)
Theorem Metric_value_fits (lbl : string) (n : N) :
  (n < 10 ^ 40)%N -> value_fits 1 METRIC_BOX_WIDTH (Metric lbl n) = true.
Proof. revert_all. exact Metric_fits. Qed.

(** C21: [update] is idempotent: once it has succeeded, updating again
    with the same metrics and screen redraws the same window and ends in
    the same state. *)
Theorem update_idempotent scr b :
  outcome (update scr) b = Ok tt ->
  update scr (exec (update scr) b) = update scr b.
Proof.
  intros Hok. destruct (compute_size scr b) as [h w] eqn:E.
  destruct (Z.ltb_spec 0 h), (Z.ltb_spec 0 w);
    try (rewrite (resize_fails scr b h w E) in Hok by lia; discriminate).
  apply (update_frame_indep scr b _ h w); [apply window_only_update|exact E|lia|lia].
Qed.

(** C27: [Box.render] centres a title shorter than the window: the
    columns left of it and right of it differ by at most one, the extra
    one on the right; a longer title starts at column 0. *)
Theorem title_centered (width : Z) (t : string) :
  (py_len t < width ->
   0 <= title_offset width t /\
   0 <= (width - (title_offset width t + py_len t)) - title_offset width t <= 1) /\
  (width <= py_len t -> title_offset width t = 0).
Proof.
  unfold title_offset. pose proof (py_len_nonneg t).
  split; intros Hlt; destruct (Z.ltb_spec (py_len t) width); try lia.
  rewrite py_int_div2_nonneg by lia.
  pose proof (Z.div_mod (width - py_len t) 2 ltac:(lia)).
  pose proof (Z.mod_pos_bound (width - py_len t) 2 ltac:(lia)).
  pose proof (Z.div_pos (width - py_len t) 2 ltac:(lia) ltac:(lia)). lia.
Qed.

(** C29: [MetricBox(parent, metrics, title)] creates, on any screen
    ([newwin] does not check the screen's size), a bordered window of
    [len(metrics) + 2] lines and 41 columns at the origin, already
    showing the border, the title and the metrics, when every value fits
    its row; when a value is longer than 40 characters, the first
    [render] raises [curses.error] and no box is built. *)
Theorem metric_box_constructor scr ms t :
  (forallb (value_fits 1 METRIC_BOX_WIDTH) ms = true ->
   new_metric_box scr ms (Some t) =
   Ok (mkBox true (Some t) (MetricBox ms)
         (mkWindow 0 0 (Z.of_nat (List.length ms) + 2) (METRIC_BOX_WIDTH + 2)
            (DBorder :: title_ops (METRIC_BOX_WIDTH + 2) (Some t)
                     ++ metric_ops 1 METRIC_BOX_WIDTH 0 ms)))) /\
  (forallb (value_fits 1 METRIC_BOX_WIDTH) ms = false ->
   new_metric_box scr ms (Some t) = Exc CursesError).
Proof. split; [apply new_metric_box_ok|apply new_metric_box_exc]. Qed.

(** ** Witnesses *)

Local Open Scope string_scope.

(** A worker's box as [_initialize_metric_boxes] builds it, and one whose
    byte counter has 41 digits. *)
Definition example_metrics : list metric :=
  [Metric "Files Processed" 120; Metric "Bytes Processed" 5242880;
   Metric "Matches Found" 3; Metric "Skipped Files" 0].

Definition example_box (ms : list metric) : box :=
  mkBox true (Some "Worker 1") (MetricBox ms) (mkWindow 11 0 6 41 []).

Definition example_screen : screen := mkScreen 24 160.

Definition overflow_metrics : list metric :=
  [Metric "Files Processed" 120; Metric "Bytes Processed" (10 ^ 40)%N].

Lemma update_metric_box_witness :
  cls (example_box example_metrics) = MetricBox example_metrics /\
  border (example_box example_metrics) = true /\
  forallb (value_fits 1 METRIC_BOX_WIDTH) example_metrics = true /\
  update example_screen (example_box example_metrics) =
  (set_window (example_box example_metrics)
     (mkWindow 11 0 (Z.of_nat (List.length example_metrics) + 2) (METRIC_BOX_WIDTH + 2)
        (DBorder :: title_ops (METRIC_BOX_WIDTH + 2) (Some "Worker 1")
                 ++ metric_ops 1 METRIC_BOX_WIDTH 0 example_metrics)), Ok tt).
Proof.
  assert (Hf : forallb (value_fits 1 METRIC_BOX_WIDTH) example_metrics = true) by (vm_compute; reflexivity).
  split; [reflexivity|split; [reflexivity|split; [exact Hf|]]].
  apply (update_metric_box example_screen (example_box example_metrics) example_metrics);
    [reflexivity|reflexivity|exact Hf].
Defined.

Lemma update_metric_value_overflow_witness :
  cls (example_box overflow_metrics) = MetricBox overflow_metrics /\
  border (example_box overflow_metrics) = true /\
  forallb (value_fits 1 METRIC_BOX_WIDTH) overflow_metrics = false /\
  outcome (update example_screen) (example_box overflow_metrics) = Exc CursesError.
Proof.
  assert (Hf : forallb (value_fits 1 METRIC_BOX_WIDTH) overflow_metrics = false) by (vm_compute; reflexivity).
  split; [reflexivity|split; [reflexivity|split; [exact Hf|]]].
  apply (update_metric_value_overflow example_screen (example_box overflow_metrics) overflow_metrics);
    [reflexivity|reflexivity|exact Hf].
Defined.

Lemma Metric_value_fits_witness :
  (5242880 < 10 ^ 40)%N /\ value_fits 1 METRIC_BOX_WIDTH (Metric "Bytes Processed" 5242880) = true.
Proof. split; [vm_compute; reflexivity|apply Metric_value_fits; vm_compute; reflexivity]. Defined.

Lemma title_centered_witness :
  ((py_len "Worker 1" < 41 ->
   0 <= title_offset 41 "Worker 1" /\
   0 <= (41 - (title_offset 41 "Worker 1" + py_len "Worker 1")) - title_offset 41 "Worker 1" <= 1) /\
  (41 <= py_len "Worker 1" -> title_offset 41 "Worker 1" = 0)) /\
  py_len "Worker 1" < 41.
Proof. split; [exact (title_centered 41 "Worker 1")|reflexivity]. Defined.

(** A five-line terminal, one line shorter than a worker's box. *)
Definition short_screen : screen := mkScreen 5 80.

Lemma metric_box_constructor_witness :
  forallb (value_fits 1 METRIC_BOX_WIDTH) example_metrics = true /\
  new_metric_box short_screen example_metrics (Some "Worker 1") =
   Ok (mkBox true (Some "Worker 1") (MetricBox example_metrics)
         (mkWindow 0 0 (Z.of_nat (List.length example_metrics) + 2) (METRIC_BOX_WIDTH + 2)
            (DBorder :: title_ops (METRIC_BOX_WIDTH + 2) (Some "Worker 1")
                     ++ metric_ops 1 METRIC_BOX_WIDTH 0 example_metrics))).
Proof.
  assert (Hf : forallb (value_fits 1 METRIC_BOX_WIDTH) example_metrics = true)
    by (vm_compute; reflexivity).
  split; [exact Hf|]. exact (proj1 (metric_box_constructor short_screen example_metrics "Worker 1") Hf).
Defined.

Lemma update_idempotent_witness :
  outcome (update example_screen) (example_box example_metrics) = Ok tt /\
  update example_screen (exec (update example_screen) (example_box example_metrics)) =
  update example_screen (example_box example_metrics).
Proof.
  assert (H : outcome (update example_screen) (example_box example_metrics) = Ok tt)
    by (vm_compute; reflexivity).
  split; [exact H|apply update_idempotent; exact H].
Defined.

End Box.
