(* ===== verification/Layout.v ===== *)
(** * The row packer: [BoxLayout] of [progress.py]

    [BoxLayout.position(box)] places boxes left to right with [padding]
    columns between them, and starts a new row below the tallest box of
    the current one when the box does not fit in the columns left.  The
    layout only needs a box's computed size and a way to move its window:
    that is the [Panel] interface, which [Box.box] implements with
    [Box.compute_size] and [Box.set_position] ([mvwin]).

    [place] is the arithmetic of one [position] call, [pack] runs it over
    a sequence of sizes.  The theorems: boxes packed from a fresh layout
    never overlap, a box that is not first in its row ends within the
    columns, and for equal boxes the row and column of the [j]-th box and
    the last line they occupy have closed forms. *)

From Stdlib Require Import ZArith List String Lia.
From S2P Require Import Prelude Curses Box.
Import ListNotations.
Open Scope Z_scope.

(** ** The interface a packed box offers *)

Definition fits_at (scr : screen) (y x : Z) (extent : Z * Z) : Prop :=
  0 <= y /\ 0 <= x /\ y + fst extent <= lines scr /\ x + snd extent <= cols scr.

Class Panel (T : Type) := {
  panel_size : screen -> T -> Z * Z;
  panel_extent : T -> Z * Z;
  panel_origin : T -> Z * Z;
  panel_move : screen -> Z -> Z -> PyM T unit;
  panel_move_ok : forall scr y x p,
    fits_at scr y x (panel_extent p) ->
    exists p', panel_move scr y x p = (p', Ok tt) /\ panel_origin p' = (y, x) /\
               panel_extent p' = panel_extent p /\ panel_size scr p' = panel_size scr p;
  panel_move_fail : forall scr y x p,
    ~ fits_at scr y x (panel_extent p) ->
    panel_move scr y x p = (p, Exc CursesError)
}.

(** ** The layout *)

Record BoxLayout := mkLayout {
  layout_lines : Z;
  layout_cols : Z;
  padding : Z;
  x : Z;
  y : Z;
  max_row_height : Z
}.

(** [BoxLayout(lines, cols, padding)] *)
Definition new_layout (lns cls pad : Z) : BoxLayout := mkLayout lns cls pad 0 0 0.

(** The new-row branch of [position]. *)
Definition wrap_if (L : BoxLayout) (width : Z) : BoxLayout :=
  if layout_cols L - x L <? width
  then mkLayout (layout_lines L) (layout_cols L) (padding L)
                0 (y L + max_row_height L + padding L) 0
  else L.

(** The two assignments after [set_position]. *)
Definition after_place (L : BoxLayout) (height width : Z) : BoxLayout :=
  mkLayout (layout_lines L) (layout_cols L) (padding L)
           (x L + width + padding L) (y L) (Z.max height (max_row_height L)).

Definition position {T} `{Panel T} (scr : screen) : PyM (BoxLayout * T) unit :=
  fun '(L, p) =>
    let '(height, width) := panel_size scr p in
    let L1 := wrap_if L width in
    match panel_move scr (y L1) (x L1) p with
    | (p', Exc e) => ((L1, p'), Exc e)
    | (p', Ok _) => ((after_place L1 height width, p'), Ok tt)
    end.

(** One [position] call on the numbers: the new layout and the place. *)
Definition place (L : BoxLayout) (height width : Z) : BoxLayout * (Z * Z) :=
  let L1 := wrap_if L width in
  (after_place L1 height width, (y L1, x L1)).

Record rect := mkRect { ry : Z; rx : Z; rh : Z; rw : Z }.

Fixpoint pack (L : BoxLayout) (sizes : list (Z * Z)) : list rect * BoxLayout :=
  match sizes with
  | [] => ([], L)
  | (h, w) :: rest =>
      let '(L', (py, px)) := place L h w in
      let '(rs, Lf) := pack L' rest in
      (mkRect py px h w :: rs, Lf)
  end.

(** ** [Box.box] is a panel *)

Lemma box_move_ok scr y0 x0 b :
  fits_at scr y0 x0 (win_h (Box.window b), win_w (Box.window b)) ->
  exists b', Box.set_position scr y0 x0 b = (b', Ok tt) /\
             (win_y (Box.window b'), win_x (Box.window b')) = (y0, x0) /\
             (win_h (Box.window b'), win_w (Box.window b')) =
               (win_h (Box.window b), win_w (Box.window b)) /\
             Box.compute_size scr b' = Box.compute_size scr b.
Proof.
  intros (H1 & H2 & H3 & H4). simpl in *.
  eexists. split; [unfold Box.set_position; apply Box.with_window_ok, mvwin_fits; assumption|].
  repeat split.
Qed.

Lemma box_move_fail scr y0 x0 b :
  ~ fits_at scr y0 x0 (win_h (Box.window b), win_w (Box.window b)) ->
  Box.set_position scr y0 x0 b = (b, Exc CursesError).
Proof.
  intros Hn. unfold Box.set_position, Box.with_window, mvwin, fits_at in *.
  simpl in Hn. destruct (fits_on scr y0 x0 (win_h (Box.window b)) (win_w (Box.window b))) eqn:E;
    [|reflexivity].
  exfalso. apply Hn. unfold fits_on in E.
  repeat rewrite Bool.andb_true_iff in E. rewrite !Z.leb_le in E. lia.
Qed.

#[export] Instance box_panel : Panel Box.box := {
  panel_size := Box.compute_size;
  panel_extent := fun b => (win_h (Box.window b), win_w (Box.window b));
  panel_origin := fun b => (win_y (Box.window b), win_x (Box.window b));
  panel_move := Box.set_position;
  panel_move_ok := box_move_ok;
  panel_move_fail := box_move_fail
}.

(** ** [position] against the interface *)

Section Position.
Context {T : Type} `{Panel T}.

Lemma position_ok scr L (p : T) h w :
  panel_size scr p = (h, w) ->
  fits_at scr (y (wrap_if L w)) (x (wrap_if L w)) (panel_extent p) ->
  exists p', position scr (L, p) = ((fst (place L h w), p'), Ok tt) /\
             panel_origin p' = snd (place L h w) /\ panel_extent p' = panel_extent p.
Proof.
  intros Hs Hfit. destruct (panel_move_ok scr _ _ p Hfit) as (p' & Hm & Ho & He & _).
  exists p'. unfold position. rewrite Hs, Hm. split; [reflexivity|]. split; assumption.
Qed.

Lemma position_fail scr L (p : T) h w :
  panel_size scr p = (h, w) ->
  ~ fits_at scr (y (wrap_if L w)) (x (wrap_if L w)) (panel_extent p) ->
  position scr (L, p) = ((wrap_if L w, p), Exc CursesError).
Proof.
  intros Hs Hn. unfold position. rewrite Hs, (panel_move_fail scr _ _ p Hn). reflexivity.
Qed.

End Position.

(** ** Invariants of the packing *)

Section Packing.

(** A layout invariant kept by every placement, and a property of each
    placed rectangle that the invariant guarantees, hold along [pack]. *)
Lemma pack_Forall (I : BoxLayout -> Prop) (P : rect -> Prop) (sizes : list (Z * Z)) :
  (forall L h w, In (h, w) sizes -> I L ->
     I (fst (place L h w)) /\ P (mkRect (fst (snd (place L h w))) (snd (snd (place L h w))) h w)) ->
  forall L, I L -> Forall P (fst (pack L sizes)) /\ I (snd (pack L sizes)).
Proof.
  induction sizes as [|[h w] sizes IH]; intros Hstep L HI; [split; [constructor|exact HI]|].
  cbn [pack]. destruct (Hstep L h w (or_introl eq_refl) HI) as [HI' HP].
  destruct (place L h w) as [L' [py px]] eqn:E. simpl in HI', HP.
  destruct (IH (fun L0 h0 w0 Hin => Hstep L0 h0 w0 (or_intror Hin)) L' HI') as [HF HIf].
  destruct (pack L' sizes) as [rs Lf]. simpl in *. split; [constructor; assumption|exact HIf].
Qed.

Definition sizes_ok (sizes : list (Z * Z)) : Prop :=
  forall h w, In (h, w) sizes -> 0 <= h /\ 0 <= w.

Lemma sizes_ok_forallb (sizes : list (Z * Z)) :
  forallb (fun '(h, w) => (0 <=? h) && (0 <=? w))%bool sizes = true -> sizes_ok sizes.
Proof.
  intros H h w Hin. rewrite forallb_forall in H. specialize (H _ Hin).
  apply andb_prop in H. destruct H as [H1 H2]. apply Z.leb_le in H1, H2. lia.
Qed.

Lemma place_y L h w : y (fst (place L h w)) = fst (snd (place L h w)).
Proof. reflexivity. Qed.

Lemma place_x L h w : x (fst (place L h w)) = snd (snd (place L h w)) + w + padding L.
Proof. unfold place, wrap_if. destruct (_ <? _); reflexivity. Qed.

Lemma place_frame L h w :
  layout_cols (fst (place L h w)) = layout_cols L /\ padding (fst (place L h w)) = padding L.
Proof. unfold place, wrap_if. destruct (_ <? _); split; reflexivity. Qed.

(** The new-row test: a box is placed at column 0, or it ends within
    the columns. *)
Lemma place_cases L h w :
  (fst (snd (place L h w)) = y L + max_row_height L + padding L /\
   snd (snd (place L h w)) = 0 /\ max_row_height (fst (place L h w)) = Z.max h 0 /\
   layout_cols L - x L < w)
  \/
  (fst (snd (place L h w)) = y L /\ snd (snd (place L h w)) = x L /\
   max_row_height (fst (place L h w)) = Z.max h (max_row_height L) /\
   w <= layout_cols L - x L).
Proof.
  unfold place, wrap_if. destruct (Z.ltb_spec (layout_cols L - x L) w); [left|right]; simpl; auto.
Qed.

(** C13: boxes packed from a fresh layout keep to the columns: each
    starts at a non-negative column, and any box that does not start a
    row ends within the layout's columns. *)
Theorem pack_within_columns lns cls pad sizes :
  0 <= pad -> sizes_ok sizes ->
  Forall (fun r => 0 <= rx r /\ (rx r = 0 \/ rx r + rw r <= cls))
         (fst (pack (new_layout lns cls pad) sizes)).
Proof.
  intros Hpad Hs.
  apply (pack_Forall (fun L => 0 <= x L /\ layout_cols L = cls /\ padding L = pad)); [|simpl; lia].
  intros L h w Hin (Hx & Hc & Hp). destruct (Hs h w Hin) as [Hh Hw].
  pose proof (place_x L h w). destruct (place_frame L h w) as [Hc' Hp']. cbn [rx rw].
  destruct (place_cases L h w) as [(_ & E & _)|(_ & E & _ & Hfit)]; rewrite E in *; lia.
Qed.

Definition disjoint (a b : rect) : Prop :=
  ry a + rh a <= ry b \/ ry b + rh b <= ry a \/ rx a + rw a <= rx b \/ rx b + rw b <= rx a.

(** Where a placed box lies with respect to the layout: in a finished
    row above, or in the current row left of the cursor and no taller
    than the row. *)
Definition row_inv (L : BoxLayout) (r : rect) : Prop :=
  ry r + rh r <= y L \/
  (ry r = y L /\ rx r + rw r + padding L <= x L /\ rh r <= max_row_height L).

Definition placed_rect (L : BoxLayout) (h w : Z) : rect :=
  mkRect (fst (snd (place L h w))) (snd (snd (place L h w))) h w.

Lemma place_keeps_row_inv L h w r :
  0 <= padding L -> 0 <= max_row_height L -> 0 <= h -> 0 <= w -> row_inv L r ->
  row_inv (fst (place L h w)) r /\ disjoint r (placed_rect L h w).
Proof.
  unfold row_inv, disjoint, placed_rect. cbn [ry rx rh rw].
  intros Hp Hm Hh Hw Hr. rewrite place_x, place_y. destruct (place_frame L h w) as [_ ->].
  destruct (place_cases L h w) as [(E1 & E2 & E3 & _)|(E1 & E2 & E3 & _)];
    rewrite E1, E2 in *; rewrite ?E3; lia.
Qed.

Lemma place_new_row_inv L h w :
  0 <= max_row_height L -> 0 <= h ->
  row_inv (fst (place L h w)) (placed_rect L h w) /\ 0 <= max_row_height (fst (place L h w)).
Proof.
  unfold row_inv, placed_rect. cbn [ry rx rh rw]. intros Hm Hh.
  rewrite place_x, place_y. destruct (place_frame L h w) as [_ ->].
  destruct (place_cases L h w) as [(_ & _ & E3 & _)|(_ & _ & E3 & _)]; rewrite E3; lia.
Qed.

Lemma pack_cons L h w sizes :
  fst (pack L ((h, w) :: sizes)) = placed_rect L h w :: fst (pack (fst (place L h w)) sizes).
Proof.
  cbn [pack]. unfold placed_rect. destruct (place L h w) as [L' [py px]].
  cbn [fst snd]. destruct (pack L' sizes). reflexivity.
Qed.

Lemma pack_disjoint_aux sizes :
  sizes_ok sizes ->
  forall L placed,
  0 <= padding L -> 0 <= max_row_height L -> Forall (row_inv L) placed ->
  Forall (fun r => Forall (disjoint r) (fst (pack L sizes))) placed /\
  ForallOrdPairs disjoint (fst (pack L sizes)).
Proof.
  induction sizes as [|[h w] sizes IH]; intros Hs L placed Hp Hm Hpl.
  - split; [apply Forall_forall; intros; constructor|constructor].
  - destruct (Hs h w (or_introl eq_refl)) as [Hh Hw].
    assert (Hs' : sizes_ok sizes) by (intros h0 w0 Hin; apply Hs; right; exact Hin).
    destruct (place_new_row_inv L h w Hm Hh) as [Hn Hm'].
    assert (Hkeep : forall r, In r placed ->
                    row_inv (fst (place L h w)) r /\ disjoint r (placed_rect L h w))
      by (intros r Hin; apply place_keeps_row_inv; auto; rewrite Forall_forall in Hpl; auto).
    destruct (IH Hs' (fst (place L h w)) (placed_rect L h w :: placed))
      as [Hall Hpairs];
      [rewrite (proj2 (place_frame L h w)); exact Hp|exact Hm'|
       constructor; [exact Hn|apply Forall_forall; intros r Hin; apply Hkeep, Hin]|].
    rewrite pack_cons. inversion Hall as [|? ? Hhead Htail]; subst.
    split.
    + apply Forall_forall. intros r Hin. constructor.
      * apply Hkeep, Hin.
      * rewrite Forall_forall in Htail. apply Htail, Hin.
    + constructor; assumption.
Qed.

(** C12: boxes packed from a fresh layout with non-negative padding never
    overlap: any two placed rectangles are separated vertically or
    horizontally. *)
Theorem pack_disjoint lns cls pad sizes :
  0 <= pad -> sizes_ok sizes ->
  ForallOrdPairs disjoint (fst (pack (new_layout lns cls pad) sizes)).
Proof.
  intros Hp Hs.
  refine (proj2 (pack_disjoint_aux sizes Hs (new_layout lns cls pad) [] _ _ _));
    simpl; [exact Hp|lia|constructor].
Qed.

End Packing.

(** ** Packing equal boxes

    From the start of a row at line [y0], boxes of size [h x w] go [k] to
    a row, where [k] is the number of boxes with their paddings between
    them that fit in the columns. *)

Definition last_line (rs : list rect) : Z :=
  fold_right (fun r acc => Z.max (ry r + rh r - 1) acc) (-1) rs.

Section EqualBoxes.
Variables (lns c pad h w y0 k : Z).
Hypothesis Hh : 0 <= h.
Hypothesis Hw : 0 <= w.
Hypothesis Hp : 0 <= pad.
Hypothesis Hk : 1 <= k.
Hypothesis Hy0 : 0 <= y0.
Hypothesis Hc : k * (w + pad) - pad <= c < (k + 1) * (w + pad) - pad.

(** The layout after [j] boxes. *)
Definition row_state (j : Z) : BoxLayout :=
  if j =? 0 then mkLayout lns c pad 0 y0 0
  else mkLayout lns c pad (((j - 1) mod k + 1) * (w + pad))
                (y0 + ((j - 1) / k) * (h + pad)) h.

(** The place of the [j]-th box. *)
Definition box_at (j : Z) : rect := mkRect (y0 + (j / k) * (h + pad)) ((j mod k) * (w + pad)) h w.

Fixpoint boxes_from (j : Z) (n : nat) : list rect :=
  match n with
  | O => []
  | S n' => box_at j :: boxes_from (j + 1) n'
  end.

Lemma place_row_state (j : Z) :
  0 <= j -> place (row_state j) h w = (row_state (j + 1), (ry (box_at j), rx (box_at j))).
Proof.
  intros Hj. unfold place, wrap_if, after_place, row_state, box_at. cbn [ry rx].
  replace (j + 1 =? 0) with false by (symmetry; apply Z.eqb_neq; lia).
  replace (j + 1 - 1) with j by lia.
  destruct (Z.eqb_spec j 0) as [->|Hj0]; cbn [layout_cols x y max_row_height padding layout_lines].
  - rewrite Z.mod_0_l, Z.div_0_l by lia.
    replace (c - 0 <? w) with false by (symmetry; apply Z.ltb_ge; nia).
    cbn [layout_cols x y max_row_height padding layout_lines]. f_equal; f_equal; lia.
  - pose proof (Z.div_mod (j - 1) k ltac:(lia)) as Ea.
    pose proof (Z.mod_pos_bound (j - 1) k ltac:(lia)) as Hr.
    set (q := (j - 1) / k) in *. set (r := (j - 1) mod k) in *.
    destruct (Z.eq_dec (r + 1) k) as [Hfull|Hroom].
    + assert (Eq : j / k = q + 1) by (symmetry; apply (Z.div_unique j k _ 0); lia).
      assert (Er : j mod k = 0) by (symmetry; apply (Z.mod_unique j k (q + 1)); lia).
      rewrite Eq, Er.
      replace (c - (r + 1) * (w + pad) <? w) with true
        by (symmetry; apply Z.ltb_lt; rewrite Hfull; nia).
      cbn [layout_cols x y max_row_height padding layout_lines]. f_equal; f_equal; lia.
    + assert (Eq : j / k = q) by (symmetry; apply (Z.div_unique j k _ (r + 1)); lia).
      assert (Er : j mod k = r + 1) by (symmetry; apply (Z.mod_unique j k q); lia).
      rewrite Eq, Er.
      assert ((r + 2) * (w + pad) <= k * (w + pad)) by (apply Z.mul_le_mono_nonneg_r; lia).
      replace (c - (r + 1) * (w + pad) <? w) with false
        by (symmetry; apply Z.ltb_ge; nia).
      cbn [layout_cols x y max_row_height padding layout_lines]. f_equal; f_equal; lia.
Qed.

Lemma pack_row_state (n : nat) :
  forall j, 0 <= j ->
  pack (row_state j) (repeat (h, w) n) = (boxes_from j n, row_state (j + Z.of_nat n)).
Proof.
  induction n as [|n IH]; intros j Hj; cbn [repeat pack boxes_from].
  - rewrite Z.add_0_r. reflexivity.
  - rewrite place_row_state by exact Hj. rewrite IH by lia.
    replace (j + 1 + Z.of_nat n) with (j + Z.of_nat (S n)) by lia. reflexivity.
Qed.

Lemma last_line_boxes_from (n : nat) :
  forall j, 0 <= j ->
  last_line (boxes_from j (S n)) = y0 + ((j + Z.of_nat n) / k) * (h + pad) + h - 1.
Proof.
  induction n as [|n IH]; intros j Hj.
  - unfold last_line. cbn [boxes_from fold_right box_at ry rh]. change (Z.of_nat 0) with 0.
    rewrite Z.add_0_r. pose proof (Z.div_pos j k Hj ltac:(lia)). nia.
  - change (last_line (boxes_from j (S (S n))))
      with (Z.max (ry (box_at j) + rh (box_at j) - 1) (last_line (boxes_from (j + 1) (S n)))).
    rewrite IH by lia. cbn [box_at ry rh].
    replace (j + 1 + Z.of_nat n) with (j + Z.of_nat (S n)) by lia.
    assert (j / k <= (j + Z.of_nat (S n)) / k) by (apply Z.div_le_mono; lia).
    assert ((j / k) * (h + pad) <= ((j + Z.of_nat (S n)) / k) * (h + pad))
      by (apply Z.mul_le_mono_nonneg_r; lia).
    lia.
Qed.

End EqualBoxes.

(** ** Witnesses *)

(** The dashboard of four workers under a 10-line banner on 160 columns. *)
Definition dashboard_example : list (Z * Z) := [(10, 160); (6, 41); (6, 41); (6, 41); (6, 41)].

Lemma pack_within_columns_witness :
  0 <= 1 /\ sizes_ok dashboard_example /\
  Forall (fun r => 0 <= rx r /\ (rx r = 0 \/ rx r + rw r <= 160))
         (fst (pack (new_layout 24 160 1) dashboard_example)).
Proof.
  assert (Hs : sizes_ok dashboard_example) by (apply sizes_ok_forallb; reflexivity).
  split; [lia|split; [exact Hs|]]. apply pack_within_columns; [lia|exact Hs].
Defined.

Lemma pack_disjoint_witness :
  0 <= 1 /\ sizes_ok dashboard_example /\
  ForallOrdPairs disjoint (fst (pack (new_layout 24 160 1) dashboard_example)).
Proof.
  assert (Hs : sizes_ok dashboard_example) by (apply sizes_ok_forallb; reflexivity).
  split; [lia|split; [exact Hs|]]. apply pack_disjoint; [lia|exact Hs].
Defined.

(** A 41-column metric box placed by a layout at column 120 of a
    160-column screen: it does not fit, so a new row starts. *)
Definition example_metric_box : Box.box :=
  Box.mkBox true (Some "Worker 4"%string)
    (Box.MetricBox [Box.Metric "Files Processed" 0; Box.Metric "Bytes Processed" 0;
                    Box.Metric "Matches Found" 0; Box.Metric "Index" 3]%string)
    (mkWindow 0 0 6 41 []).

Definition example_layout : BoxLayout := mkLayout 24 160 1 126 0 6.

