(* ===== verification/Geometry.v ===== *)
(** * Layout values: [ProgressDisplay.metric_boxes_per_row],
      [get_layout_values] and [requirements_met]

    These static methods predict, without placing any window, how many
    metric boxes go on a row, how many rows they take and the last screen
    line they occupy; [requirements_met] uses the prediction to decide
    whether the dashboard fits the terminal, and [scan_finished_handler]
    to place the summary below the boxes.

    The prediction is compared with what [BoxLayout] really does: the
    dashboard packs the banner box ([rows x cols], no border) and then
    one [6 x 41] metric box per worker with one column of padding.  The
    packer puts [(cols + 1) / 42] boxes on a row; [metric_boxes_per_row]
    divides by the interior width 39 instead.  The theorems show the
    formula for the last line is right once the per-row count is, and
    exhibit the terminals where the two counts differ. *)

From Stdlib Require Import ZArith List Lia.
From S2P Require Import Prelude Curses Box Layout.
Import ListNotations.
Open Scope Z_scope.

Definition METRICS_PADDING : Z := 1.
Definition METRICS_COUNT : Z := 4.

(** [metric_boxes_per_row(columns, padding)]. *)
Definition metric_boxes_per_row (columns padding : Z) : Z :=
  let per_row := columns / METRIC_BOX_WIDTH in
  if per_row =? 0 then 0
  else
    let display_length := per_row * METRIC_BOX_WIDTH + (padding * per_row - 1) in
    if display_length <=? columns then per_row else per_row - 1.

Record LayoutValues := mkLayoutValues {
  lv_rows : Z;
  lv_cols : Z;
  metrics_per_row : Z;
  metric_rows : Z;
  metric_height : Z;
  banner_height : Z;
  last_metric_line : Z
}.

(** The last line of the boxes, from the number of metric rows. *)
Definition last_line_of (metric_height metric_rows bh : Z) : Z :=
  let padding := (if bh =? 0 then 0 else 1) + (metric_rows - 1) in
  metric_height * metric_rows + bh + padding - 1.

(** [get_layout_values] once its optional arguments are known. *)
Definition layout_values (worker_count bh cols rows : Z) : res LayoutValues :=
  let metric_height := METRICS_COUNT + 2 in
  let per_row := metric_boxes_per_row cols METRICS_PADDING in
  match py_ceil_div worker_count per_row with
  | Exc e => Exc e
  | Ok metric_rows =>
      Ok (mkLayoutValues rows cols per_row metric_rows metric_height bh
                         (last_line_of metric_height metric_rows bh))
  end.

(** What [get_layout_values] reads when an argument is [None]: the
    welcome banner ([get_welcome_banner], not under src/) and the
    terminal size ([os.get_terminal_size()]). *)
Record environment := mkEnv {
  env_banner : option banner;
  env_cols : Z;
  env_rows : Z
}.

Definition get_layout_values (env : environment) (worker_count : Z)
    (banner_height cols rows : option Z) (show_banner : bool) : res LayoutValues :=
  let bh :=
    match banner_height with
    | Some h => h
    | None =>
        if show_banner
        then match env_banner env with
             | Some b => Z.of_nat (List.length (banner_rows b))
             | None => 0
             end
        else 0
    end in
  let '(c, r) :=
    match cols, rows with
    | Some c, Some r => (c, r)
    | _, _ => (match cols with Some c => c | None => env_cols env end,
               match rows with Some r => r | None => env_rows env end)
    end in
  layout_values worker_count bh c r.

(** [requirements_met(worker_count, show_banner)], where [show] is what
    [should_show_welcome_banner(show_banner)] (not under src/) answers. *)
Definition requirements_met (env : environment) (worker_count : Z) (show : bool) : res bool :=
  match get_layout_values env worker_count None None None show with
  | Exc e => Exc e
  | Ok lv =>
      Ok ((lv_rows lv >=? last_metric_line lv) && (lv_cols lv >? METRIC_BOX_WIDTH + 2))%bool
  end.

(** ** What the packer does with the dashboard's boxes *)

(** The sizes [_display_metrics] hands to [BoxLayout.position]: the
    banner box (its [row_count] lines, the full width, no border), then
    one metric box of four metrics per worker. *)
Definition dashboard_sizes (bh : option Z) (cols : Z) (workers : nat) : list (Z * Z) :=
  match bh with Some h => [(h, cols)] | None => [] end
  ++ repeat (METRICS_COUNT + 2, METRIC_BOX_WIDTH + 2) workers.

Definition packed_last_line (lns cols : Z) (bh : option Z) (workers : nat) : Z :=
  last_line (fst (pack (new_layout lns cols METRICS_PADDING) (dashboard_sizes bh cols workers))).

(** The number of metric boxes the packer puts on a row. *)
Definition packer_per_row (cols : Z) : Z := (cols + 1) / (METRIC_BOX_WIDTH + 2 + METRICS_PADDING).

(** The reference count: how many boxes of [width] columns, with
    [padding] columns between two of them, fit in [columns] columns.
    [packer_per_row] is this count for the full box width 41. *)
Definition row_capacity (width padding columns : Z) : Z := (columns + padding) / (width + padding).

(** ** The per-row count *)

Lemma metric_boxes_per_row_cases (c : Z) :
  0 <= c ->
  (c < 39 /\ metric_boxes_per_row c 1 = 0) \/
  (39 <= c /\ 40 * (c / 39) - 1 <= c /\ metric_boxes_per_row c 1 = c / 39) \/
  (39 <= c /\ c < 40 * (c / 39) - 1 /\ metric_boxes_per_row c 1 = c / 39 - 1).
Proof.
  intros Hc. unfold metric_boxes_per_row, METRIC_BOX_WIDTH.
  pose proof (Z.div_mod c 39 ltac:(lia)). pose proof (Z.mod_pos_bound c 39 ltac:(lia)).
  destruct (Z.eqb_spec (c / 39) 0) as [E|E]; [left; lia|right].
  destruct (Z.leb_spec (c / 39 * 39 + (1 * (c / 39) - 1)) c); [left|right]; lia.
Qed.

(** C25: the number of metric boxes [metric_boxes_per_row] allows on a
    row never decreases when the terminal gets wider. *)
Theorem metric_boxes_per_row_monotone (c1 c2 : Z) :
  0 <= c1 <= c2 -> metric_boxes_per_row c1 1 <= metric_boxes_per_row c2 1.
Proof.
  intros H. assert (c1 / 39 <= c2 / 39) by (apply Z.div_le_mono; lia).
  pose proof (Z.div_mod c2 39 ltac:(lia)). pose proof (Z.mod_pos_bound c2 39 ltac:(lia)).
  destruct (metric_boxes_per_row_cases c1 ltac:(lia)) as [(? & ->)|[(? & ? & ->)|(? & ? & ->)]];
  destruct (metric_boxes_per_row_cases c2 ltac:(lia)) as [(? & ->)|[(? & ? & ->)|(? & ? & ->)]];
  destruct (Z.eq_dec (c1 / 39) (c2 / 39)) as [Heq|Hne]; try rewrite Heq in *; lia.
Qed.

Lemma metric_boxes_per_row_zero (c : Z) :
  0 <= c -> (metric_boxes_per_row c 1 = 0 <-> c < METRIC_BOX_WIDTH).
Proof.
  intros Hc. unfold METRIC_BOX_WIDTH.
  destruct (metric_boxes_per_row_cases c Hc) as [(? & ->)|[(? & ? & ->)|(? & ? & ->)]];
    [lia| |]; (split; [|lia]); intros E.
  - assert (1 <= c / 39) by (apply (Z.div_le_lower_bound c 39 1); lia). lia.
  - assert (1 <= c / 39) by (apply (Z.div_le_lower_bound c 39 1); lia).
    assert (c / 39 <> 1) by (intros E1; rewrite E1 in *; lia). lia.
Qed.

(** [row_capacity] is the largest number of boxes that fit. *)
Lemma row_capacity_spec (width padding columns k : Z) :
  0 < width + padding -> 0 <= k ->
  (k * width + (k - 1) * padding <= columns <-> k <= row_capacity width padding columns).
Proof.
  intros Hwp Hk. unfold row_capacity. split; intros H.
  - apply Z.div_le_lower_bound; lia.
  - pose proof (Z.mul_div_le (columns + padding) (width + padding) Hwp).
    assert (k * (width + padding) <= (width + padding) * ((columns + padding) / (width + padding)))
      by nia. lia.
Qed.

Lemma packer_per_row_capacity cols : packer_per_row cols = row_capacity (METRIC_BOX_WIDTH + 2) 1 cols.
Proof. reflexivity. Qed.

(** C30: [metric_boxes_per_row] is meant to count the boxes of the
    interior width 39 that fit with one column between them.  It does so
    on every terminal narrower than 1638 columns; it never counts fewer,
    and from 1638 columns on it may count one more, since its correction
    [per_row - 1] removes at most one box. *)
Theorem metric_boxes_per_row_reference (c : Z) :
  0 <= c ->
  (c < 1638 -> metric_boxes_per_row c 1 = row_capacity METRIC_BOX_WIDTH 1 c) /\
  row_capacity METRIC_BOX_WIDTH 1 c <= metric_boxes_per_row c 1 /\
  metric_boxes_per_row 1638 1 = row_capacity METRIC_BOX_WIDTH 1 1638 + 1.
Proof.
  intros Hc. unfold row_capacity, METRIC_BOX_WIDTH. change (39 + 1) with 40.
  pose proof (Z.div_mod (c + 1) 40 ltac:(lia)). pose proof (Z.mod_pos_bound (c + 1) 40 ltac:(lia)).
  pose proof (Z.div_mod c 39 ltac:(lia)). pose proof (Z.mod_pos_bound c 39 ltac:(lia)).
  split; [|split; [|reflexivity]];
    destruct (metric_boxes_per_row_cases c Hc) as [(? & ->)|[(? & ? & ->)|(? & ? & ->)]]; intros; lia.
Qed.

(** C8: [metric_boxes_per_row] is 0 exactly on terminals narrower than
    the interior width 39, not below the full box width 41. *)
Theorem metric_boxes_per_row_zero_iff (c : Z) :
  0 <= c -> (metric_boxes_per_row c 1 = 0 <-> c < METRIC_BOX_WIDTH).
Proof. revert_all. exact metric_boxes_per_row_zero. Qed.

(** C7: on a terminal narrower than 39 columns [get_layout_values]
    divides by a per-row count of 0 and raises [ZeroDivisionError], so
    [requirements_met] raises instead of answering [False]. *)
Theorem requirements_met_narrow_raises env worker_count show :
  0 <= env_cols env < METRIC_BOX_WIDTH ->
  requirements_met env worker_count show = Exc ZeroDivisionError.
Proof.
  intros Hc. unfold requirements_met, get_layout_values, layout_values, py_ceil_div.
  replace (metric_boxes_per_row (env_cols env) METRICS_PADDING) with 0
    by (symmetry; apply metric_boxes_per_row_zero; lia).
  reflexivity.
Qed.

(** ** The formula against the packer *)

Lemma packer_per_row_spec (cols : Z) :
  METRIC_BOX_WIDTH + 2 <= cols ->
  1 <= packer_per_row cols /\
  packer_per_row cols * (41 + 1) - 1 <= cols < (packer_per_row cols + 1) * (41 + 1) - 1.
Proof.
  intros Hc. unfold packer_per_row, METRIC_BOX_WIDTH, METRICS_PADDING in *.
  change (39 + 2 + 1) with 42.
  pose proof (Z.div_mod (cols + 1) 42 ltac:(lia)).
  pose proof (Z.mod_pos_bound (cols + 1) 42 ltac:(lia)). lia.
Qed.

Lemma ceil_div_succ (n k : Z) : 1 <= k -> 0 <= n -> ceil_div (n + 1) k = n / k + 1.
Proof.
  intros Hk Hn. apply ceil_div_unique; [lia|].
  pose proof (Z.div_mod n k ltac:(lia)). pose proof (Z.mod_pos_bound n k ltac:(lia)). nia.
Qed.

Lemma pack_first_place L1 L2 h w rest :
  place L1 h w = place L2 h w -> pack L1 ((h, w) :: rest) = pack L2 ((h, w) :: rest).
Proof. intros E. cbn [pack]. rewrite E. reflexivity. Qed.

Lemma last_line_cons r rs : last_line (r :: rs) = Z.max (ry r + rh r - 1) (last_line rs).
Proof. reflexivity. Qed.

(** The banner box goes to the top-left corner. *)
Lemma banner_rect lns cols h :
  0 <= cols -> placed_rect (new_layout lns cols METRICS_PADDING) h cols = mkRect 0 0 h cols.
Proof.
  intros Hc. unfold placed_rect, place, wrap_if, new_layout. cbn [layout_cols x].
  replace (cols - 0 <? cols) with false by (symmetry; apply Z.ltb_ge; lia). reflexivity.
Qed.

(** After the banner box, the first metric box starts a new row below it. *)
Lemma place_after_banner lns cols h k :
  METRIC_BOX_WIDTH + 2 <= cols -> 0 <= h ->
  place (fst (place (new_layout lns cols METRICS_PADDING) h cols)) 6 41 =
  place (row_state lns cols 1 6 41 (h + 1) k 0) 6 41.
Proof.
  intros Hc Hh. unfold place, wrap_if, after_place, new_layout, row_state, METRIC_BOX_WIDTH, METRICS_PADDING in *.
  cbn [layout_cols x y max_row_height padding layout_lines fst Z.eqb].
  replace (cols - 0 <? cols) with false by (symmetry; apply Z.ltb_ge; lia).
  cbn [layout_cols x y max_row_height padding layout_lines fst].
  replace (cols - (0 + cols + 1) <? 41) with true by (symmetry; apply Z.ltb_lt; lia).
  replace (cols - 0 <? 41) with false by (symmetry; apply Z.ltb_ge; lia).
  cbn [layout_cols x y max_row_height padding layout_lines].
  rewrite Z.max_l by lia. f_equal; f_equal; lia.
Qed.

Lemma packed_last_line_eq lns cols bh (n : nat) :
  METRIC_BOX_WIDTH + 2 <= cols -> (1 <= n)%nat ->
  (forall h, bh = Some h -> 1 <= h) ->
  packed_last_line lns cols bh n =
  last_line_of (METRICS_COUNT + 2) (ceil_div (Z.of_nat n) (packer_per_row cols))
               (match bh with Some h => h | None => 0 end).
Proof.
  intros Hc Hn Hbh. destruct (packer_per_row_spec cols Hc) as [Hk Hkc].
  set (k := packer_per_row cols) in *.
  destruct n as [|n]; [lia|].
  replace (Z.of_nat (S n)) with (Z.of_nat n + 1) by lia.
  rewrite ceil_div_succ by lia. unfold packed_last_line, dashboard_sizes.
  assert (0 <= Z.of_nat n / k) by (apply Z.div_pos; lia).
  destruct bh as [h|].
  - specialize (Hbh h eq_refl). cbn [app]. rewrite pack_cons.
    change (METRICS_COUNT + 2, METRIC_BOX_WIDTH + 2) with (6, 41).
    cbn [repeat]. rewrite (pack_first_place _ (row_state lns cols 1 6 41 (h + 1) k 0))
      by (apply place_after_banner; lia).
    change ((6, 41) :: repeat (6, 41) n) with (repeat (6, 41) (S n)).
    rewrite (pack_row_state lns cols 1 6 41 (h + 1) k) by (unfold METRIC_BOX_WIDTH in *; lia).
    rewrite last_line_cons, banner_rect by lia. cbn [fst ry rh].
    rewrite last_line_boxes_from by (unfold METRIC_BOX_WIDTH in *; lia).
    unfold last_line_of, METRICS_COUNT. replace (h =? 0) with false by (symmetry; apply Z.eqb_neq; lia).
    rewrite !Z.add_0_l. lia.
  - cbn [app]. change (new_layout lns cols METRICS_PADDING) with (row_state lns cols 1 6 41 0 k 0).
    change (METRICS_COUNT + 2, METRIC_BOX_WIDTH + 2) with (6, 41).
    rewrite (pack_row_state lns cols 1 6 41 0 k) by (unfold METRIC_BOX_WIDTH in *; lia).
    cbn [fst]. rewrite last_line_boxes_from by (unfold METRIC_BOX_WIDTH in *; lia).
    unfold last_line_of, METRICS_COUNT. cbn [Z.eqb]. rewrite !Z.add_0_l. lia.
Qed.

(** C10: the last line the packer really occupies with a banner of
    [h >= 1] lines (or none) and [n >= 1] metric boxes on a terminal at
    least one box wide is the formula of [get_layout_values] applied to
    [ceil(n / ((cols + 1) / 42))] rows: the formula is right, given the
    packer's own per-row count. *)
Theorem packed_last_line_formula lns cols bh (n : nat) :
  METRIC_BOX_WIDTH + 2 <= cols -> (1 <= n)%nat ->
  (forall h, bh = Some h -> 1 <= h) ->
  packed_last_line lns cols bh n =
  last_line_of (METRICS_COUNT + 2) (ceil_div (Z.of_nat n) (packer_per_row cols))
               (match bh with Some h => h | None => 0 end).
Proof. revert_all. exact packed_last_line_eq. Qed.

Lemma layout_values_ok wc bh cols rows :
  METRIC_BOX_WIDTH <= cols ->
  layout_values wc bh cols rows =
  Ok (mkLayoutValues rows cols (metric_boxes_per_row cols 1)
        (ceil_div wc (metric_boxes_per_row cols 1)) (METRICS_COUNT + 2) bh
        (last_line_of (METRICS_COUNT + 2) (ceil_div wc (metric_boxes_per_row cols 1)) bh)).
Proof.
  intros Hc. unfold layout_values, py_ceil_div, METRICS_PADDING.
  destruct (Z.eqb_spec (metric_boxes_per_row cols 1) 0) as [E|E]; [|reflexivity].
  apply metric_boxes_per_row_zero in E; unfold METRIC_BOX_WIDTH in *; lia.
Qed.

(** The packer never fits more boxes on a row than
    [metric_boxes_per_row] counts. *)
Lemma packer_le_boxes_per_row c :
  METRIC_BOX_WIDTH + 2 <= c -> packer_per_row c <= metric_boxes_per_row c 1.
Proof.
  intros Hc. destruct (packer_per_row_spec c Hc) as [Hk1 [Hk2 _]].
  set (k := packer_per_row c) in *. unfold METRIC_BOX_WIDTH in Hc.
  pose proof (Z.div_mod c 39 ltac:(lia)). pose proof (Z.mod_pos_bound c 39 ltac:(lia)).
  destruct (metric_boxes_per_row_cases c ltac:(lia)) as [(? & _)|[(_ & _ & ->)|(_ & Hlt & ->)]];
    [lia|nia|nia].
Qed.

Lemma ceil_div_antitone n a b : 0 <= n -> 0 < a <= b -> ceil_div n b <= ceil_div n a.
Proof.
  intros Hn Hab. pose proof (ceil_div_spec n a ltac:(lia)). pose proof (ceil_div_spec n b ltac:(lia)).
  pose proof (ceil_div_nonneg n a ltac:(lia) Hn). nia.
Qed.

Lemma last_line_of_mono h r1 r2 bh1 bh2 :
  0 <= h -> r1 <= r2 -> 0 <= bh1 <= bh2 -> last_line_of h r1 bh1 <= last_line_of h r2 bh2.
Proof.
  intros Hh Hr Hb. unfold last_line_of.
  destruct (Z.eqb_spec bh1 0), (Z.eqb_spec bh2 0); nia.
Qed.

(** C1: wherever [metric_boxes_per_row] allows more boxes on a row than
    the packer fits ([(cols + 1) / 42]), a dashboard with that many
    workers is predicted to take one row, but the packer wraps the last
    boxes to a second one: [get_layout_values] under-reports the last
    occupied line. *)
Theorem get_layout_values_underestimates lns cols rows lv :
  METRIC_BOX_WIDTH + 2 <= cols ->
  packer_per_row cols < metric_boxes_per_row cols 1 ->
  layout_values (metric_boxes_per_row cols 1) 0 cols rows = Ok lv ->
  last_metric_line lv + 7 <= packed_last_line lns cols None (Z.to_nat (metric_boxes_per_row cols 1)).
Proof.
  intros Hc Hlt Hlv. destruct (packer_per_row_spec cols Hc) as [Hk _].
  set (m := metric_boxes_per_row cols 1) in *. set (k := packer_per_row cols) in *.
  rewrite layout_values_ok in Hlv by lia. injection Hlv as <-. cbn [last_metric_line].
  rewrite packed_last_line_eq by (try lia; discriminate).
  rewrite Z2Nat.id by lia.
  assert (Hone : ceil_div m m = 1) by (apply ceil_div_le_1; lia).
  pose proof (ceil_div_spec m k ltac:(lia)) as Hr.
  assert (2 <= ceil_div m k) by nia.
  change (metric_boxes_per_row cols 1) with m. change (packer_per_row cols) with k.
  rewrite Hone. unfold last_line_of, METRICS_COUNT. cbn [Z.eqb]. lia.
Qed.

(** The spec's own scenario: four workers on 160 columns are predicted to
    take one row, but only three boxes fit on it. *)
Example spec_scenario_160 :
  metric_boxes_per_row 160 1 = 4 /\ packer_per_row 160 = 3 /\
  packed_last_line 24 160 (Some 10) 4 = 23 /\
  layout_values 4 10 160 24 = Ok (mkLayoutValues 24 160 4 1 6 10 16).
Proof. vm_compute. repeat split. Qed.

(** ** Witnesses *)

Lemma metric_boxes_per_row_monotone_witness :
  0 <= 80 <= 160 /\ metric_boxes_per_row 80 1 <= metric_boxes_per_row 160 1.
Proof. split; [lia|apply (metric_boxes_per_row_monotone 80 160); lia]. Defined.

Lemma metric_boxes_per_row_reference_witness :
  0 <= 160 /\
  (160 < 1638 -> metric_boxes_per_row 160 1 = row_capacity METRIC_BOX_WIDTH 1 160) /\
  row_capacity METRIC_BOX_WIDTH 1 160 <= metric_boxes_per_row 160 1 /\
  metric_boxes_per_row 1638 1 = row_capacity METRIC_BOX_WIDTH 1 1638 + 1.
Proof. split; [lia|exact (metric_boxes_per_row_reference 160 ltac:(lia))]. Defined.

Lemma metric_boxes_per_row_zero_iff_witness :
  0 <= 40 /\ (metric_boxes_per_row 40 1 = 0 <-> 40 < METRIC_BOX_WIDTH).
Proof. split; [lia|apply (metric_boxes_per_row_zero_iff 40); lia]. Defined.

Lemma requirements_met_narrow_raises_witness :
  0 <= env_cols (mkEnv None 30 24) < METRIC_BOX_WIDTH /\
  requirements_met (mkEnv None 30 24) 4 true = Exc ZeroDivisionError.
Proof.
  split; [cbn; unfold METRIC_BOX_WIDTH; lia|].
  apply requirements_met_narrow_raises. cbn; unfold METRIC_BOX_WIDTH; lia.
Defined.

Lemma packed_last_line_formula_witness :
  METRIC_BOX_WIDTH + 2 <= 160 /\ (1 <= 4)%nat /\ (forall h, Some 10 = Some h -> 1 <= h) /\
  packed_last_line 24 160 (Some 10) 4 =
  last_line_of (METRICS_COUNT + 2) (ceil_div (Z.of_nat 4) (packer_per_row 160)) 10.
Proof.
  assert (Hb : forall h, Some 10 = Some h -> 1 <= h) by (intros h E; injection E; lia).
  split; [unfold METRIC_BOX_WIDTH; lia|split; [lia|split; [exact Hb|]]].
  apply (packed_last_line_formula 24 160 (Some 10) 4); [unfold METRIC_BOX_WIDTH; lia|lia|exact Hb].
Defined.

(** Four workers on 160 columns: predicted on one row ending at line 5,
    packed on two rows ending at line 12. *)
Lemma get_layout_values_underestimates_witness :
  METRIC_BOX_WIDTH + 2 <= 160 /\ packer_per_row 160 < metric_boxes_per_row 160 1 /\
  layout_values (metric_boxes_per_row 160 1) 0 160 24 = Ok (mkLayoutValues 24 160 4 1 6 0 5) /\
  last_metric_line (mkLayoutValues 24 160 4 1 6 0 5) + 7 <=
    packed_last_line 24 160 None (Z.to_nat (metric_boxes_per_row 160 1)).
Proof.
  assert (Hlt : packer_per_row 160 < metric_boxes_per_row 160 1) by (vm_compute; reflexivity).
  assert (Hlv : layout_values (metric_boxes_per_row 160 1) 0 160 24 = Ok (mkLayoutValues 24 160 4 1 6 0 5))
    by (vm_compute; reflexivity).
  split; [unfold METRIC_BOX_WIDTH; lia|split; [exact Hlt|split; [exact Hlv|]]].
  apply (get_layout_values_underestimates 24 160 24); [unfold METRIC_BOX_WIDTH; lia|exact Hlt|exact Hlv].
Defined.
