(* ===== verification/Display.v ===== *)
(** * The dashboard: [ProgressDisplay] and the [_displays] registry

    A [ProgressDisplay] owns the curses session, an optional banner box
    and one metric box per worker.  The process state it shares with the
    rest of the program is the curses mode of the terminal and the
    module-level list [_displays], to which every display appends itself
    in [__init__] and from which [end] removes it; [reset_terminal] calls
    [end] on every listed display.

    The process state is a [world]; a display's own fields are a
    [display] record, and a display is known to the registry by its
    identity [d_id].  A method is a [PyM] statement over the pair, so the
    effects made before an exception stay, as in Python.  Writing into a
    box of the display ([on_banner_box], [on_metric_box]) writes the
    mutated box object back into the display even when the method then
    raises, because Python mutates the object in place. *)

From Stdlib Require Import ZArith NArith List String Lia.
From S2P Require Import Prelude Curses PyStr Box Layout Geometry.
Import ListNotations.
Open Scope Z_scope.

(** ** The scan engine's values (not under src/) *)

(** [ScanMetrics]: one counter list per kind, indexed by worker. *)
Record ScanMetrics := mkScanMetrics {
  counts : list N;
  bytes : list N;
  matches : list N
}.

(** [ScanMetrics(worker_count)]: all counters zero. *)
Definition new_scan_metrics (worker_count : nat) : ScanMetrics :=
  mkScanMetrics (repeat 0%N worker_count) (repeat 0%N worker_count) (repeat 0%N worker_count).

(** What [get_scan_finished_messages] returns. *)
Record ScanFinishedMessages := mkMessages {
  results : string;
  timeouts : option string
}.

(** ** Process state *)

Record world := mkWorld {
  w_screen : screen;          (* the terminal size curses reports *)
  w_curses : bool;            (* between initscr and endwin *)
  w_echo : bool;
  w_cursor : bool;
  w_displays : list nat;      (* _displays, by identity *)
  w_banner : option banner;   (* what get_welcome_banner returns *)
  w_log : list string         (* log.warning messages *)
}.

Record display := mkDisplay {
  d_id : nat;
  worker_count : nat;
  stdscr : Curses.window;
  banner_box : option Box.box;
  metric_boxes : list Box.box
}.

Definition state := (world * display)%type.

Definition set_world (w : world) (f : world -> world) : world := f w.

Definition with_displays (w : world) (ds : list nat) : world :=
  mkWorld (w_screen w) (w_curses w) (w_echo w) (w_cursor w) ds (w_banner w) (w_log w).

(** [curses.endwin()]: back to the normal terminal mode. *)
Definition endwin (w : world) : world :=
  mkWorld (w_screen w) false true true (w_displays w) (w_banner w) (w_log w).

(** [list.remove(x)]: drop the first occurrence, or raise. *)
Fixpoint py_remove (x : nat) (l : list nat) : res (list nat) :=
  match l with
  | [] => Exc ValueError
  | y :: l' =>
      if Nat.eqb x y then Ok l'
      else match py_remove x l' with
           | Ok r => Ok (y :: r)
           | Exc e => Exc e
           end
  end.

(** [ProgressDisplay.end] of the display with identity [id]. *)
Definition end_display (id : nat) : PyM world unit :=
  fun w =>
    let w1 := endwin w in
    match py_remove id (w_displays w1) with
    | Ok ds => (with_displays w1 ds, Ok tt)
    | Exc e => (w1, Exc e)
    end.

(** [reset_terminal]: [for display in _displays: display.end()].  The
    list iterator reads index [i] of the list as it is at that moment,
    and stops at the first index past its end; the body shrinks the list.
    The fuel is the length of the list when the loop starts, which the
    theorems show is enough. *)
Fixpoint reset_loop (fuel : nat) (i : nat) : PyM world unit :=
  match fuel with
  | O => py_ret tt
  | S f =>
      w <- py_get ;;
      match nth_error (w_displays w) i with
      | None => py_ret tt
      | Some id => end_display id ;;; reset_loop f (S i)
      end
  end.

Definition reset_terminal : PyM world unit :=
  w <- py_get ;; reset_loop (List.length (w_displays w)) 0.

(** The elements at odd positions of a list. *)
Fixpoint odds {A} (l : list A) : list A :=
  match l with
  | _ :: b :: r => b :: odds r
  | _ => []
  end.

(** ** The registry *)

Lemma py_remove_app (x : nat) (pre rest : list nat) :
  ~ In x pre -> py_remove x (pre ++ x :: rest) = Ok (pre ++ rest).
Proof.
  induction pre as [|y pre IH]; intros Hn; simpl.
  - rewrite Nat.eqb_refl. reflexivity.
  - destruct (Nat.eqb_spec x y) as [->|_]; [exfalso; apply Hn; left; reflexivity|].
    rewrite IH by (intros H; apply Hn; right; exact H). reflexivity.
Qed.

Lemma py_remove_notin (x : nat) (l : list nat) : ~ In x l -> py_remove x l = Exc ValueError.
Proof.
  induction l as [|y l IH]; intros Hn; simpl; [reflexivity|].
  destruct (Nat.eqb_spec x y) as [->|_]; [exfalso; apply Hn; left; reflexivity|].
  rewrite IH by (intros H; apply Hn; right; exact H). reflexivity.
Qed.

Lemma endwin_with_displays w ds ds' :
  with_displays (endwin (with_displays (endwin w) ds)) ds' = with_displays (endwin w) ds'.
Proof. reflexivity. Qed.

Lemma nth_error_app_length {A} (pre rest : list A) :
  nth_error (pre ++ rest) (List.length pre) = nth_error rest 0.
Proof. rewrite nth_error_app2 by lia. rewrite Nat.sub_diag. reflexivity. Qed.

(** One loop step from index [length pre]: the display there is ended
    and the next one moves to its index, which the iterator skips. *)
Lemma reset_loop_spec (f : nat) :
  forall pre rest w,
  w_displays w = pre ++ rest -> NoDup (pre ++ rest) -> ((List.length rest + 1) / 2 <= f)%nat ->
  reset_loop f (List.length pre) w =
  (match rest with
   | [] => w
   | _ => with_displays (endwin w) (pre ++ odds rest)
   end, Ok tt).
Proof.
  induction f as [|f IH]; intros pre rest w Ew Hnd Hf.
  - destruct rest as [|a rest]; [reflexivity|].
    cbn [List.length] in Hf. exfalso. assert (1 <= (S (List.length rest) + 1) / 2)%nat.
    { apply Nat.div_le_lower_bound; lia. } lia.
  - cbn [reset_loop]. unfold py_bind at 1, py_get. rewrite Ew, nth_error_app_length.
    destruct rest as [|a r]; [reflexivity|]. cbn [nth_error].
    assert (Ha : ~ In a pre) by (apply NoDup_remove_2 in Hnd; intros H; apply Hnd, in_or_app; left; exact H).
    unfold py_bind, end_display. cbn [w_displays endwin]. rewrite Ew, py_remove_app by exact Ha.
    destruct r as [|b r'].
    + destruct f; [reflexivity|]. cbn [reset_loop]. unfold py_bind, py_get.
      cbn [w_displays with_displays odds]. rewrite !app_nil_r.
      rewrite (proj2 (nth_error_None pre _)) by lia. reflexivity.
    + replace (S (List.length pre)) with (List.length (pre ++ [b])) by (rewrite length_app; simpl; lia).
      rewrite (IH (pre ++ [b]) r').
      * destruct r'; simpl; rewrite <- ?app_assoc; reflexivity.
      * simpl. rewrite <- app_assoc. reflexivity.
      * rewrite <- app_assoc. simpl. apply NoDup_remove_1 in Hnd. exact Hnd.
      * cbn [List.length] in Hf. replace (S (S (List.length r')) + 1)%nat with ((List.length r' + 1) + 1 * 2)%nat in Hf by lia.
        rewrite Nat.div_add in Hf by lia. lia.
Qed.

Lemma reset_terminal_spec (w : world) :
  NoDup (w_displays w) ->
  reset_terminal w =
  (match w_displays w with
   | [] => w
   | _ => with_displays (endwin w) (odds (w_displays w))
   end, Ok tt).
Proof.
  intros Hnd. unfold reset_terminal, py_bind, py_get.
  apply (reset_loop_spec _ [] (w_displays w) w); [reflexivity|exact Hnd|].
  destruct (List.length (w_displays w)) as [|k]; [cbn; lia|apply Nat.Div0.div_le_upper_bound; lia].
Qed.

(** C5: [reset_terminal] iterates over [_displays] while [end] removes
    from it, so the iterator skips every other display: on a registry of
    distinct displays it ends those at even positions only.  The terminal
    is put back into normal mode when a display is registered, but the
    displays at odd positions stay registered and are never ended. *)
Theorem reset_terminal_skips (w : world) :
  NoDup (w_displays w) ->
  reset_terminal w =
  (match w_displays w with
   | [] => w
   | _ => with_displays (endwin w) (odds (w_displays w))
   end, Ok tt).
Proof. revert_all. exact reset_terminal_spec. Qed.

(** Induction two elements at a time, the way [odds] recurses. *)
Lemma list_pair_ind {A} (P : list A -> Prop) :
  P [] -> (forall a, P [a]) -> (forall a b r, P r -> P (a :: b :: r)) -> forall l, P l.
Proof.
  intros H0 H1 H2 l. assert (P l /\ forall a, P (a :: l)) as [H _]; [|exact H].
  induction l as [|b l [IHl IHc]]; [split; auto|split; [apply IHc|intros a; apply H2, IHl]].
Qed.

Lemma odds_length {A} (l : list A) : (2 * List.length (odds l) <= List.length l)%nat.
Proof. induction l using list_pair_ind; cbn [odds List.length]; lia. Qed.

Lemma odds_in {A} (x : A) (l : list A) : In x (odds l) -> In x l.
Proof.
  induction l as [| |a b r IH] using list_pair_ind; cbn [odds In]; [tauto|tauto|].
  intros [->|H]; [right; left; reflexivity|right; right; apply IH, H].
Qed.

Lemma odds_nodup {A} (l : list A) : NoDup l -> NoDup (odds l).
Proof.
  induction l as [| |a b r IH] using list_pair_ind; cbn [odds]; intros Hnd; try constructor.
  - intros Hin. apply odds_in in Hin. inversion Hnd as [|? ? _ Hnd']. inversion Hnd'. contradiction.
  - apply IH. inversion Hnd as [|? ? _ Hnd']. inversion Hnd'. assumption.
Qed.

(** C31: calling [reset_terminal] again and again does end every
    display: each call keeps the registry free of duplicates and at
    least halves it, so after finitely many calls it is empty. *)
Theorem reset_terminal_eventually_empty (w : world) :
  NoDup (w_displays w) -> reaches (exec reset_terminal) (fun w' => w_displays w' = []) w.
Proof.
  apply (reaches_by_measure _ (fun w' => NoDup (w_displays w')) _ (fun w' => List.length (w_displays w'))).
  intros w' Hnd. unfold exec. rewrite reset_terminal_spec by exact Hnd.
  destruct (w_displays w') as [|a r] eqn:E; [left; reflexivity|right]. cbn [fst w_displays with_displays].
  split; [apply odds_nodup, Hnd|]. pose proof (odds_length (a :: r)). cbn [List.length] in *. lia.
Qed.

(** C6: ending a display that is no longer registered (a second [end],
    or an [end] after [reset_terminal] ended it) still calls [endwin] and
    then raises [ValueError]: restoring the terminal is not idempotent. *)
Theorem end_display_twice (w : world) (id : nat) :
  NoDup (w_displays w) -> In id (w_displays w) ->
  exists w', end_display id w = (w', Ok tt) /\ ~ In id (w_displays w') /\
             end_display id w' = (endwin w', Exc ValueError).
Proof.
  intros Hnd Hin. destruct (in_split _ _ Hin) as (pre & rest & E).
  rewrite E in Hnd. assert (Hpre : ~ In id pre)
    by (apply NoDup_remove_2 in Hnd; intros H; apply Hnd, in_or_app; left; exact H).
  apply NoDup_remove_2 in Hnd.
  unfold end_display. cbn [w_displays endwin]. rewrite E, py_remove_app by exact Hpre.
  eexists. split; [reflexivity|]. cbn [w_displays with_displays].
  split; [exact Hnd|]. cbn [w_displays endwin]. rewrite py_remove_notin by exact Hnd. reflexivity.
Qed.

(** ** The display's methods *)

Definition set_banner_box (d : display) (b : option Box.box) : display :=
  mkDisplay (d_id d) (worker_count d) (stdscr d) b (metric_boxes d).

Definition set_metric_boxes (d : display) (bs : list Box.box) : display :=
  mkDisplay (d_id d) (worker_count d) (stdscr d) (banner_box d) bs.

Definition set_stdscr (d : display) (win : Curses.window) : display :=
  mkDisplay (d_id d) (worker_count d) win (banner_box d) (metric_boxes d).

(** [lst[i] = v] on an index the code has checked. *)
Fixpoint list_set {A} (i : nat) (v : A) (l : list A) : list A :=
  match l, i with
  | [], _ => []
  | _ :: r, O => v :: r
  | y :: r, S i' => y :: list_set i' v r
  end.

(** A method of the banner box object, mutated in place. *)
Definition on_banner_box {A} (c : PyM Box.box A) (dflt : A) : PyM state A :=
  fun '(w, d) =>
    match banner_box d with
    | None => ((w, d), Ok dflt)
    | Some b => let '(b', r) := c b in ((w, set_banner_box d (Some b')), r)
    end.

(** A method of [self.metric_boxes[i]], mutated in place. *)
Definition on_metric_box {A} (i : nat) (c : PyM Box.box A) : PyM state A :=
  fun '(w, d) =>
    match nth_error (metric_boxes d) i with
    | None => ((w, d), Exc IndexError)
    | Some b =>
        let '(b', r) := c b in ((w, set_metric_boxes d (list_set i b' (metric_boxes d))), r)
    end.

(** [layout.position(box)] for a box the layout does not own: the box is
    changed in place, the new layout is returned. *)
Definition position_box (scr : screen) (L : BoxLayout) : PyM Box.box BoxLayout :=
  fun b =>
    let '((L', b'), r) := position scr (L, b) in
    (b', match r with Ok _ => Ok L' | Exc e => Exc e end).

Definition get_screen : PyM state screen := fun s => (s, Ok (w_screen (fst s))).

(** [_get_metrics(metrics, worker_index)]. *)
Definition get_metrics (m : ScanMetrics) (i : nat) : res (list Box.metric) :=
  match nth_error (counts m) i, nth_error (bytes m) i, nth_error (matches m) i with
  | Some c, Some bt, Some mt =>
      let ms := [Box.Metric "Files Processed" c; Box.Metric "Bytes Processed" bt;
                 Box.Metric "Matches Found" mt; Box.Metric "Index" (N.of_nat i)] in
      if Z.of_nat (List.length ms) >? METRICS_COUNT then Exc ValueError else Ok ms
  | _, _, _ => Exc IndexError
  end%string.

(** [f'Worker {display_index}'] *)
Definition worker_title (worker_index : nat) : string :=
  ("Worker " ++ py_str (N.of_nat (S worker_index)))%string.

(** [curses.initscr()], [_setup_colors()], [curses.noecho()],
    [curses.curs_set(0)] and [self.clear()]: the standard screen covers
    the terminal. *)
Definition start_curses : PyM state unit :=
  fun '(w, d) =>
    let scr := w_screen w in
    ((mkWorld scr true false false (w_displays w) (w_banner w) (w_log w),
      set_stdscr d (mkWindow 0 0 (lines scr) (cols scr) [])), Ok tt).

(** [initialize_banner()] *)
Definition initialize_banner : PyM state unit :=
  fun '(w, d) =>
    match w_banner w with
    | None => ((w, set_banner_box d None), Ok tt)
    | Some bn =>
        match Box.new_banner_box (w_screen w) bn with
        | Ok b => ((w, set_banner_box d (Some b)), Ok tt)
        | Exc e => ((w, d), Exc e)
        end
    end.

(** Position and update the banner box, if any. *)
Definition place_banner (scr : screen) (L : BoxLayout) : PyM state BoxLayout :=
  L' <- on_banner_box (position_box scr L) L ;;
  on_banner_box (Box.update scr) tt ;;;
  py_ret L'.

(** One iteration of [_initialize_metric_boxes]: a new box, placed and
    updated, appended to the local list. *)
Definition init_metric_box (scr : screen) (default : ScanMetrics)
    (acc : BoxLayout * list Box.box) (worker_index : nat) : PyM state (BoxLayout * list Box.box) :=
  let '(L, boxes) := acc in
  ms <- py_lift (get_metrics default worker_index) ;;
  b <- py_lift (Box.new_metric_box scr ms (Some (worker_title worker_index))) ;;
  match position_box scr L b with
  | (b1, Exc e) => py_raise e
  | (b1, Ok L') =>
      match Box.update scr b1 with
      | (b2, Exc e) => py_raise e
      | (b2, Ok _) => py_ret (L', boxes ++ [b2])
      end
  end.

(** [_initialize_metric_boxes()], storing its result in [self.metric_boxes]. *)
Definition initialize_metric_boxes : PyM state unit :=
  s <- py_get ;;
  let '(w, d) := s in
  let scr := w_screen w in
  L1 <- place_banner scr (new_layout (lines scr) (cols scr) METRICS_PADDING) ;;
  acc <- py_foldM (init_metric_box scr (new_scan_metrics (worker_count d)))
                  (seq 0 (worker_count d)) (L1, []) ;;
  fun '(w', d') => ((w', set_metric_boxes d' (snd acc)), Ok tt).

(** [_displays.append(self)] *)
Definition register : PyM state unit :=
  fun '(w, d) => ((with_displays w (w_displays w ++ [d_id d]), d), Ok tt).

(** [ProgressDisplay(worker_count)]: register, then set curses up. *)
Definition init : PyM state unit :=
  register ;;; start_curses ;;; initialize_banner ;;; initialize_metric_boxes.

(** One iteration of [_display_metrics]: new metrics into the worker's
    box, then place and update it. *)
Definition display_metric_box (scr : screen) (m : ScanMetrics)
    (L : BoxLayout) (worker_index : nat) : PyM state BoxLayout :=
  on_metric_box worker_index py_get ;;;
  ms <- py_lift (get_metrics m worker_index) ;;
  on_metric_box worker_index (py_modify (fun b => Box.set_metrics b ms)) ;;;
  L' <- on_metric_box worker_index (position_box scr L) ;;
  on_metric_box worker_index (Box.update scr) ;;;
  py_ret L'.

(** [_display_metrics(metrics)]: a fresh layout for the current size. *)
Definition display_metrics (m : ScanMetrics) : PyM state unit :=
  scr <- get_screen ;;
  L1 <- place_banner scr (new_layout (lines scr) (cols scr) 1) ;;
  s <- py_get ;;
  py_foldM (display_metric_box scr m) (seq 0 (worker_count (snd s))) L1 ;;;
  py_ret tt.

Record ScanProgressUpdate := mkUpdate { update_metrics : ScanMetrics }.

(** [handle_update(update)]: [curses.update_lines_cols()] makes the
    screen size the terminal's, which [w_screen] already is; the final
    [refresh] only publishes the windows. *)
Definition handle_update (u : ScanProgressUpdate) : PyM state unit :=
  display_metrics (update_metrics u).

(** [end_on_input()]: [getkey] waits for a key, then [end]. *)
Definition end_on_input : PyM state unit :=
  fun '(w, d) => let '(w', r) := end_display (d_id d) w in ((w', d), r).

(** [_get_layout_values()] *)
Definition self_layout_values (d : display) : res LayoutValues :=
  let rows := win_h (stdscr d) in
  let cols := win_w (stdscr d) in
  let bh := match banner_box d with Some b => Box.get_height (Box.cls b) | None => 0 end in
  layout_values (Z.of_nat (List.length (metric_boxes d))) bh cols rows.

Definition exit_message : string := "Press any key to exit".

Definition py_truthy (o : option string) : bool :=
  match o with Some s => negb (String.eqb s "") | None => false end.

(** The lines the summary and the exit prompt take. *)
Definition message_lines (msgs : ScanFinishedMessages) (cols : Z) : res Z :=
  match py_ceil_div (py_len (results msgs)) cols, py_ceil_div (py_len exit_message) cols with
  | Ok a, Ok b => Ok (a + b)
  | Exc e, _ => Exc e
  | _, Exc e => Exc e
  end.

(** Where the summary starts: below the boxes, or pulled up so that it
    ends on the last line. *)
Definition summary_offset (vals : LayoutValues) (ml : Z) : Z :=
  let vertical_offset := last_metric_line vals + 1 in
  if vertical_offset + ml >? lv_rows vals then lv_rows vals - ml else vertical_offset.

Definition on_stdscr (f : Curses.window -> res Curses.window) : PyM state unit :=
  fun '(w, d) =>
    match f (stdscr d) with
    | Ok win => ((w, set_stdscr d win), Ok tt)
    | Exc e => ((w, d), Exc e)
    end.

Definition log_warning (msg : string) : PyM state unit :=
  fun '(w, d) =>
    ((mkWorld (w_screen w) (w_curses w) (w_echo w) (w_cursor w) (w_displays w) (w_banner w)
              (w_log w ++ [msg]), d), Ok tt).

(** [scan_finished_handler(metrics, timer)], given the messages
    [get_scan_finished_messages(metrics, timer)] returns. *)
Definition scan_finished_handler (msgs : ScanFinishedMessages) : PyM state unit :=
  s <- py_get ;;
  vals <- py_lift (self_layout_values (snd s)) ;;
  ml <- py_lift (message_lines msgs (lv_cols vals)) ;;
  let vertical_offset := summary_offset vals ml in
  (match timeouts msgs with
   | Some t => if py_truthy (timeouts msgs) then log_warning t else py_ret tt
   | None => py_ret tt
   end) ;;;
  on_stdscr (wmove vertical_offset 0) ;;;
  on_stdscr (fun win => Ok (wclrtobot vertical_offset 0 win)) ;;;
  on_stdscr (waddstr vertical_offset 0 (results msgs)) ;;;
  on_stdscr (waddstr (vertical_offset + ml - 1) 0 exit_message).

(** The terminal is resized: curses reports the new size. *)
Definition resize_terminal (scr : screen) (s : state) : state :=
  let '(w, d) := s in
  (mkWorld scr (w_curses w) (w_echo w) (w_cursor w) (w_displays w) (w_banner w) (w_log w), d).

(** ** Theorems: metrics and construction *)

(** C23: [_get_metrics] raises [IndexError] exactly when one of the
    counter lists has no entry for the worker, and never [ValueError]:
    the list it builds always has [METRICS_COUNT] entries, so the
    "out of sync" check cannot fire. *)
Theorem get_metrics_errors (m : ScanMetrics) (i : nat) :
  (get_metrics m i = Exc IndexError <->
   (List.length (counts m) <= i \/ List.length (bytes m) <= i \/ List.length (matches m) <= i)%nat)
  /\ get_metrics m i <> Exc ValueError.
Proof.
  unfold get_metrics.
  destruct (nth_error (counts m) i) as [c|] eqn:E1;
    [destruct (nth_error (bytes m) i) as [bt|] eqn:E2;
     [destruct (nth_error (matches m) i) as [mt|] eqn:E3|]|].
  - assert (i < List.length (counts m))%nat by (apply nth_error_Some; congruence).
    assert (i < List.length (bytes m))%nat by (apply nth_error_Some; congruence).
    assert (i < List.length (matches m))%nat by (apply nth_error_Some; congruence).
    cbn. split; [split; [intros Hx; discriminate Hx|intros; lia]|discriminate].
  - apply nth_error_None in E3. cbn.
    split; [split; [intros; lia|intros; reflexivity]|discriminate].
  - apply nth_error_None in E2. cbn.
    split; [split; [intros; lia|intros; reflexivity]|discriminate].
  - apply nth_error_None in E1. cbn.
    split; [split; [intros; lia|intros; reflexivity]|discriminate].
Qed.

(** Methods that leave the process state alone. *)
Definition keeps_world {A} (c : PyM state A) : Prop :=
  forall w d, fst (fst (c (w, d))) = w.

Lemma keeps_world_ret {A} (a : A) : keeps_world (py_ret a).
Proof. intros w d. reflexivity. Qed.

Lemma keeps_world_raise {A} (e : exn) : keeps_world (A := A) (py_raise e).
Proof. intros w d. reflexivity. Qed.

Lemma keeps_world_lift {A} (r : res A) : keeps_world (py_lift r).
Proof. intros w d. reflexivity. Qed.

Lemma keeps_world_get : keeps_world py_get.
Proof. intros w d. reflexivity. Qed.

Lemma keeps_world_bind {A B} (c : PyM state A) (k : A -> PyM state B) :
  keeps_world c -> (forall a, keeps_world (k a)) -> keeps_world (py_bind c k).
Proof.
  intros Hc Hk w d. unfold py_bind. specialize (Hc w d).
  destruct (c (w, d)) as [[w1 d1] [a|e]]; simpl in *; [|exact Hc].
  rewrite Hk. exact Hc.
Qed.

Lemma keeps_world_foldM {A B} (f : B -> A -> PyM state B) xs b :
  (forall b x, keeps_world (f b x)) -> keeps_world (py_foldM f xs b).
Proof.
  intros Hf. revert b. induction xs as [|x xs IH]; intros b; simpl.
  - apply keeps_world_ret.
  - apply keeps_world_bind; [apply Hf|intros; apply IH].
Qed.

Lemma keeps_world_banner {A} (c : PyM Box.box A) dflt : keeps_world (on_banner_box c dflt).
Proof. intros w d. unfold on_banner_box. destruct (banner_box d); [destruct (c b)|]; reflexivity. Qed.

Lemma keeps_world_metric {A} i (c : PyM Box.box A) : keeps_world (on_metric_box i c).
Proof.
  intros w d. unfold on_metric_box. destruct (nth_error (metric_boxes d) i); [destruct (c b)|];
    reflexivity.
Qed.

Create HintDb display discriminated.
#[export] Hint Resolve keeps_world_ret keeps_world_raise keeps_world_lift keeps_world_get
  keeps_world_banner keeps_world_metric : display.

Lemma keeps_world_init_metric_box scr dm acc i : keeps_world (init_metric_box scr dm acc i).
Proof.
  unfold init_metric_box. destruct acc as [L boxes].
  apply keeps_world_bind; [auto with display|intros ms].
  apply keeps_world_bind; [auto with display|intros b].
  destruct (position_box scr L b) as [b1 [L'|e]]; [|auto with display].
  destruct (Box.update scr b1) as [b2 [[]|e]]; auto with display.
Qed.

Lemma keeps_world_initialize_metric_boxes : keeps_world initialize_metric_boxes.
Proof.
  unfold initialize_metric_boxes. apply keeps_world_bind; [auto with display|intros [w d]].
  apply keeps_world_bind.
  - unfold place_banner. repeat (apply keeps_world_bind; [auto with display|intros ?]).
    auto with display.
  - intros L1. apply keeps_world_bind.
    + apply keeps_world_foldM. intros. apply keeps_world_init_metric_box.
    + intros acc w' d'. reflexivity.
Qed.

Lemma keeps_world_initialize_banner : keeps_world initialize_banner.
Proof.
  intros w d. unfold initialize_banner. destruct (w_banner w); [|reflexivity].
  destruct (Box.new_banner_box (w_screen w) b); reflexivity.
Qed.

(** The process state after [ProgressDisplay(...)], whatever happens
    after the display has registered itself. *)
Lemma init_world (w : world) (d : display) :
  fst (fst (init (w, d))) =
  mkWorld (w_screen w) true false false (w_displays w ++ [d_id d]) (w_banner w) (w_log w).
Proof.
  unfold init. cbn - [initialize_banner initialize_metric_boxes].
  set (w1 := mkWorld _ _ _ _ _ _ _). set (d1 := set_stdscr d _).
  apply (keeps_world_bind _ _ keeps_world_initialize_banner
                          (fun _ => keeps_world_initialize_metric_boxes)).
Qed.

(** C22: [ProgressDisplay.__init__] registers the display before it
    sets curses up, so even when the setup raises (a window that does not
    fit the terminal, say) the display is registered with the terminal in
    curses mode, and a later [reset_terminal] restores the terminal and
    empties the registry. *)
Theorem init_then_reset (w : world) (d : display) :
  w_displays w = [] ->
  w_displays (fst (fst (init (w, d)))) = [d_id d] /\
  reset_terminal (fst (fst (init (w, d)))) =
  (mkWorld (w_screen w) false true true [] (w_banner w) (w_log w), Ok tt).
Proof.
  intros E. rewrite init_world, E. split; [reflexivity|].
  rewrite reset_terminal_spec by (repeat constructor; simpl; tauto). reflexivity.
Qed.

(** ** Theorems: the summary screen *)

Lemma layout_values_dims wc bh c r vals :
  layout_values wc bh c r = Ok vals -> lv_rows vals = r /\ lv_cols vals = c.
Proof.
  unfold layout_values. destruct (py_ceil_div _ _); intros H; [|discriminate].
  injection H as <-. split; reflexivity.
Qed.

Lemma message_lines_pos msgs c ml : 0 < c -> message_lines msgs c = Ok ml -> 1 <= ml.
Proof.
  intros Hc. unfold message_lines, py_ceil_div.
  replace (c =? 0) with false by (symmetry; apply Z.eqb_neq; lia).
  intros H. injection H as <-.
  pose proof (ceil_div_nonneg (py_len (results msgs)) c Hc (py_len_nonneg _)).
  pose proof (ceil_div_spec (py_len exit_message) c Hc).
  assert (py_len exit_message = 21) by reflexivity. nia.
Qed.

Lemma summary_offset_spec vals ml :
  1 <= ml -> ml <= lv_rows vals -> -1 <= last_metric_line vals ->
  let off := summary_offset vals ml in
  0 <= off /\ off + ml <= lv_rows vals /\
  (last_metric_line vals + 1 + ml <= lv_rows vals -> off = last_metric_line vals + 1) /\
  (lv_rows vals < last_metric_line vals + 1 + ml -> off + ml = lv_rows vals).
Proof.
  intros H1 H2 H3. unfold summary_offset.
  destruct (Z.gtb_spec (last_metric_line vals + 1 + ml) (lv_rows vals)); lia.
Qed.

(** What the engine's timeout notices add to the log: a non-empty
    notice, once; an empty one or none, nothing. *)
Definition timeout_log (msgs : ScanFinishedMessages) : list string :=
  match timeouts msgs with
  | Some t => if String.eqb t "" then [] else [t]
  | None => []
  end.

Definition with_log (w : world) (extra : list string) : world :=
  mkWorld (w_screen w) (w_curses w) (w_echo w) (w_cursor w) (w_displays w) (w_banner w) (w_log w ++ extra).

Lemma log_branch_ok (msgs : ScanFinishedMessages) (w : world) (d : display) :
  (match timeouts msgs with
   | Some t => if py_truthy (timeouts msgs) then log_warning t else py_ret tt
   | None => py_ret tt
   end) (w, d) = ((with_log w (timeout_log msgs), d), Ok tt).
Proof.
  unfold timeout_log, with_log, py_truthy. destruct w.
  destruct (timeouts msgs) as [t|]; [destruct (String.eqb t "")|]; cbn; rewrite ?app_nil_r; reflexivity.
Qed.

Lemma on_stdscr_ok f w d win :
  f (stdscr d) = Ok win -> on_stdscr f (w, d) = ((w, set_stdscr d win), Ok tt).
Proof. intros H. unfold on_stdscr. rewrite H. reflexivity. Qed.

Lemma wmove_in y x win : in_window win y x = true -> wmove y x win = Ok win.
Proof. intros H. unfold wmove. rewrite H. reflexivity. Qed.

(** C18: when the summary and the exit prompt fit the screen,
    [scan_finished_handler] draws them below the boxes, or pulls them up
    so that the prompt is on the last line: the region from the chosen
    line is cleared, the summary starts there and the prompt is on its
    last line, and nothing goes below the screen.  The engine's timeout
    notice is logged, not drawn, and only when it is not empty; nothing
    else of the process state changes. *)
Theorem scan_finished_placement (s : state) msgs vals ml :
  self_layout_values (snd s) = Ok vals -> 0 < lv_cols vals ->
  message_lines msgs (lv_cols vals) = Ok ml -> ml <= lv_rows vals ->
  -1 <= last_metric_line vals ->
  exists s', scan_finished_handler msgs s = (s', Ok tt) /\
    fst s' = with_log (fst s) (timeout_log msgs) /\
    win_ops (stdscr (snd s')) =
      win_ops (stdscr (snd s)) ++
      [DClrtobot (summary_offset vals ml) 0; DText (summary_offset vals ml) 0 (results msgs);
       DText (summary_offset vals ml + ml - 1) 0 exit_message] /\
    summary_offset vals ml + ml <= lv_rows vals /\
    (last_metric_line vals + 1 + ml <= lv_rows vals ->
     summary_offset vals ml = last_metric_line vals + 1) /\
    (lv_rows vals < last_metric_line vals + 1 + ml ->
     summary_offset vals ml + ml = lv_rows vals).
Proof.
  intros Hv Hc Hml Hfit Hlast. destruct s as [w d]. cbn [snd] in *.
  pose proof (message_lines_pos msgs _ ml Hc Hml) as Hml1.
  destruct (summary_offset_spec vals ml Hml1 Hfit Hlast) as (Ho1 & Ho2 & Ho3 & Ho4).
  set (off := summary_offset vals ml) in *.
  pose proof Hv as Hdims. unfold self_layout_values in Hdims.
  apply layout_values_dims in Hdims as [Er Ec].
  pose proof (log_branch_ok msgs w d) as Hlog.
  unfold scan_finished_handler. unfold py_bind at 1. cbn [py_get snd].
  unfold py_bind at 1. cbn [py_lift]. rewrite Hv.
  unfold py_bind at 1. cbn [py_lift]. rewrite Hml. fold off.
  rewrite (py_bind_ok _ _ _ _ _ Hlog).
  erewrite py_bind_ok by (apply on_stdscr_ok, wmove_in, in_window_iff; lia).
  erewrite py_bind_ok by (apply on_stdscr_ok; reflexivity).
  erewrite py_bind_ok
    by (apply on_stdscr_ok, waddstr_in, in_window_iff; cbn [win_h win_w stdscr set_stdscr wclrtobot]; lia).
  erewrite on_stdscr_ok
    by (apply waddstr_in, in_window_iff; cbn [win_h win_w stdscr set_stdscr wclrtobot]; lia).
  eexists. split; [reflexivity|]. split; [reflexivity|]. cbn. rewrite <- !app_assoc.
  split; [reflexivity|]. auto.
Qed.

(** C9: when the summary and the exit prompt need more lines than the
    screen has, the offset is pulled above the first line and
    [stdscr.move] raises: the handler fails instead of degrading. *)
Theorem scan_finished_too_long (s : state) msgs vals ml :
  self_layout_values (snd s) = Ok vals -> 0 < lv_cols vals ->
  message_lines msgs (lv_cols vals) = Ok ml -> lv_rows vals < ml ->
  -1 <= last_metric_line vals ->
  outcome (scan_finished_handler msgs) s = Exc CursesError.
Proof.
  intros Hv Hc Hml Hlong Hlast. destruct s as [w d]. cbn [snd] in *.
  assert (Hoff : summary_offset vals ml < 0)
    by (unfold summary_offset; destruct (Z.gtb_spec (last_metric_line vals + 1 + ml) (lv_rows vals)); lia).
  pose proof (log_branch_ok msgs w d) as Hlog.
  unfold outcome, scan_finished_handler. unfold py_bind at 1. cbn [py_get snd].
  unfold py_bind at 1. cbn [py_lift]. rewrite Hv.
  unfold py_bind at 1. cbn [py_lift]. rewrite Hml.
  rewrite (py_bind_ok _ _ _ _ _ Hlog).
  unfold py_bind at 1, on_stdscr, wmove.
  replace (in_window (stdscr d) (summary_offset vals ml) 0) with false
    by (symmetry; apply Bool.not_true_iff_false; rewrite in_window_iff; lia).
  reflexivity.
Qed.

(** ** Theorems: a progress update *)

Lemma length_list_set {A} i (v : A) l : List.length (list_set i v l) = List.length l.
Proof. revert i. induction l as [|y l IH]; intros [|i]; simpl; auto. Qed.

Lemma nth_error_list_set {A} i j (v : A) l :
  (i < List.length l)%nat ->
  nth_error (list_set i v l) j = if Nat.eqb i j then Some v else nth_error l j.
Proof.
  revert i j. induction l as [|y l IH]; intros [|i] [|j] Hi; simpl in *; try lia; auto.
  apply IH. lia.
Qed.

Lemma list_set_same {A} i (v : A) l : nth_error l i = Some v -> list_set i v l = l.
Proof.
  revert i. induction l as [|y l IH]; intros [|i] H; simpl in *; try discriminate.
  - injection H as ->. reflexivity.
  - rewrite IH by exact H. reflexivity.
Qed.

Lemma list_set_twice {A} i (u v : A) l : list_set i v (list_set i u l) = list_set i v l.
Proof. revert i. induction l as [|y l IH]; intros [|i]; simpl; f_equal; auto. Qed.

Lemma on_metric_box_inv {A} i (c : PyM Box.box A) w d s' a :
  on_metric_box i c (w, d) = (s', Ok a) ->
  exists b b', nth_error (metric_boxes d) i = Some b /\ c b = (b', Ok a) /\
               s' = (w, set_metric_boxes d (list_set i b' (metric_boxes d))).
Proof.
  unfold on_metric_box. destruct (nth_error (metric_boxes d) i) as [b|]; [|discriminate].
  destruct (c b) as [b' r] eqn:E. intros H. injection H as <- <-. eauto.
Qed.

Lemma on_banner_box_metric_boxes {A} (c : PyM Box.box A) dflt w d :
  metric_boxes (snd (fst (on_banner_box c dflt (w, d)))) = metric_boxes d /\
  worker_count (snd (fst (on_banner_box c dflt (w, d)))) = worker_count d /\
  fst (fst (on_banner_box c dflt (w, d))) = w.
Proof.
  unfold on_banner_box. destruct (banner_box d); [destruct (c b)|]; repeat split.
Qed.

(** [position] only moves the box's window. *)
Lemma position_box_frame scr L b b' r :
  position_box scr L b = (b', r) ->
  Box.cls b' = Box.cls b /\ Box.border b' = Box.border b /\ Box.title b' = Box.title b.
Proof.
  unfold position_box, position. cbn [panel_size panel_move box_panel].
  destruct (Box.compute_size scr b) as [h w0].
  unfold Box.set_position, Box.with_window.
  destruct (mvwin scr _ _ (Box.window b)); intros H; injection H as <- _; repeat split.
Qed.

(** What a worker's box shows after an update with snapshot [m]. *)
Definition shows (m : ScanMetrics) (i : nat) (b : Box.box) : Prop :=
  exists ms, get_metrics m i = Ok ms /\ Box.cls b = Box.MetricBox ms /\
    win_h (Box.window b) = 6 /\ win_w (Box.window b) = 41 /\
    win_ops (Box.window b) =
      DBorder :: Box.title_ops (METRIC_BOX_WIDTH + 2) (Box.title b)
              ++ Box.metric_ops 1 METRIC_BOX_WIDTH 0 ms.

Definition is_metric_box (b : Box.box) : Prop :=
  Box.border b = true /\ exists ms, Box.cls b = Box.MetricBox ms.

Lemma get_metrics_length m i ms : get_metrics m i = Ok ms -> List.length ms = 4%nat.
Proof.
  unfold get_metrics. destruct (nth_error (counts m) i), (nth_error (bytes m) i),
    (nth_error (matches m) i); intros H; try discriminate. cbn in H. injection H as <-. reflexivity.
Qed.

Lemma set_metric_boxes_id d : set_metric_boxes d (metric_boxes d) = d.
Proof. destruct d. reflexivity. Qed.

Ltac inj H := injection H; intros; subst; try clear H.

(** One iteration of [_display_metrics] that succeeded: only the
    worker's box changed, and it shows the snapshot. *)
Lemma display_metric_box_ok scr m L x w d s' L' :
  display_metric_box scr m L x (w, d) = (s', Ok L') ->
  exists b b', nth_error (metric_boxes d) x = Some b /\
    s' = (w, set_metric_boxes d (list_set x b' (metric_boxes d))) /\
    (is_metric_box b -> shows m x b' /\ is_metric_box b').
Proof.
  unfold display_metric_box. intros H.
  apply py_bind_inv_ok in H as ([w1 d1] & b0 & H1 & H).
  apply on_metric_box_inv in H1 as (b & b1 & Eb & Eget & Es1). injection Eget as <- <-. inj Es1.
  rewrite list_set_same, set_metric_boxes_id in H by exact Eb.
  apply py_bind_inv_ok in H as (s2 & ms & H2 & H). unfold py_lift in H2.
  destruct (get_metrics m x) as [ms'|e] eqn:Em; [inj H2|discriminate H2].
  apply py_bind_inv_ok in H as ([w3 d3] & [] & H3 & H).
  apply on_metric_box_inv in H3 as (b' & b2 & Eb' & Emod & Es3).
  rewrite Eb in Eb'. inj Eb'. inj Emod. inj Es3.
  assert (Hx : (x < List.length (metric_boxes d))%nat) by (apply nth_error_Some; congruence).
  apply py_bind_inv_ok in H as ([w4 d4] & L'' & H4 & H).
  apply on_metric_box_inv in H4 as (bp & b3 & Eb' & Epos & Es4). inj Es4.
  cbn [metric_boxes set_metric_boxes] in Eb'.
  rewrite nth_error_list_set, Nat.eqb_refl in Eb' by exact Hx. inj Eb'.
  apply py_bind_inv_ok in H as ([w5 d5] & [] & H5 & H).
  apply on_metric_box_inv in H5 as (bu & b4 & Eb' & Eupd & Es5). inj Es5.
  cbn [metric_boxes set_metric_boxes] in Eb'.
  rewrite nth_error_list_set, Nat.eqb_refl in Eb' by (rewrite length_list_set; exact Hx).
  inj Eb'. inj H.
  eexists _, b4. split; [exact Eb|]. split.
  - cbn [metric_boxes set_metric_boxes]. rewrite !list_set_twice. reflexivity.
  - intros (Hbrd & ms0 & Ecls).
    destruct (position_box_frame _ _ _ _ _ Epos) as (Ec3 & Eb3 & Et3).
    unfold Box.set_metrics in Ec3, Eb3, Et3. rewrite Ecls in Ec3, Eb3, Et3. cbn in Ec3, Eb3, Et3.
    destruct (forallb (Box.value_fits 1 METRIC_BOX_WIDTH) ms) eqn:Hfit.
    + rewrite (Box.update_metric_box_ok scr _ ms Ec3 (eq_trans Eb3 Hbrd) Hfit) in Eupd.
      inj Eupd. pose proof (get_metrics_length _ _ _ Em) as Hlen.
      split.
      * exists ms. cbn. rewrite Hlen. repeat split; assumption.
      * split; [cbn; congruence|exists ms; exact Ec3].
    + pose proof (Box.update_metric_box_exc scr _ ms Ec3 (eq_trans Eb3 Hbrd) Hfit) as Hx'.
      unfold outcome in Hx'. rewrite Eupd in Hx'. discriminate.
Qed.

Lemma place_banner_keeps scr L w d s' L' :
  place_banner scr L (w, d) = (s', Ok L') ->
  fst s' = w /\ metric_boxes (snd s') = metric_boxes d /\ worker_count (snd s') = worker_count d.
Proof.
  unfold place_banner. intros H.
  apply py_bind_inv_ok in H as ([w1 d1] & L1 & H1 & H).
  destruct (on_banner_box_metric_boxes (position_box scr L) L w d) as (E1 & E2 & E3).
  rewrite H1 in E1, E2, E3. cbn in E1, E2, E3. subst w1.
  apply py_bind_inv_ok in H as ([w2 d2] & [] & H2 & H).
  destruct (on_banner_box_metric_boxes (Box.update scr) tt w d1) as (F1 & F2 & F3).
  rewrite H2 in F1, F2, F3. cbn in F1, F2, F3. subst w2. inj H. cbn. repeat split; congruence.
Qed.

Definition wf_display (d : display) : Prop :=
  List.length (metric_boxes d) = worker_count d /\ Forall is_metric_box (metric_boxes d).

(** The invariant of the loop of [_display_metrics]. *)
Definition update_inv (m : ScanMetrics) (w : world) (wc : nat) (done : list nat) (s : state) : Prop :=
  fst s = w /\ worker_count (snd s) = wc /\ List.length (metric_boxes (snd s)) = wc /\
  (forall i, (i < wc)%nat -> exists b, nth_error (metric_boxes (snd s)) i = Some b /\ is_metric_box b) /\
  (forall i, In i done -> exists b, nth_error (metric_boxes (snd s)) i = Some b /\ shows m i b).

Lemma update_inv_step scr m w wc done x L s s' L' :
  update_inv m w wc done s -> display_metric_box scr m L x s = (s', Ok L') ->
  update_inv m w wc (done ++ [x]) s'.
Proof.
  destruct s as [w0 d]. intros (Ew & Ewc & Elen & Hall & Hdone) H. cbn [fst snd] in *.
  apply display_metric_box_ok in H as (b & b' & Eb & -> & Hshow).
  assert (Hx : (x < List.length (metric_boxes d))%nat) by (apply nth_error_Some; congruence).
  destruct (Hall x ltac:(lia)) as (b0 & Eb0 & Hb0). rewrite Eb in Eb0. injection Eb0 as <-.
  destruct (Hshow Hb0) as [Hs Hm]. unfold update_inv. cbn [fst snd metric_boxes set_metric_boxes worker_count].
  split; [exact Ew|]. split; [exact Ewc|]. split; [rewrite length_list_set; exact Elen|].
  split.
  - intros i Hi. rewrite nth_error_list_set by exact Hx.
    destruct (Nat.eqb_spec x i); [eexists; split; [reflexivity|exact Hm]|apply Hall, Hi].
  - intros i Hi. rewrite nth_error_list_set by exact Hx.
    destruct (Nat.eqb_spec x i) as [<-|Hne]; [eexists; split; [reflexivity|exact Hs]|].
    apply in_app_or in Hi as [Hi|[Hi|[]]]; [apply Hdone, Hi|congruence].
Qed.

Lemma handle_update_spec (u : ScanProgressUpdate) (w : world) (d : display) s' :
  wf_display d -> handle_update u (w, d) = (s', Ok tt) ->
  fst s' = w /\ worker_count (snd s') = worker_count d /\
  forall i, (i < worker_count d)%nat ->
    exists b, nth_error (metric_boxes (snd s')) i = Some b /\ shows (update_metrics u) i b.
Proof.
  intros [Hlen Hmb] H. unfold handle_update, display_metrics in H.
  apply py_bind_inv_ok in H as (s1 & scr & Hs & H). inj Hs.
  apply py_bind_inv_ok in H as ([w2 d2] & L1 & Hb & H).
  destruct (place_banner_keeps _ _ _ _ _ _ Hb) as (Ew2 & Eb2 & Ewc2). cbn [fst snd] in *. subst w2.
  apply py_bind_inv_ok in H as (s3 & s0 & Hget & H). inj Hget.
  apply py_bind_inv_ok in H as (s4 & Lf & Hfold & Hret). injection Hret as Hs4. subst s'.
  assert (Hinv : update_inv (update_metrics u) w (worker_count d) (seq 0 (worker_count d2)) s4).
  { refine (py_foldM_ok_inv _ (fun done _ s => update_inv (update_metrics u) w (worker_count d) done s)
              _ _ [] _ _ _ _ Hfold _).
    - intros. eapply update_inv_step; eassumption.
    - unfold update_inv. cbn [fst snd]. split; [reflexivity|]. split; [exact Ewc2|].
      split; [congruence|].
      split; [|intros i []].
      intros i Hi. rewrite Eb2. rewrite Forall_forall in Hmb.
      destruct (nth_error (metric_boxes d) i) eqn:E; [|apply nth_error_None in E; lia].
      eexists; split; [reflexivity|]. apply Hmb. eapply nth_error_In; exact E. }
  destruct Hinv as (Ew & Ewc & _ & _ & Hdone).
  split; [exact Ew|]. split; [exact Ewc|].
  intros i Hi. apply Hdone. rewrite Ewc2. apply in_seq. lia.
Qed.

(** [c] leaves the view [v] of the state as it found it, raising or not. *)
Definition keeps {X A} (v : state -> X) (c : PyM state A) : Prop := forall s, v (fst (c s)) = v s.

Lemma keeps_ret {X A} (v : state -> X) (a : A) : keeps v (py_ret a).
Proof. intros s. reflexivity. Qed.

Lemma keeps_raise {X A} (v : state -> X) e : keeps v (A := A) (py_raise e).
Proof. intros s. reflexivity. Qed.

Lemma keeps_lift {X A} (v : state -> X) (r : res A) : keeps v (py_lift r).
Proof. intros s. reflexivity. Qed.

Lemma keeps_get {X} (v : state -> X) : keeps v py_get.
Proof. intros s. reflexivity. Qed.

Lemma keeps_bind {X A B} (v : state -> X) (c : PyM state A) (k : A -> PyM state B) :
  keeps v c -> (forall a, keeps v (k a)) -> keeps v (py_bind c k).
Proof.
  intros Hc Hk s. unfold py_bind. specialize (Hc s).
  destruct (c s) as [s1 [a|e]]; cbn [fst] in *; [rewrite Hk|]; exact Hc.
Qed.

Lemma keeps_foldM {X A B} (v : state -> X) (f : B -> A -> PyM state B) xs b :
  (forall b x, keeps v (f b x)) -> keeps v (py_foldM f xs b).
Proof.
  intros Hf. revert b. induction xs as [|x xs IH]; intros b; simpl;
    [apply keeps_ret|apply keeps_bind; [apply Hf|intros; apply IH]].
Qed.

(** A view of a kept view is kept. *)
Lemma keeps_compose {X Y A} (v : state -> X) (f : X -> Y) (c : PyM state A) :
  keeps v c -> keeps (fun s => f (v s)) c.
Proof. intros Hc s. rewrite Hc. reflexivity. Qed.

Lemma nth_error_list_set_other {A} i j (v : A) l :
  i <> j -> nth_error (list_set i v l) j = nth_error l j.
Proof.
  revert i j. induction l as [|y l IH]; intros [|i] [|j] Hij; cbn; try reflexivity; try congruence.
  apply IH. congruence.
Qed.

(** What a method on worker [x]'s box leaves alone: the world, the
    worker count and every other box. *)
Definition no_box : Box.box := Box.mkBox false None (Box.MetricBox []) (mkWindow 0 0 0 0 []).

Definition others (x : nat) (s : state) : world * nat * list Box.box :=
  (fst s, worker_count (snd s), list_set x no_box (metric_boxes (snd s))).

Lemma others_nth x s s' i :
  others x s' = others x s -> i <> x -> nth_error (metric_boxes (snd s')) i = nth_error (metric_boxes (snd s)) i.
Proof.
  intros H Hi. injection H as _ _ H.
  rewrite <- (nth_error_list_set_other x i no_box (metric_boxes (snd s')) (not_eq_sym Hi)), H.
  apply nth_error_list_set_other, not_eq_sym, Hi.
Qed.

Lemma keeps_others_metric {A} x (c : PyM Box.box A) : keeps (others x) (on_metric_box x c).
Proof.
  intros [w d]. unfold on_metric_box, others. destruct (nth_error (metric_boxes d) x); [destruct (c b)|];
    cbn; rewrite ?list_set_twice; reflexivity.
Qed.

Lemma keeps_others_display_metric_box scr m L x : keeps (others x) (display_metric_box scr m L x).
Proof.
  unfold display_metric_box.
  repeat first [apply keeps_bind; [|intros ?] | apply keeps_others_metric | apply keeps_lift | apply keeps_ret].
Qed.

Lemma seq_app_cons start n pre x post :
  seq start n = pre ++ x :: post -> (x = start + List.length pre)%nat /\ pre = seq start (List.length pre).
Proof.
  revert start n. induction pre as [|y pre IH]; intros start [|n] H; cbn in H; try discriminate.
  - injection H as <- _. cbn. split; [lia|reflexivity].
  - injection H as <- H. destruct (IH _ _ H) as [Hx Hp]. cbn. split; [lia|congruence].
Qed.

(** The loop of [_display_metrics] when an iteration raises: the boxes
    before it show the snapshot, the boxes after it are untouched. *)
Definition raise_inv (m : ScanMetrics) (w : world) (d : display) (done : list nat) (s : state) : Prop :=
  update_inv m w (worker_count d) done s /\
  forall i, ~ In i done -> nth_error (metric_boxes (snd s)) i = nth_error (metric_boxes d) i.

Lemma raise_inv_step scr m w d done x L s s' L' :
  raise_inv m w d done s -> display_metric_box scr m L x s = (s', Ok L') -> raise_inv m w d (done ++ [x]) s'.
Proof.
  intros [Hu Hrest] H. split; [exact (update_inv_step _ _ _ _ _ _ _ _ _ _ Hu H)|].
  intros i Hi. pose proof (keeps_others_display_metric_box scr m L x s) as Ho. rewrite H in Ho.
  rewrite (others_nth _ _ _ _ Ho); [apply Hrest|]; intros Hin; apply Hi, in_or_app; [left|right; left]; auto.
Qed.

Lemma update_inv_init m w d : wf_display d -> update_inv m w (worker_count d) [] (w, d).
Proof.
  intros [Hlen Hmb]. unfold update_inv. cbn [fst snd]. split; [reflexivity|]. split; [reflexivity|].
  split; [exact Hlen|]. split; [|intros i []].
  intros i Hi. rewrite Forall_forall in Hmb.
  destruct (nth_error (metric_boxes d) i) eqn:E; [|apply nth_error_None in E; lia].
  eexists; split; [reflexivity|]. apply Hmb. eapply nth_error_In; exact E.
Qed.

Lemma keeps_boxes_place_banner scr L : keeps (fun s => metric_boxes (snd s)) (place_banner scr L).
Proof.
  assert (Hb : forall A (c : PyM Box.box A) dflt, keeps (fun s => metric_boxes (snd s)) (on_banner_box c dflt))
    by (intros A c dflt [w d]; exact (proj1 (on_banner_box_metric_boxes c dflt w d))).
  unfold place_banner. apply keeps_bind; [apply Hb|intros ?]. apply keeps_bind; [apply Hb|intros ?].
  apply keeps_ret.
Qed.

(** C14: a progress update that goes through leaves every worker's box
    showing exactly that worker's counters from the snapshot: the four
    metrics of [_get_metrics] in order, each label at the left and each
    value right-aligned, in a [6 x 41] window.  No box keeps a value of
    an earlier snapshot, and the process state is untouched. *)
Theorem handle_update_shows_snapshot (u : ScanProgressUpdate) (w : world) (d : display) s' :
  wf_display d -> handle_update u (w, d) = (s', Ok tt) ->
  fst s' = w /\ worker_count (snd s') = worker_count d /\
  forall i, (i < worker_count d)%nat ->
    exists b, nth_error (metric_boxes (snd s')) i = Some b /\ shows (update_metrics u) i b.
Proof. revert_all. exact handle_update_spec. Qed.


(** ** Witnesses *)

Local Open Scope string_scope.

(** Three displays registered on an 80-column terminal in curses mode. *)
Definition example_world : world :=
  mkWorld (mkScreen 24 80) true false false [0; 1; 2]%nat None [].

(** A fresh display of two workers on a 24 x 160 terminal, before [init]. *)
Definition example_s0 : state :=
  (mkWorld (mkScreen 24 160) false true true [] None [], mkDisplay 0 2 (mkWindow 0 0 0 0 []) None []).

Definition example_s1 : state := Eval vm_compute in exec init example_s0.

Definition example_update : ScanProgressUpdate :=
  mkUpdate (mkScanMetrics [12; 7]%N [4096; 1024]%N [1; 0]%N).

Definition example_s2 : state := Eval vm_compute in exec (handle_update example_update) example_s1.

Definition example_s3 : state := Eval vm_compute in exec (handle_update example_update) example_s2.

Definition example_msgs : ScanFinishedMessages :=
  mkMessages "Found 1 possible malware match" (Some "1 file timed out").

Definition example_vals : LayoutValues := mkLayoutValues 24 160 4 1 6 0 5.

(** A display left with a three-line screen, as after shrinking the
    terminal, and a summary of 100 characters. *)
Definition short_display : display :=
  mkDisplay 0 1 (mkWindow 0 0 3 40 []) None
    [Box.mkBox true None (Box.MetricBox []) (mkWindow 0 0 6 41 [])].

Definition long_msgs : ScanFinishedMessages :=
  mkMessages (String.concat "" (repeat "0123456789" 10)) None.

(** Two workers side by side on 24 x 160, after one update; then the
    terminal shrinks to 8 x 60 and a second snapshot arrives. *)
Definition shrunk_state : state := resize_terminal (mkScreen 8 60) example_s2.

Definition second_update : ScanProgressUpdate :=
  mkUpdate (mkScanMetrics [30; 9]%N [8192; 2048]%N [2; 1]%N).

Definition shrunk_after : state := Eval vm_compute in exec (handle_update second_update) shrunk_state.

Lemma example_init : init example_s0 = (example_s1, Ok tt).
Proof. vm_compute. reflexivity. Qed.

Lemma example_handle_update : handle_update example_update example_s1 = (example_s2, Ok tt).
Proof. vm_compute. reflexivity. Qed.

Lemma reset_terminal_skips_witness :
  NoDup (w_displays example_world) /\
  reset_terminal example_world =
  (match w_displays example_world with
   | [] => example_world
   | _ => with_displays (endwin example_world) (odds (w_displays example_world))
   end, Ok tt).
Proof.
  assert (H : NoDup (w_displays example_world)) by (repeat constructor; simpl; intuition lia).
  split; [exact H|apply reset_terminal_skips; exact H].
Defined.

Lemma end_display_twice_witness :
  NoDup (w_displays example_world) /\ In 1%nat (w_displays example_world) /\
  exists w', end_display 1 example_world = (w', Ok tt) /\ ~ In 1%nat (w_displays w') /\
             end_display 1 w' = (endwin w', Exc ValueError).
Proof.
  assert (H : NoDup (w_displays example_world)) by (repeat constructor; simpl; intuition lia).
  assert (Hin : In 1%nat (w_displays example_world)) by (simpl; auto).
  split; [exact H|split; [exact Hin|]]. apply end_display_twice; assumption.
Defined.

Lemma init_then_reset_witness :
  w_displays (fst example_s0) = [] /\
  w_displays (fst (fst (init (fst example_s0, snd example_s0)))) = [d_id (snd example_s0)] /\
  reset_terminal (fst (fst (init (fst example_s0, snd example_s0)))) =
  (mkWorld (w_screen (fst example_s0)) false true true [] (w_banner (fst example_s0))
           (w_log (fst example_s0)), Ok tt).
Proof. split; [reflexivity|apply (init_then_reset (fst example_s0) (snd example_s0)); reflexivity]. Defined.

Lemma handle_update_shows_snapshot_witness :
  wf_display (snd example_s1) /\
  handle_update example_update (fst example_s1, snd example_s1) = (example_s2, Ok tt) /\
  fst example_s2 = fst example_s1 /\ worker_count (snd example_s2) = worker_count (snd example_s1) /\
  forall i, (i < worker_count (snd example_s1))%nat ->
    exists b, nth_error (metric_boxes (snd example_s2)) i = Some b /\
              shows (update_metrics example_update) i b.
Proof.
  assert (Hwf : wf_display (snd example_s1))
    by (split; [reflexivity|repeat constructor; eexists; reflexivity]).
  split; [exact Hwf|split; [exact example_handle_update|]].
  apply handle_update_shows_snapshot; [exact Hwf|exact example_handle_update].
Defined.

Lemma scan_finished_placement_witness :
  self_layout_values (snd example_s1) = Ok example_vals /\ 0 < lv_cols example_vals /\
  message_lines example_msgs (lv_cols example_vals) = Ok 2 /\ 2 <= lv_rows example_vals /\
  -1 <= last_metric_line example_vals /\
  exists s', scan_finished_handler example_msgs example_s1 = (s', Ok tt) /\
    fst s' = with_log (fst example_s1) (timeout_log example_msgs) /\
    win_ops (stdscr (snd s')) =
      (win_ops (stdscr (snd example_s1)) ++
       [DClrtobot (summary_offset example_vals 2) 0;
        DText (summary_offset example_vals 2) 0 (results example_msgs);
        DText (summary_offset example_vals 2 + 2 - 1) 0 exit_message])%list /\
    summary_offset example_vals 2 + 2 <= lv_rows example_vals /\
    (last_metric_line example_vals + 1 + 2 <= lv_rows example_vals ->
     summary_offset example_vals 2 = last_metric_line example_vals + 1) /\
    (lv_rows example_vals < last_metric_line example_vals + 1 + 2 ->
     summary_offset example_vals 2 + 2 = lv_rows example_vals).
Proof.
  assert (Hv : self_layout_values (snd example_s1) = Ok example_vals) by (vm_compute; reflexivity).
  assert (Hm : message_lines example_msgs (lv_cols example_vals) = Ok 2) by (vm_compute; reflexivity).
  split; [exact Hv|split; [cbn; lia|split; [exact Hm|split; [cbn; lia|split; [cbn; lia|]]]]].
  apply scan_finished_placement; [exact Hv|cbn; lia|exact Hm|cbn; lia|cbn; lia].
Defined.

Lemma scan_finished_too_long_witness :
  self_layout_values short_display = Ok (mkLayoutValues 3 40 1 1 6 0 5) /\
  0 < lv_cols (mkLayoutValues 3 40 1 1 6 0 5) /\
  message_lines long_msgs 40 = Ok 4 /\ lv_rows (mkLayoutValues 3 40 1 1 6 0 5) < 4 /\
  -1 <= last_metric_line (mkLayoutValues 3 40 1 1 6 0 5) /\
  outcome (scan_finished_handler long_msgs) (fst example_s0, short_display) = Exc CursesError.
Proof.
  assert (Hv : self_layout_values short_display = Ok (mkLayoutValues 3 40 1 1 6 0 5))
    by (vm_compute; reflexivity).
  assert (Hm : message_lines long_msgs 40 = Ok 4) by (vm_compute; reflexivity).
  split; [exact Hv|split; [cbn; lia|split; [exact Hm|split; [cbn; lia|split; [cbn; lia|]]]]].
  apply (scan_finished_too_long (fst example_s0, short_display) long_msgs (mkLayoutValues 3 40 1 1 6 0 5) 4);
    [exact Hv|cbn; lia|exact Hm|cbn; lia|cbn; lia].
Defined.

Lemma reset_terminal_eventually_empty_witness :
  NoDup (w_displays example_world) /\
  reaches (exec reset_terminal) (fun w' => w_displays w' = []) example_world.
Proof.
  assert (H : NoDup (w_displays example_world)) by (repeat constructor; simpl; intuition lia).
  split; [exact H|exact (reset_terminal_eventually_empty example_world H)].
Defined.

