(* ===== verification/Lifecycle.v ===== *)
(** * The lifecycle of a built dashboard

    What can happen to a [ProgressDisplay] once [__init__] has returned:
    progress updates ([handle_update]), the scan-finished summary
    ([scan_finished_handler]), the exit key ([end_on_input]) and terminal
    resizes, as the step relation [lifecycle_step].  The theorems hold in
    every state a successfully built display reaches, by rule induction
    over [steps]: the display keeps one bordered metric box per worker,
    a completed update shows the snapshot, and the display's phase moves
    only as the state machine of the spec allows. *)

From Stdlib Require Import ZArith NArith List String Lia Permutation.
From S2P Require Import Prelude Curses PyStr Box Layout Geometry Display.
Import ListNotations.
Open Scope Z_scope.

(** ** The display's shape is an invariant of its lifecycle *)

(** Methods that keep the display well formed, even when they raise. *)
Definition keeps_wf {A} (c : PyM state A) : Prop :=
  forall s, wf_display (snd s) -> wf_display (snd (fst (c s))) /\
            worker_count (snd (fst (c s))) = worker_count (snd s).

(** Box methods that keep a metric box a metric box. *)
Definition keeps_metric {A} (c : PyM Box.box A) : Prop :=
  forall b, is_metric_box b -> is_metric_box (fst (c b)).

Lemma keeps_wf_ret {A} (a : A) : keeps_wf (py_ret a).
Proof. intros s H. split; [exact H|reflexivity]. Qed.

Lemma keeps_wf_lift {A} (r : res A) : keeps_wf (py_lift r).
Proof. intros s H. split; [exact H|reflexivity]. Qed.

Lemma keeps_wf_get : keeps_wf py_get.
Proof. intros s H. split; [exact H|reflexivity]. Qed.

Lemma keeps_wf_bind {A B} (c : PyM state A) (k : A -> PyM state B) :
  keeps_wf c -> (forall a, keeps_wf (k a)) -> keeps_wf (py_bind c k).
Proof.
  intros Hc Hk s Hs. unfold py_bind. destruct (Hc s Hs) as [H1 E1].
  destruct (c s) as [s1 [a|e]]; cbn [fst snd] in *; [|split; assumption].
  destruct (Hk a s1 H1) as [H2 E2]. split; [exact H2|congruence].
Qed.

Lemma keeps_wf_foldM {A B} (f : B -> A -> PyM state B) xs b :
  (forall b x, keeps_wf (f b x)) -> keeps_wf (py_foldM f xs b).
Proof.
  intros Hf. revert b. induction xs as [|x xs IH]; intros b; simpl.
  - apply keeps_wf_ret.
  - apply keeps_wf_bind; [apply Hf|intros; apply IH].
Qed.

Lemma keeps_wf_banner {A} (c : PyM Box.box A) dflt : keeps_wf (on_banner_box c dflt).
Proof.
  intros [w d] H. destruct (on_banner_box_metric_boxes c dflt w d) as (E1 & E2 & _).
  unfold wf_display. rewrite E1, E2. split; [exact H|reflexivity].
Qed.

Lemma keeps_wf_metric {A} i (c : PyM Box.box A) : keeps_metric c -> keeps_wf (on_metric_box i c).
Proof.
  intros Hc [w d] [Hlen Hall]. unfold on_metric_box, wf_display.
  destruct (nth_error (metric_boxes d) i) as [b|] eqn:Eb; [|split; [split; assumption|reflexivity]].
  assert (Hi : (i < List.length (metric_boxes d))%nat) by (apply nth_error_Some; congruence).
  specialize (Hc b). destruct (c b) as [b' r]. cbn [fst snd metric_boxes worker_count set_metric_boxes] in *.
  split; [|reflexivity]. split; [rewrite length_list_set; exact Hlen|].
  apply Forall_forall. intros x Hx. apply In_nth_error in Hx as [j Ej].
  rewrite nth_error_list_set in Ej by exact Hi. rewrite Forall_forall in Hall.
  destruct (Nat.eqb_spec i j).
  - injection Ej as <-. apply Hc, Hall. eapply nth_error_In; exact Eb.
  - apply Hall. eapply nth_error_In; exact Ej.
Qed.

Lemma keeps_metric_window_only {A} (c : PyM Box.box A) : Box.window_only c -> keeps_metric c.
Proof.
  intros Hc b (Hb & ms & Ec). destruct (Hc b) as (E1 & _ & E3 & _).
  split; [congruence|exists ms; congruence].
Qed.

Lemma keeps_metric_set_metrics ms : keeps_metric (py_modify (fun b => Box.set_metrics b ms)).
Proof.
  intros b (Hb & ms0 & Ec). cbn. unfold Box.set_metrics. rewrite Ec.
  split; [exact Hb|eexists; reflexivity].
Qed.

Lemma keeps_metric_position scr L : keeps_metric (position_box scr L).
Proof.
  intros b (Hb & ms & Ec). destruct (position_box scr L b) as [b' r] eqn:E.
  destruct (position_box_frame _ _ _ _ _ E) as (E1 & E2 & _). cbn [fst].
  split; [congruence|exists ms; congruence].
Qed.

Lemma keeps_metric_get : keeps_metric py_get.
Proof. intros b H. exact H. Qed.

Lemma keeps_wf_screen : keeps_wf get_screen.
Proof. intros s H. split; [exact H|reflexivity]. Qed.

Lemma keeps_wf_stdscr f : keeps_wf (on_stdscr f).
Proof.
  intros [w d] H. unfold on_stdscr. destruct (f (stdscr d)); cbn; split; try exact H; reflexivity.
Qed.

Lemma keeps_wf_log msg : keeps_wf (log_warning msg).
Proof. intros [w d] H. split; [exact H|reflexivity]. Qed.

#[export] Hint Resolve keeps_wf_ret keeps_wf_lift keeps_wf_get keeps_wf_banner keeps_wf_screen
  keeps_wf_stdscr keeps_wf_log keeps_metric_get keeps_metric_set_metrics keeps_metric_position : display.

Lemma keeps_metric_update scr : keeps_metric (Box.update scr).
Proof. apply keeps_metric_window_only, Box.window_only_update. Qed.

#[export] Hint Resolve keeps_metric_update : display.

(** Split a method into the calls [keeps_wf] is proved for. *)
Ltac keeps_wf_tac :=
  repeat first
    [ apply keeps_wf_bind; [|intros ?]
    | apply keeps_wf_foldM; intros ? ?
    | apply keeps_wf_metric; auto with display
    | solve [auto with display]
    | match goal with
      | |- keeps_wf (match ?x with _ => _ end) => destruct x
      | |- keeps_wf (if ?x then _ else _) => destruct x
      | |- keeps_wf (display_metric_box _ _ _ _) => unfold display_metric_box
      | |- keeps_wf (place_banner _ _) => unfold place_banner
      end ].

Lemma keeps_wf_handle_update u : keeps_wf (handle_update u).
Proof. unfold handle_update, display_metrics. keeps_wf_tac. Qed.

Lemma keeps_wf_scan_finished msgs : keeps_wf (scan_finished_handler msgs).
Proof. unfold scan_finished_handler. keeps_wf_tac. Qed.

Lemma keeps_wf_end_on_input : keeps_wf end_on_input.
Proof.
  intros [w d] H. unfold end_on_input. destruct (end_display (d_id d) w). split; [exact H|reflexivity].
Qed.

Lemma init_metric_box_ok scr dm L boxes i s s' L' boxes' :
  init_metric_box scr dm (L, boxes) i s = (s', Ok (L', boxes')) ->
  s' = s /\ exists b, boxes' = boxes ++ [b] /\ is_metric_box b.
Proof.
  unfold init_metric_box. intros H.
  apply py_bind_inv_ok in H as (s1 & ms & H1 & H). unfold py_lift in H1. inj H1.
  apply py_bind_inv_ok in H as (s2 & b & H2 & H). unfold py_lift in H2.
  destruct (Box.new_metric_box scr ms (Some (worker_title i))) as [b0|e] eqn:Enew; [inj H2|discriminate H2].
  destruct (position_box scr L b) as [b1 [L1|e]] eqn:Epos; [|discriminate H].
  destruct (Box.update scr b1) as [b2 [[]|e]] eqn:Eupd; [|discriminate H].
  injection H as <- <- <-. split; [reflexivity|]. exists b2. split; [reflexivity|].
  unfold Box.new_metric_box in Enew. apply Box.new_box_frame in Enew as (Eb & _ & Ec).
  pose proof (keeps_metric_position scr L b) as Hp. rewrite Epos in Hp.
  pose proof (keeps_metric_update scr b1) as Hu. rewrite Eupd in Hu.
  apply Hu, Hp. split; [exact Eb|eexists; exact Ec].
Qed.

Lemma init_shape (w : world) (d : display) s' :
  init (w, d) = (s', Ok tt) -> wf_display (snd s') /\ worker_count (snd s') = worker_count d.
Proof.
  unfold init. intros H.
  apply py_bind_inv_ok in H as (s1 & [] & H1 & H). unfold register in H1. inj H1.
  apply py_bind_inv_ok in H as (s2 & [] & H2 & H). unfold start_curses in H2. inj H2.
  apply py_bind_inv_ok in H as ([w3 d3] & [] & H3 & H).
  assert (Ewc3 : worker_count d3 = worker_count d).
  { unfold initialize_banner in H3. destruct (w_banner _); [destruct (Box.new_banner_box _ _)|];
      inj H3; reflexivity. }
  unfold initialize_metric_boxes in H.
  apply py_bind_inv_ok in H as (s4 & s4' & H4 & H). inj H4. cbn beta iota in H.
  apply py_bind_inv_ok in H as ([w5 d5] & L1 & H5 & H).
  destruct (place_banner_keeps _ _ _ _ _ _ H5) as (_ & _ & Ewc5). cbn [fst snd] in Ewc5.
  apply py_bind_inv_ok in H as ([w6 d6] & [L6 boxes] & H6 & H). inj H.
  assert (Hinv : d6 = d5 /\ List.length boxes = List.length ([] ++ seq 0 (worker_count d3)) /\
                 Forall is_metric_box boxes).
  { refine (py_foldM_ok_inv _ (fun done (acc : BoxLayout * list Box.box) (s : state) =>
                                 snd s = d5 /\ List.length (snd acc) = List.length done /\
                                 Forall is_metric_box (snd acc)) _ _ [] _ _ _ _ H6 _).
    - intros done x [Lb bs] s0 s0' [Lb' bs'] (Es & El & Ea) Hrun.
      apply init_metric_box_ok in Hrun as (-> & b & -> & Hb). split; [exact Es|].
      cbn [snd] in *. rewrite !length_app. split; [cbn; lia|].
      apply Forall_app. split; [exact Ea|constructor; [exact Hb|constructor]].
    - split; [reflexivity|]. split; constructor. }
  destruct Hinv as (Ed & El & Ea). subst d6.
  cbn [snd set_metric_boxes worker_count metric_boxes app] in *. rewrite length_seq in El.
  unfold wf_display. cbn. split; [split; [congruence|exact Ea]|congruence].
Qed.

(** What can happen to a built display: the scan engine reports
    progress or completion, the user presses the exit key, the terminal
    is resized.  A handler that raises still leaves its state. *)
Inductive lifecycle_step : state -> state -> Prop :=
| step_handle_update u s s' r : handle_update u s = (s', r) -> lifecycle_step s s'
| step_scan_finished msgs s s' r : scan_finished_handler msgs s = (s', r) -> lifecycle_step s s'
| step_end_on_input s s' r : end_on_input s = (s', r) -> lifecycle_step s s'
| step_resize scr s : lifecycle_step s (resize_terminal scr s).

Lemma keeps_wf_run {A} (c : PyM state A) s s' r :
  keeps_wf c -> c s = (s', r) -> wf_display (snd s) ->
  wf_display (snd s') /\ worker_count (snd s') = worker_count (snd s).
Proof. intros Hk E Hwf. pose proof (Hk s Hwf) as H. rewrite E in H. exact H. Qed.

Lemma lifecycle_shape (s0 s1 s : state) :
  init s0 = (s1, Ok tt) -> steps lifecycle_step s1 s ->
  wf_display (snd s) /\ worker_count (snd s) = worker_count (snd s0).
Proof.
  intros Hinit Hsteps.
  apply (steps_keep lifecycle_step
           (fun s => wf_display (snd s) /\ worker_count (snd s) = worker_count (snd s0)) s1 s);
    [|destruct s0; apply (init_shape _ _ s1 Hinit)|exact Hsteps].
  intros a b [Hwf Hwc] Hab.
  destruct Hab as [u ? ? r E|msgs ? ? r E|? ? r E|scr [w d]]; [| | |split; assumption];
    [destruct (keeps_wf_run _ _ _ _ (keeps_wf_handle_update u) E Hwf) as [H1 H2]
    |destruct (keeps_wf_run _ _ _ _ (keeps_wf_scan_finished msgs) E Hwf) as [H1 H2]
    |destruct (keeps_wf_run _ _ _ _ keeps_wf_end_on_input E Hwf) as [H1 H2]];
    (split; [exact H1|congruence]).
Qed.

(** C16: from a display built without an exception, every sequence of
    progress updates, summaries, key presses and resizes, successful or
    not, keeps one metric box per worker, each a bordered metric box:
    the box list is never resized after construction. *)
Theorem lifecycle_keeps_shape (s0 s1 s : state) :
  init s0 = (s1, Ok tt) -> steps lifecycle_step s1 s ->
  wf_display (snd s) /\ worker_count (snd s) = worker_count (snd s0).
Proof. revert_all. exact lifecycle_shape. Qed.

(** C15: in every state a built display can reach, a progress update
    that goes through shows each worker's counters of that snapshot in
    the worker's box: the Active-state contract holds along the whole
    lifecycle, not only right after construction. *)
Theorem reachable_update_shows (s0 s1 s s' : state) (u : ScanProgressUpdate) :
  init s0 = (s1, Ok tt) -> steps lifecycle_step s1 s -> handle_update u s = (s', Ok tt) ->
  forall i, (i < worker_count (snd s0))%nat ->
    exists b, nth_error (metric_boxes (snd s')) i = Some b /\ shows (update_metrics u) i b.
Proof.
  intros Hinit Hsteps Hupd i Hi. destruct (lifecycle_shape s0 s1 s Hinit Hsteps) as [Hwf Hwc].
  destruct s as [w d]. destruct (handle_update_spec u w d s' Hwf Hupd) as (_ & _ & Hshow).
  apply Hshow. cbn [snd] in Hwc. lia.
Qed.

(** ** The phases of the spec's state machine

    The spec's dashboard moves from Initializing to Active, Finished and
    Terminated, and Terminated restores the terminal and deregisters the
    display.  The code keeps no phase of its own: a display is [Live]
    while it is registered and curses holds the terminal (no echo, no
    cursor), and [Terminated] once [endwin] has given the terminal back
    and the registry no longer holds it.  Active and Finished differ only
    in what the caller has called, so both are [Live]; any other
    combination is [Broken], a state the spec has no name for. *)

Inductive phase : Type := Live | Terminated | Broken.

Inductive phase_step : phase -> phase -> Prop :=
| phase_live : phase_step Live Live
| phase_end : phase_step Live Terminated
| phase_done : phase_step Terminated Terminated.

Definition registered (s : state) : bool := existsb (Nat.eqb (d_id (snd s))) (w_displays (fst s)).

Definition phase_of (s : state) : phase :=
  let w := fst s in
  if registered s && w_curses w && negb (w_echo w) && negb (w_cursor w) then Live
  else if negb (registered s) && negb (w_curses w) && w_echo w && w_cursor w then Terminated
  else Broken.

(** What the phase reads of the state. *)
Definition session (s : state) : nat * bool * bool * bool * list nat :=
  (d_id (snd s), w_curses (fst s), w_echo (fst s), w_cursor (fst s), w_displays (fst s)).

Lemma keeps_session_banner {A} (c : PyM Box.box A) dflt : keeps session (on_banner_box c dflt).
Proof. intros [w d]. unfold on_banner_box. destruct (banner_box d); [destruct (c b)|]; reflexivity. Qed.

Lemma keeps_session_metric {A} i (c : PyM Box.box A) : keeps session (on_metric_box i c).
Proof.
  intros [w d]. unfold on_metric_box. destruct (nth_error (metric_boxes d) i); [destruct (c b)|];
    reflexivity.
Qed.

Lemma keeps_session_screen : keeps session get_screen.
Proof. intros s. reflexivity. Qed.

Lemma keeps_session_stdscr f : keeps session (on_stdscr f).
Proof. intros [w d]. unfold on_stdscr. destruct (f (stdscr d)); reflexivity. Qed.

Lemma keeps_session_log msg : keeps session (log_warning msg).
Proof. intros [w d]. reflexivity. Qed.

Create HintDb lifecycle discriminated.
#[export] Hint Resolve keeps_ret keeps_raise keeps_lift keeps_get keeps_session_banner
  keeps_session_metric keeps_session_screen keeps_session_stdscr keeps_session_log : lifecycle.

Ltac keeps_tac :=
  repeat first [ progress eauto with lifecycle
               | apply keeps_bind; [|intros ?]
               | apply keeps_foldM; intros ? ?
               | match goal with |- keeps _ (match ?x with _ => _ end) => destruct x end ].

Lemma keeps_session_handle_update u : keeps session (handle_update u).
Proof.
  unfold handle_update, display_metrics, place_banner, display_metric_box. keeps_tac.
Qed.

Lemma keeps_session_scan_finished msgs : keeps session (scan_finished_handler msgs).
Proof. unfold scan_finished_handler. keeps_tac. Qed.

Lemma keeps_session_init_tail : keeps session (initialize_banner ;;; initialize_metric_boxes).
Proof.
  apply keeps_bind; [intros [w d]; unfold initialize_banner; destruct (w_banner w) as [bn|];
                     [destruct (Box.new_banner_box (w_screen w) bn)|]; reflexivity|intros _].
  unfold initialize_metric_boxes, place_banner, init_metric_box. keeps_tac.
  destruct a as [? ?]. keeps_tac. intros [w' d']. reflexivity.
Qed.

Lemma phase_of_session s s' : session s' = session s -> phase_of s' = phase_of s.
Proof.
  destruct s as [w d], s' as [w' d']. unfold session, phase_of, registered. cbn.
  intros H. injection H as -> -> -> -> ->. reflexivity.
Qed.

Lemma registered_iff s : registered s = true <-> In (d_id (snd s)) (w_displays (fst s)).
Proof.
  unfold registered. rewrite existsb_exists. split.
  - intros (x & Hx & E). apply Nat.eqb_eq in E. subst. exact Hx.
  - intros H. exists (d_id (snd s)). rewrite Nat.eqb_refl. auto.
Qed.

Lemma py_remove_incl x l r : py_remove x l = Ok r -> forall a, In a r -> In a l.
Proof.
  revert r. induction l as [|y l IH]; intros r H a Ha; [discriminate|]. cbn in H.
  destruct (Nat.eqb x y); [injection H as <-; right; exact Ha|].
  destruct (py_remove x l) as [r'|e]; [injection H as <-|discriminate].
  destruct Ha as [->|Ha]; [left; reflexivity|right; exact (IH r' eq_refl a Ha)].
Qed.

Lemma py_remove_nodup x l r : NoDup l -> py_remove x l = Ok r -> NoDup r /\ ~ In x r.
Proof.
  revert r. induction l as [|y l IH]; intros r Hnd H; [discriminate|].
  inversion Hnd as [|? ? Hy Hnd']; subst. cbn in H.
  destruct (Nat.eqb_spec x y) as [->|Hxy]; [injection H as <-; auto|].
  destruct (py_remove x l) as [r'|e] eqn:E; [injection H as <-|discriminate].
  destruct (IH r' Hnd' eq_refl) as [Hr Hx].
  split; [constructor; [intros Hin; exact (Hy (py_remove_incl _ _ _ E y Hin))|exact Hr]|].
  intros [->|Hin]; [apply Hxy; reflexivity|exact (Hx Hin)].
Qed.

Lemma py_remove_exc x l e : py_remove x l = Exc e -> ~ In x l.
Proof.
  induction l as [|y l IH]; intros H; [intros []|]. cbn in H.
  destruct (Nat.eqb_spec x y) as [->|Hxy]; [discriminate|].
  destruct (py_remove x l); [discriminate|]. injection H as <-.
  intros [->|Hin]; [apply Hxy; reflexivity|exact (IH eq_refl Hin)].
Qed.

(** The spec's invariant of a live registry: no display twice, and a
    phase the spec names. *)
Definition phase_inv (s : state) : Prop := NoDup (w_displays (fst s)) /\ phase_of s <> Broken.

Lemma session_displays s s' : session s' = session s -> w_displays (fst s') = w_displays (fst s).
Proof. intros H. exact (f_equal snd H). Qed.

(** [end_on_input] always ends in [Terminated]: [endwin] gives the
    terminal back, and the display is no longer registered, whether
    [_displays.remove] succeeds or raises. *)
Lemma end_on_input_terminates s s' r :
  NoDup (w_displays (fst s)) -> end_on_input s = (s', r) ->
  NoDup (w_displays (fst s')) /\ phase_of s' = Terminated.
Proof.
  destruct s as [w d]. unfold end_on_input, end_display. cbn [fst snd]. intros Hnd.
  destruct (py_remove (d_id d) (w_displays (endwin w))) as [l|e] eqn:E; intros H; injection H as <- <-;
    [destruct (py_remove_nodup _ _ _ Hnd E) as [Hl Hx]|pose proof (py_remove_exc _ _ _ E) as Hx];
    (split; [assumption|]); unfold phase_of;
    destruct (registered _) eqn:R; try (apply registered_iff in R; contradiction); reflexivity.
Qed.

Lemma phase_step_refl p : p <> Broken -> phase_step p p.
Proof. destruct p; intros H; [constructor|constructor|contradiction]. Qed.

Lemma phase_step_end p : p <> Broken -> phase_step p Terminated.
Proof. destruct p; intros H; [constructor|constructor|contradiction]. Qed.

(** Every step but the exit key keeps the phase. *)
Lemma lifecycle_step_session s t :
  lifecycle_step s t -> session t = session s \/ exists r, end_on_input s = (t, r).
Proof.
  intros [u s1 t1 r E|msgs s1 t1 r E|s1 t1 r E|scr [w d]]; [left|left|right; eauto|left; reflexivity];
    [pose proof (keeps_session_handle_update u s1) as H|pose proof (keeps_session_scan_finished msgs s1) as H];
    rewrite E in H; exact H.
Qed.

Lemma lifecycle_step_refines s t :
  phase_inv s -> lifecycle_step s t -> phase_inv t /\ phase_step (phase_of s) (phase_of t).
Proof.
  intros [Hnd Hp] Hst. destruct (lifecycle_step_session s t Hst) as [Hs|[r E]].
  - unfold phase_inv. rewrite (phase_of_session s t Hs), (session_displays s t Hs).
    split; [split; assumption|apply phase_step_refl, Hp].
  - destruct (end_on_input_terminates s t r Hnd E) as [Hnd' Ht]. rewrite Ht.
    split; [split; [exact Hnd'|congruence]|apply phase_step_end, Hp].
Qed.

Lemma init_keeps_id : keeps (fun s => d_id (snd s)) init.
Proof.
  unfold init. apply keeps_bind; [intros [w d]; reflexivity|intros _].
  apply keeps_bind; [intros [w d]; reflexivity|intros _].
  exact (keeps_compose session (fun x => fst (fst (fst (fst x)))) _ keeps_session_init_tail).
Qed.

Lemma init_phase s0 s1 :
  init s0 = (s1, Ok tt) -> NoDup (w_displays (fst s0)) -> ~ In (d_id (snd s0)) (w_displays (fst s0)) ->
  phase_inv s1 /\ phase_of s1 = Live.
Proof.
  destruct s0 as [w d]. intros E Hnd Hin.
  pose proof (init_world w d) as Hw. pose proof (init_keeps_id (w, d)) as Hid. rewrite E in Hw, Hid.
  destruct s1 as [w1 d1]. cbn [fst snd] in *. subst w1.
  assert (Hreg : registered (mkWorld (w_screen w) true false false (w_displays w ++ [d_id d]) (w_banner w)
                                     (w_log w), d1) = true)
    by (apply registered_iff; cbn; rewrite Hid; apply in_or_app; right; left; reflexivity).
  assert (Hlive : phase_of (mkWorld (w_screen w) true false false (w_displays w ++ [d_id d]) (w_banner w)
                                    (w_log w), d1) = Live) by (unfold phase_of; rewrite Hreg; reflexivity).
  rewrite Hlive. split; [split; [|congruence]|reflexivity].
  cbn. apply (Permutation_NoDup (Permutation_cons_append _ _)). constructor; assumption.
Qed.


(** ** Witnesses *)

Lemma lifecycle_keeps_shape_witness :
  init example_s0 = (example_s1, Ok tt) /\ steps lifecycle_step example_s1 example_s2 /\
  wf_display (snd example_s2) /\ worker_count (snd example_s2) = worker_count (snd example_s0).
Proof.
  assert (Hs : steps lifecycle_step example_s1 example_s2)
    by (eapply steps_more; [apply steps_none|eapply step_handle_update, example_handle_update]).
  split; [exact example_init|split; [exact Hs|]].
  apply (lifecycle_keeps_shape example_s0 example_s1 example_s2); [exact example_init|exact Hs].
Defined.

Lemma reachable_update_shows_witness :
  init example_s0 = (example_s1, Ok tt) /\ steps lifecycle_step example_s1 example_s2 /\
  handle_update example_update example_s2 = (example_s3, Ok tt) /\
  (1 < worker_count (snd example_s0))%nat /\
  exists b, nth_error (metric_boxes (snd example_s3)) 1 = Some b /\
            shows (update_metrics example_update) 1 b.
Proof.
  assert (Hs : steps lifecycle_step example_s1 example_s2)
    by (eapply steps_more; [apply steps_none|eapply step_handle_update, example_handle_update]).
  assert (Hu : handle_update example_update example_s2 = (example_s3, Ok tt))
    by (vm_compute; reflexivity).
  split; [exact example_init|split; [exact Hs|split; [exact Hu|split; [cbn; lia|]]]].
  apply (reachable_update_shows example_s0 example_s1 example_s2 example_s3 example_update);
    [exact example_init|exact Hs|exact Hu|cbn; lia].
Defined.

