(* ===== verification/BannerDraw.v ===== *)
(** * Centring helpers and [ProgressDisplay.display_banner]

    [compute_center_offset(width, cols)] gives the column that centres
    [width] columns in [cols] (by default [curses.COLS]), and
    [compute_center_offset_str] does it for a string.  Nothing calls them
    but [display_banner], and nothing calls [display_banner]: its call in
    [_setup_curses] is commented out, the banner box replaced it.  The
    file models them as written: [Box.render] centres its title with the
    same arithmetic inline, and [display_banner] has two failure modes
    the banner box does not have. *)

From Stdlib Require Import ZArith List String Lia.
From S2P Require Import Prelude Curses Box Display.
Import ListNotations.
Open Scope Z_scope.

(** [compute_center_offset(width, cols=None)] *)
Definition compute_center_offset (scr : screen) (width : Z) (cols_arg : option Z) : Z :=
  let c := match cols_arg with Some c => c | None => cols scr end in
  if width >? c then 0 else py_int_div2 (c - width).

(** [compute_center_offset_str(string, cols=None)] *)
Definition compute_center_offset_str (scr : screen) (s : string) (cols_arg : option Z) : Z :=
  compute_center_offset scr (py_len s) cols_arg.

(** The text [display_banner] draws: row [k] of the banner on line [k],
    from column [x]. *)
Fixpoint banner_lines (x : Z) (k : nat) (rows : list string) : list draw_op :=
  match rows with
  | [] => []
  | r :: rs => DText (Z.of_nat k) x r :: banner_lines x (S k) rs
  end.

(** One iteration of the loop of [display_banner]; the accumulator is
    the loop variable [index] once assigned. *)
Definition draw_banner_line (offset : Z) (last : option nat) (ir : nat * string) : PyM state (option nat) :=
  let '(index, row) := ir in
  on_stdscr (waddstr (Z.of_nat index) offset row) ;;;
  py_ret (Some index).

(** [display_banner()]: [banner.column_count] on [None] raises
    [AttributeError]; [return index + 1] after a loop that never ran
    raises [UnboundLocalError].  The colour attribute is not modelled. *)
Definition display_banner : PyM state Z :=
  s <- py_get ;;
  match w_banner (fst s) with
  | None => py_raise AttributeError
  | Some bn =>
      let offset := compute_center_offset (w_screen (fst s)) (column_count bn) None in
      last <- py_foldM (draw_banner_line offset) (enumerate (banner_rows bn)) None ;;
      match last with
      | None => py_raise UnboundLocalError
      | Some index => py_ret (Z.of_nat index + 1)
      end
  end.

(** ** Lemmas *)

Lemma draw_banner_lines_ok (offset : Z) (rows : list string) :
  forall k last w d,
  0 <= offset < win_w (stdscr d) -> Z.of_nat (k + List.length rows) <= win_h (stdscr d) ->
  py_foldM (draw_banner_line offset) (enumerate_from k rows) last (w, d) =
  ((w, set_stdscr d (Box.with_ops (stdscr d) (win_ops (stdscr d) ++ banner_lines offset k rows))),
   Ok (match rows with [] => last | _ => Some (k + List.length rows - 1)%nat end)).
Proof.
  induction rows as [|r rows IH]; intros k last w d Hx Hy.
  - cbn. rewrite app_nil_r. destruct d as [? ? [] ? ?]. reflexivity.
  - rewrite enumerate_from_cons. cbn [py_foldM draw_banner_line]. cbn [List.length] in Hy.
    rewrite py_bind_assoc.
    erewrite py_bind_ok by (apply on_stdscr_ok, waddstr_in, in_window_iff; lia).
    cbn [py_bind py_ret].
    rewrite IH by (cbn; lia). cbn. rewrite <- app_assoc.
    destruct rows as [|r' rows']; cbn [List.length]; f_equal; f_equal; f_equal; lia.
Qed.

(** ** Theorems *)

(** [Box.render] places its title with the arithmetic of
    [compute_center_offset_str(title, width)]: the inline test
    [title_length < width] and the helper's [width > cols] give the same
    column in every case, the equal-width one included. *)
Theorem title_offset_is_center_offset (scr : screen) (width : Z) (t : string) :
  Box.title_offset width t = compute_center_offset_str scr t (Some width).
Proof.
  unfold Box.title_offset, compute_center_offset_str, compute_center_offset.
  destruct (Z.ltb_spec (py_len t) width), (Z.gtb_spec (py_len t) width); try lia; try reflexivity.
  replace (width - py_len t) with 0 by lia. reflexivity.
Qed.

(** C32: [display_banner] raises [AttributeError] when there is no
    banner, and [UnboundLocalError] when the banner has no rows (the loop
    never assigns [index]).  Otherwise, when the rows fit in the
    standard screen, it draws row [i] on line [i] at the centring column
    and returns the number of rows. *)
Theorem display_banner_outcome (w : world) (d : display) :
  (w_banner w = None -> display_banner (w, d) = ((w, d), Exc AttributeError)) /\
  (forall bn, w_banner w = Some bn -> banner_rows bn = [] ->
     display_banner (w, d) = ((w, d), Exc UnboundLocalError)) /\
  (forall bn, w_banner w = Some bn -> banner_rows bn <> [] ->
     let offset := compute_center_offset (w_screen w) (column_count bn) None in
     0 <= offset < win_w (stdscr d) -> Z.of_nat (List.length (banner_rows bn)) <= win_h (stdscr d) ->
     display_banner (w, d) =
     ((w, set_stdscr d (Box.with_ops (stdscr d) (win_ops (stdscr d) ++ banner_lines offset 0 (banner_rows bn)))),
      Ok (Z.of_nat (List.length (banner_rows bn))))).
Proof.
  unfold display_banner. cbn [py_bind py_get fst]. split; [|split].
  - intros E. rewrite E. reflexivity.
  - intros bn E Er. rewrite E. unfold enumerate. rewrite Er. reflexivity.
  - intros bn E Hne Hx Hy. rewrite E. unfold py_bind at 1. unfold enumerate.
    rewrite draw_banner_lines_ok by (cbn; lia).
    destruct (banner_rows bn) as [|r rows] eqn:Er; [contradiction|].
    unfold py_ret. f_equal. f_equal. cbn [List.length]. lia.
Qed.

(** ** Witnesses *)

Definition banner_rows_example : banner := mkBanner ["WORDFENCE"; "CLI"]%string 2 9.

Definition banner_state_world : world :=
  mkWorld (mkScreen 24 80) true false false [0%nat] (Some banner_rows_example) [].

Definition banner_state_display : display := mkDisplay 0 1 (mkWindow 0 0 24 80 []) None [].

Lemma display_banner_outcome_witness :
  w_banner banner_state_world = Some banner_rows_example /\ banner_rows banner_rows_example <> [] /\
  0 <= compute_center_offset (w_screen banner_state_world) (column_count banner_rows_example) None
    < win_w (stdscr banner_state_display) /\
  Z.of_nat (List.length (banner_rows banner_rows_example)) <= win_h (stdscr banner_state_display) /\
  ((w_banner banner_state_world = None ->
    display_banner (banner_state_world, banner_state_display) =
    ((banner_state_world, banner_state_display), Exc AttributeError)) /\
   (forall bn, w_banner banner_state_world = Some bn -> banner_rows bn = [] ->
     display_banner (banner_state_world, banner_state_display) =
     ((banner_state_world, banner_state_display), Exc UnboundLocalError)) /\
   (forall bn, w_banner banner_state_world = Some bn -> banner_rows bn <> [] ->
     let offset := compute_center_offset (w_screen banner_state_world) (column_count bn) None in
     0 <= offset < win_w (stdscr banner_state_display) ->
     Z.of_nat (List.length (banner_rows bn)) <= win_h (stdscr banner_state_display) ->
     display_banner (banner_state_world, banner_state_display) =
     ((banner_state_world,
       set_stdscr banner_state_display
         (Box.with_ops (stdscr banner_state_display)
            (win_ops (stdscr banner_state_display) ++ banner_lines offset 0 (banner_rows bn)))),
      Ok (Z.of_nat (List.length (banner_rows bn)))))).
Proof.
  split; [reflexivity|split; [discriminate|split; [vm_compute; split; congruence|split; [cbn; lia|]]]].
  exact (display_banner_outcome banner_state_world banner_state_display).
Defined.
