(* ===== verification/VulnScan.v ===== *)
(** * The [vuln-scan] subcommand: [VulnScanSubcommand] of [vulnscan.py]

    [invoke] loads the vulnerability index of the configured feed through
    the cache, creates the scanner with it and the filter of the
    configuration, opens the report file and, inside that [with] block,
    scans, in this order, the sites named on the command line, the sites
    read from standard input, the core installations of
    [--wordpress-path], the plugin directories and the theme directories,
    then logs a summary.  The scanner, the API client, the WordPress site
    reader, the plugin and theme loaders, the report manager and the
    logger live outside src/: the model records every call made to them
    as an event of a trace, in order, and takes what they return from an
    [environment].  The cache is an interface, the class [Cache] with its
    law [CacheLaws] (a lookup hits, or runs the initializer and returns
    what it returns); the theorems on [invoke] hold for every cache that
    obeys it.  The state of [invoke] is the cache beside the trace. *)

From Stdlib Require Import ZArith NArith List String.
From S2P Require Import Prelude PyStr.
Import ListNotations.
Open Scope string_scope.

Module VulnScan.

Record extension := mkExtension { slug : string; version : string }.

(** What [WordpressSite(path)] exposes. *)
Record site := mkSite {
  core_path : string;
  site_version : string;
  site_plugins : list extension;
  site_themes : list extension
}.

(** [VulnerabilityFeedVariant]: what the cache key needs of it. *)
Record variant := mkVariant { variant_path : string }.

(** The vulnerability index, by the identifiers of its vulnerabilities. *)
Definition index := list string.

Record environment := mkEnv {
  feed_variant : string -> variant;          (* VulnerabilityFeedVariant.for_path *)
  fetch_feed : variant -> res index;         (* client.fetch_vulnerability_feed, indexed *)
  wordpress_site : string -> site;
  load_plugins : string -> list extension;   (* PluginLoader(dir).load_all() *)
  load_themes : string -> list extension;    (* ThemeLoader(dir).load_all() *)
  stdin_entries : option (list string)       (* None: should_read_stdin() is false *)
}.

Record config := mkConfig {
  feed : string;
  exclude_vulnerability : list string;
  include_vulnerability : list string;
  informational : bool;
  trailing_arguments : list string;
  wordpress_path : list string;
  plugin_directory : list string;
  theme_directory : list string
}.

(** [VulnerabilityFilter(excluded=..., included=..., informational=...)];
    a Python [set] of identifiers is a list without duplicates. *)
Record vfilter := mkFilter { excluded : list string; included : list string; show_informational : bool }.

Inductive event : Type :=
| FetchFeed (v : variant)
| ScannerCreated (idx : index) (f : vfilter)
| ReportOpened
| ReportClosed
| ScanCore (v : string)
| ScanPlugin (e : extension)
| ScanTheme (e : extension)
| LogDebug (msg : string)
| LogInfo (msg : string).

Definition emit (e : event) : PyM (list event) unit := fun tr => ((tr ++ [e])%list, Ok tt).

(** [_scan_plugins(plugins, scanner)] *)
Definition scan_plugins (plugins : list extension) : PyM (list event) unit :=
  py_for plugins (fun p =>
    emit (LogDebug ("Plugin " ++ slug p ++ ", version: " ++ version p)) ;;;
    emit (ScanPlugin p)).

(** [_scan_themes(themes, scanner)] *)
Definition scan_themes (themes : list extension) : PyM (list event) unit :=
  py_for themes (fun t =>
    emit (LogDebug ("Theme " ++ slug t ++ ", version: " ++ version t)) ;;;
    emit (ScanTheme t)).

Definition scan_plugin_directory (env : environment) (directory : string) : PyM (list event) unit :=
  scan_plugins (load_plugins env directory).

Definition scan_theme_directory (env : environment) (directory : string) : PyM (list event) unit :=
  scan_themes (load_themes env directory).

(** [_scan(path, scanner, check_extensions)] *)
Definition scan (env : environment) (path : string) (check_extensions : bool) : PyM (list event) unit :=
  let s := wordpress_site env path in
  emit (LogDebug ("Located WordPress files at " ++ core_path s)) ;;;
  let v := site_version s in
  emit (LogDebug ("WordPress Core Version: " ++ v)) ;;;
  emit (ScanCore v) ;;;
  if check_extensions then scan_plugins (site_plugins s) ;;; scan_themes (site_themes s)
  else py_ret tt.

(** [_scan_site(path, scanner)] *)
Definition scan_site (env : environment) (path : string) : PyM (list event) unit :=
  emit (LogInfo ("Scanning site at " ++ path ++ "...")) ;;;
  scan env path true.

(** [_output_summary(scanner)], given the scanner's two counts. *)
Definition summary_message (vulnerability_count affected_count : N) : string :=
  let suffix := if N.eqb vulnerability_count 1 then "y" else "ies" in
  "Found " ++ py_str vulnerability_count ++ " vulnerabilit" ++ suffix ++
  " affecting " ++ py_str affected_count ++ " installation(s)".

Definition output_summary (vulnerability_count affected_count : N) : PyM (list event) unit :=
  emit (LogInfo (summary_message vulnerability_count affected_count)).

(** The body of the [with] block of [invoke()]: the scans, then the
    summary; [vc] and [ac] are the counts the scanner reports at the end. *)
Definition scan_inputs (env : environment) (cfg : config) (vc ac : N) : PyM (list event) Z :=
  py_for (trailing_arguments cfg) (scan_site env) ;;;
  (match stdin_entries env with
   | Some entries => py_for entries (scan_site env)
   | None => py_ret tt
   end) ;;;
  py_for (wordpress_path cfg) (fun path =>
    emit (LogInfo ("Scanning core installation at " ++ path ++ "...")) ;;;
    scan env path false) ;;;
  py_for (plugin_directory cfg) (fun path =>
    emit (LogInfo ("Scanning plugin directory at " ++ path ++ "...")) ;;;
    scan_plugin_directory env path) ;;;
  py_for (theme_directory cfg) (fun path =>
    emit (LogInfo ("Scanning theme directory at " ++ path ++ "...")) ;;;
    scan_theme_directory env path) ;;;
  output_summary vc ac ;;;
  py_ret (0%Z : Z).

(** [with report_manager.open_output_file() as output_file:] with the
    report initialised and its callback registered on entry: the file is
    closed on the way out, whether the body returns or raises. *)
Definition with_report {A} (body : PyM (list event) A) : PyM (list event) A :=
  fun tr =>
    let '(tr', r) := body (tr ++ [ReportOpened])%list in
    ((tr' ++ [ReportClosed])%list, r).

(** [DURATION_ONE_DAY] of [util.caching], in seconds. *)
Definition DURATION_ONE_DAY : Z := 86400.

(** The cache and [Cacheable] live in [util.caching], outside src/.  The
    subcommand sees only [Cacheable(key, initializer, duration).get(cache)]:
    an operation on a cache state [C] beside the trace of calls. *)
Class Cache (C : Type) :=
  cache_get : string -> Z -> PyM (C * list event) index -> PyM (C * list event) index.

(** What [invoke] relies on: a lookup either hits, returning a stored
    index and leaving the trace alone, or runs the initializer and returns
    what it returns, the exception included. *)
Class CacheLaws (C : Type) `{Cache C} : Prop :=
  cache_get_hit_or_init :
    forall key duration (init : PyM (C * list event) index) (s : C * list event),
      (exists c' idx, cache_get key duration init s = ((c', snd s), Ok idx)) \/
      (exists c', cache_get key duration init s = ((c', snd (fst (init s))), snd (init s))).

(** A statement on the trace alone, run in the state that also holds the cache. *)
Definition on_trace {C A} (c : PyM (list event) A) : PyM (C * list event) A :=
  fun s => let '(tr', r) := c (snd s) in ((fst s, tr'), r).

Section Invoke.
Context {C : Type} `{Cache C}.

(** [initialize_vulnerability_index()]: the feed of [variant], from the API. *)
Definition initialize_vulnerability_index (env : environment) (v : variant) : PyM (C * list event) index :=
  on_trace (emit (FetchFeed v)) ;;;
  py_lift (fetch_feed env v).

(** [_load_vulnerability_index(variant)] *)
Definition load_vulnerability_index (env : environment) (v : variant) : PyM (C * list event) index :=
  cache_get ("vulnerability_index_" ++ variant_path v) DURATION_ONE_DAY
            (initialize_vulnerability_index env v).

(** [_initialize_filter()]: [set(...)] drops repeated identifiers. *)
Definition initialize_filter (cfg : config) : vfilter :=
  mkFilter (nodup string_dec (exclude_vulnerability cfg))
           (nodup string_dec (include_vulnerability cfg))
           (informational cfg).

(** [invoke()]; [vc] and [ac] are the counts the scanner reports at the end. *)
Definition invoke (env : environment) (cfg : config) (vc ac : N) : PyM (C * list event) Z :=
  let feed_variant := feed_variant env (feed cfg) in
  vulnerability_index <- load_vulnerability_index env feed_variant ;;
  on_trace (emit (ScannerCreated vulnerability_index (initialize_filter cfg))) ;;;
  on_trace (with_report (scan_inputs env cfg vc ac)).

End Invoke.

(** The calls [invoke] makes on the scanner, in order: what a caller of
    the subcommand expects it to scan. *)
Definition is_scanner_call (e : event) : bool :=
  match e with ScanCore _ | ScanPlugin _ | ScanTheme _ => true | _ => false end.

Definition site_scans (env : environment) (path : string) : list event :=
  let s := wordpress_site env path in
  (ScanCore (site_version s) :: map ScanPlugin (site_plugins s) ++ map ScanTheme (site_themes s))%list.

Definition scan_order (env : environment) (cfg : config) : list event :=
  (flat_map (site_scans env)
     (trailing_arguments cfg ++ match stdin_entries env with Some es => es | None => [] end) ++
   map (fun p => ScanCore (site_version (wordpress_site env p))) (wordpress_path cfg) ++
   flat_map (fun d => map ScanPlugin (load_plugins env d)) (plugin_directory cfg) ++
   flat_map (fun d => map ScanTheme (load_themes env d)) (theme_directory cfg))%list.

(** The log and scanner calls of each routine, as plain lists. *)
Definition plugin_log (p : extension) : list event :=
  [LogDebug ("Plugin " ++ slug p ++ ", version: " ++ version p); ScanPlugin p].

Definition theme_log (t : extension) : list event :=
  [LogDebug ("Theme " ++ slug t ++ ", version: " ++ version t); ScanTheme t].

Definition scan_log (env : environment) (path : string) (ext : bool) : list event :=
  let s := wordpress_site env path in
  (LogDebug ("Located WordPress files at " ++ core_path s) ::
   LogDebug ("WordPress Core Version: " ++ site_version s) ::
   ScanCore (site_version s) ::
   (if ext then flat_map plugin_log (site_plugins s) ++ flat_map theme_log (site_themes s)
    else []))%list.

Definition invoke_log (env : environment) (cfg : config) : list event :=
  (flat_map (fun p => LogInfo ("Scanning site at " ++ p ++ "...") :: scan_log env p true)
     (trailing_arguments cfg ++ match stdin_entries env with Some es => es | None => [] end) ++
   flat_map (fun p => LogInfo ("Scanning core installation at " ++ p ++ "...") :: scan_log env p false)
     (wordpress_path cfg) ++
   flat_map (fun d => LogInfo ("Scanning plugin directory at " ++ d ++ "...") ::
                      flat_map plugin_log (load_plugins env d)) (plugin_directory cfg) ++
   flat_map (fun d => LogInfo ("Scanning theme directory at " ++ d ++ "...") ::
                      flat_map theme_log (load_themes env d)) (theme_directory cfg))%list.

(** [c] runs without raising and appends [es] to the trace. *)
Definition writes {A} (c : PyM (list event) A) (a : A) (es : list event) : Prop :=
  forall tr, c tr = ((tr ++ es)%list, Ok a).

(** ** Lemmas *)

Lemma writes_emit e : writes (emit e) tt [e].
Proof. intros tr. reflexivity. Qed.

Lemma writes_ret {A} (a : A) : writes (py_ret a) a [].
Proof. intros tr. rewrite app_nil_r. reflexivity. Qed.

Lemma writes_bind {A B} (c : PyM (list event) A) (k : A -> PyM (list event) B) a b es1 es2 :
  writes c a es1 -> writes (k a) b es2 -> writes (py_bind c k) b (es1 ++ es2)%list.
Proof. intros H1 H2 tr. unfold py_bind. rewrite H1, H2, app_assoc. reflexivity. Qed.

Lemma writes_for {X} (xs : list X) (body : X -> PyM (list event) unit) (g : X -> list event) :
  (forall x, writes (body x) tt (g x)) -> writes (py_for xs body) tt (flat_map g xs).
Proof.
  intros Hb. induction xs as [|x xs IH]; simpl; [apply writes_ret|].
  apply (writes_bind _ _ tt); auto.
Qed.

Create HintDb vulnscan.
#[export] Hint Resolve writes_emit writes_ret writes_bind writes_for : vulnscan.

Ltac writes_tac :=
  repeat first [ eapply writes_bind | apply writes_emit | apply writes_ret
               | apply writes_for; intro ].

Lemma filter_flat_map {X} (f : event -> bool) (g : X -> list event) xs :
  filter f (flat_map g xs) = flat_map (fun x => filter f (g x)) xs.
Proof. induction xs; simpl; [reflexivity|]. rewrite filter_app, IHxs. reflexivity. Qed.

Lemma filter_map_calls {X} (c : X -> event) xs :
  (forall x, is_scanner_call (c x) = true) -> filter is_scanner_call (map c xs) = map c xs.
Proof. intros Hc. induction xs; simpl; [reflexivity|]. rewrite Hc, IHxs. reflexivity. Qed.

Lemma writes_scan env path ext : writes (scan env path ext) tt (scan_log env path ext).
Proof.
  unfold scan, scan_log.
  do 3 (apply (writes_bind _ _ tt _ [_]); [apply writes_emit|]).
  destruct ext; [|apply writes_ret].
  apply (writes_bind _ _ tt); apply writes_for; intro; unfold plugin_log, theme_log;
    (apply (writes_bind _ _ tt _ [_]); apply writes_emit).
Qed.

Lemma writes_scan_site env p :
  writes (scan_site env p) tt (LogInfo ("Scanning site at " ++ p ++ "...") :: scan_log env p true).
Proof. apply (writes_bind _ _ tt _ [_]); [apply writes_emit|apply writes_scan]. Qed.

Lemma writes_scan_inputs env cfg vc ac :
  writes (scan_inputs env cfg vc ac) 0%Z (invoke_log env cfg ++ [LogInfo (summary_message vc ac)])%list.
Proof.
  unfold scan_inputs, invoke_log. rewrite flat_map_app, <- !app_assoc.
  apply (writes_bind _ _ tt); [apply writes_for, writes_scan_site|].
  apply (writes_bind _ _ tt).
  { destruct (stdin_entries env); [apply writes_for, writes_scan_site|apply writes_ret]. }
  apply (writes_bind _ _ tt); [apply writes_for; intro; apply (writes_bind _ _ tt _ [_]);
                        [apply writes_emit|apply writes_scan]|].
  apply (writes_bind _ _ tt); [apply writes_for; intro; apply (writes_bind _ _ tt _ [_]);
    [apply writes_emit|apply writes_for; intro; unfold plugin_log;
                       apply (writes_bind _ _ tt _ [_]); apply writes_emit]|].
  apply (writes_bind _ _ tt); [apply writes_for; intro; apply (writes_bind _ _ tt _ [_]);
    [apply writes_emit|apply writes_for; intro; unfold theme_log;
                       apply (writes_bind _ _ tt _ [_]); apply writes_emit]|].
  apply (writes_bind _ _ tt _ [_] []); [apply writes_emit|apply writes_ret].
Qed.

Lemma filter_plugin_log ps : filter is_scanner_call (flat_map plugin_log ps) = map ScanPlugin ps.
Proof. induction ps; simpl; congruence. Qed.

Lemma filter_theme_log ts : filter is_scanner_call (flat_map theme_log ts) = map ScanTheme ts.
Proof. induction ts; simpl; congruence. Qed.

Lemma filter_scan_log env p ext :
  filter is_scanner_call (scan_log env p ext) =
  if ext then site_scans env p else [ScanCore (site_version (wordpress_site env p))].
Proof.
  unfold scan_log, site_scans. destruct ext; simpl; [|reflexivity].
  rewrite filter_app, filter_plugin_log, filter_theme_log. reflexivity.
Qed.

Lemma flat_map_single {X} (f : X -> event) xs : flat_map (fun x => [f x]) xs = map f xs.
Proof. induction xs; simpl; congruence. Qed.

Lemma filter_invoke_log env cfg : filter is_scanner_call (invoke_log env cfg) = scan_order env cfg.
Proof.
  unfold invoke_log, scan_order. rewrite !filter_app, !filter_flat_map.
  rewrite <- flat_map_single.
  apply f_equal2; [|apply f_equal2; [|apply f_equal2]]; apply flat_map_ext; intro;
    cbn [filter is_scanner_call];
    rewrite ?filter_scan_log, ?filter_plugin_log, ?filter_theme_log; reflexivity.
Qed.

Lemma on_trace_writes {C A} (c : PyM (list event) A) a es (c0 : C) tr :
  writes c a es -> on_trace c (c0, tr) = ((c0, tr ++ es)%list, Ok a).
Proof. intros Hc. unfold on_trace. cbn. rewrite Hc. reflexivity. Qed.

Lemma writes_with_report {A} (body : PyM (list event) A) a es :
  writes body a es -> writes (with_report body) a ([ReportOpened] ++ es ++ [ReportClosed])%list.
Proof. intros Hb tr. unfold with_report. rewrite Hb, !app_assoc. reflexivity. Qed.

(** What loading the index does to the trace: nothing on a hit, the one
    fetch of the feed on a miss; only a miss can raise. *)
Lemma load_trace {C} `{CacheLaws C} env v (s : C * list event) :
  exists c' r pre,
    load_vulnerability_index env v s = ((c', snd s ++ pre)%list, r) /\
    (pre = [] \/ pre = [FetchFeed v]) /\ (pre = [] -> exists idx, r = Ok idx).
Proof.
  unfold load_vulnerability_index.
  destruct (cache_get_hit_or_init ("vulnerability_index_" ++ variant_path v) DURATION_ONE_DAY
              (initialize_vulnerability_index env v) s) as [(c' & idx & E) | (c' & E)];
    rewrite E.
  - exists c', (Ok idx), []. rewrite app_nil_r. eauto.
  - destruct s as [c0 tr]. exists c', (fetch_feed env v), [FetchFeed v].
    split; [reflexivity|]. split; [auto|discriminate].
Qed.

(** The scans and the summary in the [with] block, as in [invoke_log]. *)
Lemma scan_inputs_in_order env cfg vc ac (tr : list event) :
  exists log,
    with_report (scan_inputs env cfg vc ac) tr =
      ((tr ++ [ReportOpened] ++ log ++ [LogInfo (summary_message vc ac); ReportClosed])%list, Ok 0%Z) /\
    filter is_scanner_call log = scan_order env cfg.
Proof.
  exists (invoke_log env cfg). split; [|apply filter_invoke_log].
  rewrite (writes_with_report _ _ _ (writes_scan_inputs env cfg vc ac) tr), <- !app_assoc.
  reflexivity.
Qed.

(** Two caches for the witnesses: one that always runs the initializer
    and one that keeps every index it is given, without expiry. *)
#[local] Instance uncached : Cache unit := fun _ _ init => init.

#[local] Instance uncached_laws : CacheLaws unit.
Proof. intros key d init s. right. unfold cache_get, uncached. exists (fst (fst (init s))). destruct (init s) as [[[] tr] r]. reflexivity. Qed.

#[local] Instance memory_cache : Cache (list (string * index)) :=
  fun key _ init s =>
    match find (fun e => String.eqb (fst e) key) (fst s) with
    | Some (_, idx) => (s, Ok idx)
    | None =>
        let '((c, tr), r) := init s in
        match r with
        | Ok idx => (((key, idx) :: c, tr), Ok idx)
        | Exc e => ((c, tr), Exc e)
        end
    end.

#[local] Instance memory_cache_laws : CacheLaws (list (string * index)).
Proof.
  intros key d init s. unfold cache_get, memory_cache.
  destruct (find _ (fst s)) as [[k idx]|]; [left; destruct s; eauto|right].
  destruct (init s) as [[c tr] [i|e]]; eexists; reflexivity.
Qed.

(** ** Theorems *)

(** C24: once [_load_vulnerability_index] has returned an index,
    whether from the cache (no call) or from a fetch of the configured
    feed (one call), [invoke] creates the scanner with that index and the
    filter of the configuration, opens the report, and asks the scanner,
    in this order, about each site of the command line and then of
    standard input (its core, then each plugin, then each theme), the
    core of each [--wordpress-path], the plugins of each
    [--plugin-directory] and the themes of each [--theme-directory], and
    nothing else; it logs the summary, closes the report and returns 0. *)
Theorem invoke_scans_in_order {C} `{CacheLaws C} (env : environment) (cfg : config) (vc ac : N)
    (s : C * list event) (c' : C) (pre : list event) (idx : index) :
  load_vulnerability_index env (feed_variant env (feed cfg)) s = ((c', snd s ++ pre)%list, Ok idx) ->
  (pre = [] \/ pre = [FetchFeed (feed_variant env (feed cfg))]) /\
  exists log,
    invoke env cfg vc ac s =
      ((c', snd s ++ pre ++ [ScannerCreated idx (initialize_filter cfg); ReportOpened] ++ log ++
            [LogInfo (summary_message vc ac); ReportClosed])%list, Ok 0%Z) /\
    filter is_scanner_call log = scan_order env cfg.
Proof.
  intros E. split.
  - destruct (load_trace env (feed_variant env (feed cfg)) s) as (c1 & r & pre' & E' & Hp & _).
    rewrite E in E'. injection E' as _ Htr _. apply app_inv_head in Htr. congruence.
  - destruct (scan_inputs_in_order env cfg vc ac (snd s ++ pre ++ [ScannerCreated idx (initialize_filter cfg)]))
      as (log & Hw & Hf).
    exists log. split; [|exact Hf].
    unfold invoke, py_bind. rewrite E. cbn [fst snd on_trace emit]. rewrite <- app_assoc. unfold on_trace. cbn [fst snd]. rewrite Hw, <- !app_assoc. reflexivity.
Qed.

(** C33: when loading the index raises (the cache missed and the feed
    could not be fetched), [invoke] raises the same exception; the fetch
    is then the only call it has made: no scanner is created, the report
    file is not opened and nothing is scanned. *)
Theorem invoke_index_error {C} `{CacheLaws C} (env : environment) (cfg : config) (vc ac : N)
    (s s' : C * list event) (e : exn) :
  load_vulnerability_index env (feed_variant env (feed cfg)) s = (s', Exc e) ->
  invoke env cfg vc ac s = (s', Exc e) /\
  snd s' = (snd s ++ [FetchFeed (feed_variant env (feed cfg))])%list.
Proof.
  intros E. split; [unfold invoke, py_bind; rewrite E; reflexivity|].
  destruct (load_trace env (feed_variant env (feed cfg)) s) as (c1 & r & pre & E' & [-> | ->] & Hok);
    rewrite E in E'; injection E' as -> Hr.
  - destruct (Hok eq_refl) as [idx Hidx]. congruence.
  - reflexivity.
Qed.

(** ** Witnesses *)

Definition example_index : index := ["CVE-2024-0001"].

Definition example_env (fetch : res index) : environment := {|
  feed_variant := fun p => mkVariant p;
  fetch_feed := fun _ => fetch;
  wordpress_site := fun p => mkSite p "6.4.2" [mkExtension "akismet" "5.3"] [mkExtension "twentytwenty" "2.4"];
  load_plugins := fun _ => [mkExtension "hello-dolly" "1.7.2"];
  load_themes := fun _ => [];
  stdin_entries := Some ["/srv/blog"]
|}.

Definition example_cfg : config := {|
  feed := "production";
  exclude_vulnerability := ["CVE-2023-1"; "CVE-2023-1"];
  include_vulnerability := [];
  informational := false;
  trailing_arguments := ["/var/www/html"];
  wordpress_path := ["/opt/wp"];
  plugin_directory := ["/opt/plugins"];
  theme_directory := []
|}.

Lemma invoke_scans_in_order_witness :
  let env := example_env (Ok example_index) in
  let v := feed_variant env (feed example_cfg) in
  let s : list (string * index) * list event := ([], []) in
  let c' := [("vulnerability_index_production", example_index)] in
  load_vulnerability_index env v s = ((c', snd s ++ [FetchFeed v])%list, Ok example_index) /\
  (([FetchFeed v] = [] \/ [FetchFeed v] = [FetchFeed v]) /\
   exists log,
     invoke env example_cfg 2 1 s =
       ((c', snd s ++ [FetchFeed v] ++ [ScannerCreated example_index (initialize_filter example_cfg); ReportOpened] ++
             log ++ [LogInfo (summary_message 2 1); ReportClosed])%list, Ok 0%Z) /\
     filter is_scanner_call log = scan_order env example_cfg).
Proof.
  intros env v s c'.
  assert (E : load_vulnerability_index env v s = ((c', snd s ++ [FetchFeed v])%list, Ok example_index))
    by reflexivity.
  split; [exact E|]. exact (invoke_scans_in_order env example_cfg 2 1 s c' [FetchFeed v] example_index E).
Defined.

Lemma invoke_index_error_witness :
  let env := example_env (Exc ApiException) in
  let v := feed_variant env (feed example_cfg) in
  let s : unit * list event := (tt, []) in
  load_vulnerability_index env v s = ((tt, [FetchFeed v]), Exc ApiException) /\
  (invoke env example_cfg 0 0 s = ((tt, [FetchFeed v]), Exc ApiException) /\
   snd (tt, [FetchFeed v]) = (snd s ++ [FetchFeed v])%list).
Proof.
  intros env v s.
  assert (E : load_vulnerability_index env v s = ((tt, [FetchFeed v]), Exc ApiException)) by reflexivity.
  split; [exact E|]. exact (invoke_index_error env example_cfg 0 0 s _ ApiException E).
Defined.

End VulnScan.
