(* ===== verification/Startup.v ===== *)
(** * When [ProgressDisplay()] can be built

    [ProgressDisplay.__init__] registers the display, starts curses,
    builds the banner box and then, in [_initialize_metric_boxes],
    positions the banner and one new metric box per worker with a fresh
    [BoxLayout].  [newwin] builds every box whatever the screen's size;
    the step that can raise [curses.error] is [mvwin], for a box placed
    off the screen.

    This file shows that the boxes' own drawing never fails on a box of
    the right size, so that [init] succeeds exactly when every rectangle
    the packer computes for the dashboard lies on the screen, and raises
    [CursesError] otherwise.  With the packer's closed forms of
    [Geometry], that is a condition on the terminal's size, the one
    [requirements_met] was meant to test, and which it gets wrong at its
    boundary. *)

From Stdlib Require Import ZArith NArith List String Lia.
From S2P Require Import Prelude Curses PyStr Box Layout Geometry Display.
Import ListNotations.
Open Scope Z_scope.

(** What [BannerBox.draw_content] draws from row [k] on. *)
Fixpoint banner_ops (offset : Z) (k : nat) (rows : list string) : list draw_op :=
  match rows with
  | [] => []
  | r :: rs => DText (Z.of_nat k + offset) offset r :: banner_ops offset (S k) rs
  end.

(** The banners the code can draw: at least one row, and a row count
    that covers the rows. *)
Definition banner_wf (bn : banner) : Prop :=
  0 < row_count bn /\ Z.of_nat (List.length (banner_rows bn)) <= row_count bn.

(** A placed rectangle lies on the screen. *)
Definition rect_on (scr : screen) (r : rect) : Prop :=
  fits_at scr (ry r) (rx r) (rh r, rw r).





(** ** Banner boxes *)

Lemma draw_banner_rows_ok (rows : list string) :
  forall k b,
  0 < win_w (Box.window b) -> Z.of_nat (k + List.length rows) <= win_h (Box.window b) ->
  py_for (enumerate_from k rows) (Box.draw_banner_row 0) b =
  (Box.set_window b (Box.with_ops (Box.window b) (win_ops (Box.window b) ++ banner_ops 0 k rows)), Ok tt).
Proof.
  induction rows as [|r rows IH]; intros k b Hw Hh.
  - simpl. rewrite app_nil_r, Box.set_window_id. reflexivity.
  - rewrite enumerate_from_cons. cbn [py_for Box.draw_banner_row] in *.
    erewrite py_bind_ok by (apply Box.with_window_ok, waddstr_in, in_window_iff; simpl in Hh; lia).
    rewrite IH by (cbn; simpl in Hh; lia). cbn. rewrite <- app_assoc. reflexivity.
Qed.

Lemma update_banner_box scr b bn :
  Box.cls b = Box.BannerBox bn -> Box.border b = false -> Box.title b = None ->
  banner_wf bn -> 0 < cols scr ->
  Box.update scr b =
  (Box.set_window b (mkWindow (win_y (Box.window b)) (win_x (Box.window b)) (row_count bn) (cols scr)
                       (banner_ops 0 0 (banner_rows bn))), Ok tt).
Proof.
  intros E1 E2 E3 [Hr Hlen] Hc. unfold Box.update.
  assert (Es : Box.compute_size scr b = (row_count bn, cols scr))
    by (unfold Box.compute_size, Box.size_of; rewrite E1, E2; reflexivity).
  rewrite (py_bind_ok _ _ _ _ _ (Box.resize_ok scr b _ _ Es Hr Hc)).
  unfold Box.render. cbn [py_bind py_get]. unfold Box.compute_size, Box.size_of.
  cbn [Box.border Box.cls Box.title Box.set_window]. rewrite E1, E2, E3. cbn [py_bind py_ret].
  unfold Box.draw_content, Box.get_border_offset. cbn [py_get py_bind Box.border Box.cls Box.set_window].
  rewrite E1, E2. unfold enumerate. rewrite draw_banner_rows_ok by (cbn; lia). reflexivity.
Qed.

Lemma new_banner_box_ok scr bn :
  banner_wf bn -> 0 < cols scr ->
  Box.new_banner_box scr bn =
  Ok (Box.mkBox false None (Box.BannerBox bn)
        (mkWindow 0 0 (row_count bn) (cols scr) (banner_ops 0 0 (banner_rows bn)))).
Proof.
  intros Hwf Hc. unfold Box.new_banner_box, Box.new_box, Box.size_of. cbn [Box.get_height Box.get_width].
  rewrite newwin_origin by (destruct Hwf; lia).
  rewrite (Box.render_fresh scr _ 0 0 (row_count bn) (cols scr)) by (try reflexivity; destruct Hwf; lia).
  rewrite (update_banner_box scr _ bn) by (try reflexivity; assumption). reflexivity.
Qed.

(** ** Metric boxes *)



Lemma pack_cons_snd L h w sizes :
  snd (pack L ((h, w) :: sizes)) = snd (pack (fst (place L h w)) sizes).
Proof.
  cbn [pack]. destruct (place L h w) as [L' [py px]]. cbn [fst]. destruct (pack L' sizes). reflexivity.
Qed.

(** [layout.position(box)] for a box whose window has its computed
    size: the box moves to the place the layout computes when that place
    is on the screen, and [mvwin] raises otherwise. *)
Lemma position_box_ok scr L b h w :
  Box.compute_size scr b = (h, w) -> win_h (Box.window b) = h -> win_w (Box.window b) = w ->
  rect_on scr (placed_rect L h w) ->
  position_box scr L b =
  (Box.set_window b (mkWindow (y (wrap_if L w)) (x (wrap_if L w)) h w (win_ops (Box.window b))),
   Ok (fst (place L h w))).
Proof.
  intros Es Eh Ew (H1 & H2 & H3 & H4). unfold placed_rect, place in *. cbn in H1, H2, H3, H4.
  unfold position_box, position. cbn [panel_size panel_move box_panel]. rewrite Es.
  unfold Box.set_position. rewrite Box.with_window_ok with (w := mkWindow _ _ h w _)
    by (rewrite mvwin_fits by (rewrite ?Eh, ?Ew; lia); rewrite Eh, Ew; reflexivity).
  reflexivity.
Qed.

Lemma position_box_fail scr L b h w :
  Box.compute_size scr b = (h, w) -> win_h (Box.window b) = h -> win_w (Box.window b) = w ->
  ~ rect_on scr (placed_rect L h w) ->
  position_box scr L b = (b, Exc CursesError).
Proof.
  intros Es Eh Ew Hn. unfold position_box.
  rewrite (position_fail scr L b h w) by (try exact Es; cbn; rewrite Eh, Ew; exact Hn).
  reflexivity.
Qed.

Definition default_metrics (i : nat) : list Box.metric :=
  [Box.Metric "Files Processed" 0; Box.Metric "Bytes Processed" 0;
   Box.Metric "Matches Found" 0; Box.Metric "Index" (N.of_nat i)]%string.

Lemma get_metrics_default wc i :
  (i < wc)%nat -> get_metrics (new_scan_metrics wc) i = Ok (default_metrics i).
Proof.
  intros Hi. unfold get_metrics, new_scan_metrics. cbn [counts bytes matches].
  rewrite !nth_error_repeat by exact Hi. reflexivity.
Qed.

Lemma default_metrics_fit i :
  (N.of_nat i < 10 ^ 40)%N -> forallb (Box.value_fits 1 METRIC_BOX_WIDTH) (default_metrics i) = true.
Proof.
  intros Hi. cbn [forallb default_metrics].
  rewrite !Box.Metric_fits by (exact Hi || reflexivity). reflexivity.
Qed.

(** A rectangle on the screen leaves room for a box of its size at the
    origin. *)
Lemma rect_on_dims scr r : rect_on scr r -> rh r <= lines scr /\ rw r <= cols scr.
Proof. intros (H1 & H2 & H3 & H4). cbn in *. lia. Qed.

(** One iteration of [_initialize_metric_boxes]: the process state is
    untouched; the new box is placed where the packer says, or the
    iteration raises [CursesError]. *)
Lemma init_metric_box_step scr wc L boxes i s :
  (i < wc)%nat -> (N.of_nat i < 10 ^ 40)%N ->
  (rect_on scr (placed_rect L 6 41) ->
   exists b, init_metric_box scr (new_scan_metrics wc) (L, boxes) i s =
             (s, Ok (fst (place L 6 41), boxes ++ [b]))) /\
  (~ rect_on scr (placed_rect L 6 41) ->
   init_metric_box scr (new_scan_metrics wc) (L, boxes) i s = (s, Exc CursesError)).
Proof.
  intros Hi Hn. pose proof (default_metrics_fit i Hn) as Hfit.
  unfold init_metric_box. rewrite get_metrics_default by exact Hi. cbn [py_lift py_bind].
  rewrite Box.new_metric_box_ok by exact Hfit.
  cbn [py_lift py_bind]. set (b0 := Box.mkBox _ _ _ _).
  assert (Es : Box.compute_size scr b0 = (6, 41)) by reflexivity.
  split; intros Hr.
  - rewrite (position_box_ok scr L b0 6 41 Es eq_refl eq_refl Hr).
    rewrite Box.update_metric_box_ok with (ms := default_metrics i) by (reflexivity || exact Hfit).
    eexists. reflexivity.
  - rewrite (position_box_fail scr L b0 6 41 Es eq_refl eq_refl Hr). reflexivity.
Qed.

Lemma rect_on_dec scr r : {rect_on scr r} + {~ rect_on scr r}.
Proof.
  unfold rect_on, fits_at. cbn [fst snd].
  destruct (Z_le_dec 0 (ry r)), (Z_le_dec 0 (rx r)), (Z_le_dec (ry r + rh r) (lines scr)),
           (Z_le_dec (rx r + rw r) (cols scr)); (left; tauto) || (right; tauto).
Qed.

(** The loop of [_initialize_metric_boxes] over the workers [xs]: it
    ends where the packer ends when every box it places is on the
    screen, and raises [CursesError] otherwise. *)
Lemma init_boxes_fold scr wc (xs : list nat) :
  Forall (fun i => (i < wc)%nat /\ (N.of_nat i < 10 ^ 40)%N) xs ->
  forall L boxes s,
  (Forall (rect_on scr) (fst (pack L (repeat (6, 41) (List.length xs)))) ->
   exists bs, py_foldM (init_metric_box scr (new_scan_metrics wc)) xs (L, boxes) s =
              (s, Ok (snd (pack L (repeat (6, 41) (List.length xs))), boxes ++ bs))) /\
  (~ Forall (rect_on scr) (fst (pack L (repeat (6, 41) (List.length xs)))) ->
   py_foldM (init_metric_box scr (new_scan_metrics wc)) xs (L, boxes) s = (s, Exc CursesError)).
Proof.
  induction xs as [|i xs IH]; intros Hxs L boxes s.
  - split; [intros _; exists []; rewrite app_nil_r; reflexivity|intros Hn; exfalso; apply Hn; constructor].
  - apply Forall_cons_iff in Hxs as [[Hi Hn] Hxs].
    destruct (init_metric_box_step scr wc L boxes i s Hi Hn) as [Hok Hfail].
    cbn [List.length repeat]. rewrite pack_cons, pack_cons_snd. cbn [py_foldM].
    split; intros Hall.
    + apply Forall_cons_iff in Hall as [Hr Hall]. destruct (Hok Hr) as [b Eb].
      rewrite (py_bind_ok _ _ _ _ _ Eb).
      destruct (proj1 (IH Hxs (fst (place L 6 41)) (boxes ++ [b]) s) Hall) as [bs Ebs].
      exists (b :: bs). rewrite Ebs, <- app_assoc. reflexivity.
    + destruct (rect_on_dec scr (placed_rect L 6 41)) as [Hr|Hr].
      * destruct (Hok Hr) as [b Eb]. rewrite (py_bind_ok _ _ _ _ _ Eb).
        apply (proj2 (IH Hxs _ _ s)). intros Hall'. apply Hall. constructor; assumption.
      * rewrite (py_bind_exc _ _ _ _ _ (Hfail Hr)). reflexivity.
Qed.

(** ** The whole constructor *)

(** The rectangles the packer gives the dashboard's boxes: the banner
    box of [bh] lines, if any, then one box per worker. *)
Definition dashboard_rects (scr : screen) (bh : option Z) (n : nat) : list rect :=
  fst (pack (new_layout (lines scr) (cols scr) METRICS_PADDING) (dashboard_sizes bh (cols scr) n)).

Lemma place_banner_none scr L w d :
  banner_box d = None -> place_banner scr L (w, d) = ((w, d), Ok L).
Proof. intros E. unfold place_banner, on_banner_box, py_bind. rewrite E. cbn. rewrite E. reflexivity. Qed.

Lemma place_banner_some scr bn w d :
  banner_wf bn -> 0 < cols scr -> row_count bn <= lines scr ->
  banner_box d = Some (Box.mkBox false None (Box.BannerBox bn)
                         (mkWindow 0 0 (row_count bn) (cols scr) (banner_ops 0 0 (banner_rows bn)))) ->
  exists b', place_banner scr (new_layout (lines scr) (cols scr) METRICS_PADDING) (w, d) =
             ((w, set_banner_box d (Some b')),
              Ok (fst (place (new_layout (lines scr) (cols scr) METRICS_PADDING) (row_count bn) (cols scr)))).
Proof.
  intros Hwf Hc Hl E. set (b0 := Box.mkBox _ _ _ _) in E.
  assert (Hr : rect_on scr (placed_rect (new_layout (lines scr) (cols scr) METRICS_PADDING)
                                        (row_count bn) (cols scr))).
  { rewrite banner_rect by lia. destruct Hwf. repeat split; cbn; lia. }
  unfold place_banner, on_banner_box, py_bind. rewrite E.
  rewrite (position_box_ok scr _ b0 (row_count bn) (cols scr) eq_refl eq_refl eq_refl Hr).
  cbn [set_banner_box banner_box].
  rewrite update_banner_box with (bn := bn) by (first [reflexivity|assumption]).
  eexists. reflexivity.
Qed.

(** A banner taller than the screen is built ([newwin] does not check
    the screen) but [mvwin] cannot place it. *)
Lemma place_banner_fail scr bn w d :
  lines scr < row_count bn ->
  banner_box d = Some (Box.mkBox false None (Box.BannerBox bn)
                         (mkWindow 0 0 (row_count bn) (cols scr) (banner_ops 0 0 (banner_rows bn)))) ->
  snd (place_banner scr (new_layout (lines scr) (cols scr) METRICS_PADDING) (w, d)) = Exc CursesError.
Proof.
  intros Hl E. set (b0 := Box.mkBox _ _ _ _) in E.
  assert (Hr : ~ rect_on scr (placed_rect (new_layout (lines scr) (cols scr) METRICS_PADDING)
                                          (row_count bn) (cols scr))).
  { intros H. apply rect_on_dims in H. cbn in H. lia. }
  unfold place_banner, on_banner_box, py_bind. rewrite E.
  rewrite (position_box_fail scr _ b0 (row_count bn) (cols scr) eq_refl eq_refl eq_refl Hr). reflexivity.
Qed.

Lemma dashboard_rects_none scr n :
  dashboard_rects scr None n =
  fst (pack (new_layout (lines scr) (cols scr) METRICS_PADDING) (repeat (6, 41) n)).
Proof. reflexivity. Qed.

Lemma dashboard_rects_some scr h n :
  0 <= cols scr ->
  dashboard_rects scr (Some h) n =
  mkRect 0 0 h (cols scr) ::
  fst (pack (fst (place (new_layout (lines scr) (cols scr) METRICS_PADDING) h (cols scr)))
            (repeat (6, 41) n)).
Proof. intros Hc. unfold dashboard_rects, dashboard_sizes. cbn [app]. rewrite pack_cons, banner_rect by exact Hc. reflexivity. Qed.

Lemma seq_bounds wc :
  (N.of_nat wc <= 10 ^ 40)%N ->
  Forall (fun i => (i < wc)%nat /\ (N.of_nat i < 10 ^ 40)%N) (seq 0 wc).
Proof.
  intros Hwc. apply Forall_forall. intros i Hi. apply in_seq in Hi. split; [lia|].
  apply (N.lt_le_trans _ (N.of_nat wc)); [lia|exact Hwc].
Qed.

(** The state after [_displays.append(self)] and the curses setup. *)
Definition started (w : world) (d : display) : state :=
  (mkWorld (w_screen w) true false false (w_displays w ++ [d_id d]) (w_banner w) (w_log w),
   set_stdscr d (mkWindow 0 0 (lines (w_screen w)) (cols (w_screen w)) [])).

Lemma init_started w d :
  init (w, d) = (initialize_banner ;;; initialize_metric_boxes) (started w d).
Proof. reflexivity. Qed.

(** [_initialize_metric_boxes] after the banner was placed at [L1]. *)
Lemma initialize_metric_boxes_outcome w d L1 s1 :
  0 < cols (w_screen w) -> (N.of_nat (worker_count d) <= 10 ^ 40)%N ->
  place_banner (w_screen w) (new_layout (lines (w_screen w)) (cols (w_screen w)) METRICS_PADDING) (w, d)
    = (s1, Ok L1) ->
  (Forall (rect_on (w_screen w)) (fst (pack L1 (repeat (6, 41) (worker_count d)))) ->
   outcome initialize_metric_boxes (w, d) = Ok tt) /\
  (~ Forall (rect_on (w_screen w)) (fst (pack L1 (repeat (6, 41) (worker_count d)))) ->
   outcome initialize_metric_boxes (w, d) = Exc CursesError).
Proof.
  intros Hc Hwc Hpb. unfold outcome, initialize_metric_boxes. cbn [py_bind py_get].
  rewrite (py_bind_ok _ _ _ _ _ Hpb).
  destruct (init_boxes_fold (w_screen w) (worker_count d) (seq 0 (worker_count d))
              (seq_bounds _ Hwc) L1 [] s1) as [Hok Hfail].
  rewrite length_seq in Hok, Hfail. split; intros H.
  - destruct (Hok H) as [bs E]. rewrite (py_bind_ok _ _ _ _ _ E). destruct s1. reflexivity.
  - rewrite (py_bind_exc _ _ _ _ _ (Hfail H)). reflexivity.
Qed.

(** [ProgressDisplay(worker_count)] succeeds when every rectangle the
    packer gives the dashboard is on the screen, and raises [CursesError]
    otherwise. *)
Lemma init_outcome (w : world) (d : display) :
  0 < cols (w_screen w) ->
  (forall bn, w_banner w = Some bn -> banner_wf bn) ->
  (N.of_nat (worker_count d) <= 10 ^ 40)%N ->
  (Forall (rect_on (w_screen w))
     (dashboard_rects (w_screen w) (option_map row_count (w_banner w)) (worker_count d)) ->
   outcome init (w, d) = Ok tt) /\
  (~ Forall (rect_on (w_screen w))
       (dashboard_rects (w_screen w) (option_map row_count (w_banner w)) (worker_count d)) ->
   outcome init (w, d) = Exc CursesError).
Proof.
  intros Hc Hbn Hwc. unfold outcome. rewrite init_started.
  unfold started, py_bind, initialize_banner. cbn [w_banner w_screen].
  set (w2 := mkWorld _ _ _ _ _ _ _).
  destruct (w_banner w) as [bn|] eqn:Eb; cbn [option_map].
  - specialize (Hbn bn eq_refl). rewrite dashboard_rects_some by lia.
    rewrite new_banner_box_ok by assumption. set (d2 := set_banner_box _ _).
    destruct (Z_le_gt_dec (row_count bn) (lines (w_screen w))) as [Hl|Hl].
    +
      destruct (place_banner_some (w_screen w) bn w2 d2 Hbn Hc Hl eq_refl) as [b' Hpb].
      destruct (initialize_metric_boxes_outcome w2 d2 _ _ Hc Hwc Hpb) as [Hok Hfail].
      assert (Hr : rect_on (w_screen w) (mkRect 0 0 (row_count bn) (cols (w_screen w))))
        by (destruct Hbn; repeat split; cbn; lia).
      split; intros H.
      * apply Forall_cons_iff in H as [_ H]. exact (Hok H).
      * exact (Hfail (fun H' => H (Forall_cons _ Hr H'))).
    + split.
      * intros H. apply Forall_cons_iff in H as [H _]. apply rect_on_dims in H. cbn in H. lia.
      * intros _. unfold initialize_metric_boxes. cbn [py_bind py_get].
        pose proof (place_banner_fail (w_screen w) bn w2 d2 ltac:(lia) eq_refl) as Hpb.
        unfold py_bind at 1. destruct (place_banner _ _ (w2, d2)) as [s1 r1]. cbn in Hpb. subst r1.
        reflexivity.
  - rewrite dashboard_rects_none. set (d2 := set_banner_box _ _).
    exact (initialize_metric_boxes_outcome w2 d2 _ _ Hc Hwc (place_banner_none _ _ w2 d2 eq_refl)).
Qed.

(** ** The condition on the terminal's size *)

(** Boxes packed from a fresh layout start at non-negative lines and
    columns, and end within the columns when none is wider than them. *)
Lemma pack_columns lns cls sizes :
  (forall h w, In (h, w) sizes -> 0 <= h /\ 0 <= w <= cls) ->
  Forall (fun r => 0 <= ry r /\ 0 <= rx r /\ rx r + rw r <= cls)
         (fst (pack (new_layout lns cls METRICS_PADDING) sizes)).
Proof.
  intros Hs.
  apply (pack_Forall (fun L => 0 <= x L /\ 0 <= y L /\ 0 <= max_row_height L /\
                               layout_cols L = cls /\ padding L = 1)); [|cbn; unfold METRICS_PADDING; lia].
  intros L h w Hin (Hx & Hy & Hm & Hc & Hp). destruct (Hs h w Hin) as [Hh Hw].
  pose proof (place_x L h w). pose proof (place_y L h w). destruct (place_frame L h w) as [Hc' Hp'].
  cbn [ry rx rw].
  destruct (place_cases L h w) as [(E1 & E2 & E3 & _)|(E1 & E2 & E3 & Hfit)];
    rewrite ?E1, ?E2, ?E3 in *; lia.
Qed.

Lemma last_line_lt (rs : list rect) (n : Z) :
  0 <= n -> (Forall (fun r => ry r + rh r <= n) rs <-> last_line rs < n).
Proof.
  intros Hn. induction rs as [|r rs IH]; cbn [last_line fold_right].
  - split; [cbn; lia|constructor].
  - rewrite Forall_cons_iff. fold (last_line rs). rewrite IH. lia.
Qed.

Lemma dashboard_rects_on scr bh n :
  METRIC_BOX_WIDTH + 2 <= cols scr -> 0 <= lines scr -> (forall h, bh = Some h -> 0 <= h) ->
  (Forall (rect_on scr) (dashboard_rects scr bh n) <->
   last_line (dashboard_rects scr bh n) < lines scr).
Proof.
  intros Hc Hl Hbh. rewrite <- last_line_lt by exact Hl.
  assert (Hcol : Forall (fun r => 0 <= ry r /\ 0 <= rx r /\ rx r + rw r <= cols scr)
                        (dashboard_rects scr bh n)).
  { apply pack_columns. intros h w Hin. unfold dashboard_sizes in Hin.
    apply in_app_or in Hin as [Hin|Hin].
    - destruct bh as [h'|]; [|contradiction]. destruct Hin as [E|[]]. injection E as <- <-.
      specialize (Hbh h' eq_refl). unfold METRIC_BOX_WIDTH in *. lia.
    - apply repeat_spec in Hin. injection Hin as -> ->. unfold METRIC_BOX_WIDTH in *. lia. }
  rewrite !Forall_forall in *. unfold rect_on, fits_at. cbn [fst snd].
  split; intros H r Hr; specialize (Hcol r Hr); [apply H in Hr; lia|].
  specialize (H r Hr). lia.
Qed.

Lemma init_last_line (w : world) (d : display) :
  METRIC_BOX_WIDTH + 2 <= cols (w_screen w) -> 0 <= lines (w_screen w) ->
  (forall bn, w_banner w = Some bn -> banner_wf bn) ->
  (N.of_nat (worker_count d) <= 10 ^ 40)%N ->
  (outcome init (w, d) = Ok tt <->
   packed_last_line (lines (w_screen w)) (cols (w_screen w)) (option_map row_count (w_banner w))
                    (worker_count d) < lines (w_screen w)) /\
  (outcome init (w, d) = Ok tt \/ outcome init (w, d) = Exc CursesError).
Proof.
  intros Hc Hl Hbn Hwc.
  assert (Hbh : forall h, option_map row_count (w_banner w) = Some h -> 0 <= h).
  { intros h E. destruct (w_banner w) as [bn|]; [|discriminate]. injection E as <-.
    destruct (Hbn bn eq_refl). lia. }
  destruct (init_outcome w d ltac:(unfold METRIC_BOX_WIDTH in *; lia) Hbn Hwc) as [Hok Hfail].
  pose proof (dashboard_rects_on (w_screen w) _ (worker_count d) Hc Hl Hbh) as Hiff.
  unfold packed_last_line. fold (dashboard_rects (w_screen w) (option_map row_count (w_banner w)) (worker_count d)).
  rewrite <- Hiff.
  destruct (Forall_dec (rect_on (w_screen w)) (rect_on_dec (w_screen w))
              (dashboard_rects (w_screen w) (option_map row_count (w_banner w)) (worker_count d))) as [H|H].
  - rewrite (Hok H). split; [tauto|left; reflexivity].
  - rewrite (Hfail H). split; [split; [discriminate|tauto]|right; reflexivity].
Qed.

(** The environment [get_layout_values] reads when it is called on the
    terminal and with the banner the display is built with. *)
Definition world_env (w : world) : environment := mkEnv (w_banner w) (cols (w_screen w)) (lines (w_screen w)).

(** The banner height [get_layout_values] assumes is at most the one the
    banner box takes. *)
Lemma layout_values_of_world w n show lv :
  (forall bn, w_banner w = Some bn -> banner_wf bn) ->
  get_layout_values (world_env w) n None None None show = Ok lv ->
  exists bhp, 0 <= bhp <= match w_banner w with Some bn => row_count bn | None => 0 end /\
    layout_values n bhp (cols (w_screen w)) (lines (w_screen w)) = Ok lv.
Proof.
  intros Hbn Hlv. unfold get_layout_values, world_env in Hlv. cbn [env_banner env_cols env_rows] in Hlv.
  destruct show, (w_banner w) as [bn|]; eexists; (split; [|exact Hlv]);
    try (destruct (Hbn bn eq_refl)); lia.
Qed.

(** ** Theorems *)

(** C4: [ProgressDisplay(worker_count)] on a terminal at least one
    metric box wide raises nothing but [curses.error], and succeeds
    exactly when the last line the packer gives the banner and the
    metric boxes is on the screen. *)
Theorem init_ok_iff_last_line (w : world) (d : display) :
  METRIC_BOX_WIDTH + 2 <= cols (w_screen w) -> 0 <= lines (w_screen w) ->
  (forall bn, w_banner w = Some bn -> banner_wf bn) ->
  (N.of_nat (worker_count d) <= 10 ^ 40)%N ->
  (outcome init (w, d) = Ok tt <->
   packed_last_line (lines (w_screen w)) (cols (w_screen w)) (option_map row_count (w_banner w))
                    (worker_count d) < lines (w_screen w)) /\
  (outcome init (w, d) = Ok tt \/ outcome init (w, d) = Exc CursesError).
Proof. revert_all. exact init_last_line. Qed.

(** C3: [requirements_met] is unsound at its boundary.  The last line
    [get_layout_values] predicts is never below the last line the
    dashboard really takes, so on every terminal no taller than that
    predicted line [ProgressDisplay(worker_count)] raises
    [curses.error]; yet when the terminal has exactly that many lines
    (and more than 43 columns), [requirements_met] answers [True]. *)
Theorem requirements_met_boundary_crash (w : world) (d : display) (show : bool) lv :
  METRIC_BOX_WIDTH + 2 < cols (w_screen w) -> 0 <= lines (w_screen w) ->
  (forall bn, w_banner w = Some bn -> banner_wf bn) ->
  (1 <= worker_count d)%nat -> (N.of_nat (worker_count d) <= 10 ^ 40)%N ->
  get_layout_values (world_env w) (Z.of_nat (worker_count d)) None None None show = Ok lv ->
  (lines (w_screen w) <= last_metric_line lv -> outcome init (w, d) = Exc CursesError) /\
  (lines (w_screen w) = last_metric_line lv ->
   requirements_met (world_env w) (Z.of_nat (worker_count d)) show = Ok true).
Proof.
  intros Hc Hl Hbn Hn Hwc Hlv.
  destruct (layout_values_of_world w _ show lv Hbn Hlv) as (bhp & Hb & Hlv').
  rewrite layout_values_ok in Hlv' by (unfold METRIC_BOX_WIDTH in *; lia).
  injection Hlv' as <-. cbn [last_metric_line].
  assert (Hbh : forall h, option_map row_count (w_banner w) = Some h -> 1 <= h).
  { intros h E. destruct (w_banner w) as [bn|]; [|discriminate]. injection E as <-.
    destruct (Hbn bn eq_refl). lia. }
  pose proof (packer_le_boxes_per_row (cols (w_screen w)) ltac:(lia)) as Hpk.
  pose proof (proj1 (packer_per_row_spec (cols (w_screen w)) ltac:(lia))) as Hk.
  assert (Hkey : last_line_of (METRICS_COUNT + 2)
                   (ceil_div (Z.of_nat (worker_count d)) (metric_boxes_per_row (cols (w_screen w)) 1)) bhp <=
                 packed_last_line (lines (w_screen w)) (cols (w_screen w)) (option_map row_count (w_banner w))
                   (worker_count d)).
  { rewrite packed_last_line_eq by (try lia; exact Hbh).
    apply last_line_of_mono; [unfold METRICS_COUNT; lia|apply ceil_div_antitone; lia|].
    destruct (w_banner w); cbn; lia. }
  change (METRICS_COUNT + 2) with 6 in Hkey.
  split.
  - intros Hle.
    destruct (init_last_line w d ltac:(lia) Hl Hbn Hwc) as [Hiff [Hok|Hexc]]; [|exact Hexc].
    apply Hiff in Hok. lia.
  - intros Heq. unfold requirements_met. rewrite Hlv. cbn [lv_rows lv_cols last_metric_line].
    rewrite <- Heq, (proj2 (Z.geb_le _ _) (Z.le_refl _)), (proj2 (Z.gtb_lt _ _) Hc). reflexivity.
Qed.

(** C28: [Box.update] on a banner box (no border, no title) resizes its
    window, in place, to the banner's row count by the screen's width,
    and draws row [i] of the banner at line [i], column 0, and nothing
    else. *)
Theorem update_banner_box_rows scr b bn :
  Box.cls b = Box.BannerBox bn -> Box.border b = false -> Box.title b = None ->
  banner_wf bn -> 0 < cols scr ->
  Box.update scr b =
  (Box.set_window b (mkWindow (win_y (Box.window b)) (win_x (Box.window b)) (row_count bn) (cols scr)
                       (banner_ops 0 0 (banner_rows bn))), Ok tt).
Proof. revert_all. exact update_banner_box. Qed.


(** C2: the size test [requirements_met] should make: with at least
    one worker, [ProgressDisplay(worker_count)] succeeds exactly when
    [last_line_of] applied to the packer's [ceil(n / ((cols + 1) // 42))]
    rows is above the last line of the terminal. *)
Theorem init_ok_iff_rows (w : world) (d : display) :
  METRIC_BOX_WIDTH + 2 <= cols (w_screen w) -> 0 <= lines (w_screen w) ->
  (forall bn, w_banner w = Some bn -> banner_wf bn) ->
  (1 <= worker_count d)%nat -> (N.of_nat (worker_count d) <= 10 ^ 40)%N ->
  (outcome init (w, d) = Ok tt <->
   last_line_of (METRICS_COUNT + 2)
     (ceil_div (Z.of_nat (worker_count d)) (packer_per_row (cols (w_screen w))))
     (match w_banner w with Some bn => row_count bn | None => 0 end) < lines (w_screen w)).
Proof.
  intros Hc Hl Hbn Hn Hwc. rewrite (proj1 (init_last_line w d Hc Hl Hbn Hwc)).
  assert (Hbh : forall h, option_map row_count (w_banner w) = Some h -> 1 <= h).
  { intros h E. destruct (w_banner w) as [bn|]; [|discriminate]. injection E as <-.
    destruct (Hbn bn eq_refl). lia. }
  rewrite packed_last_line_eq by assumption. destruct (w_banner w); reflexivity.
Qed.

(** ** Witnesses *)

(** A 24 x 160 terminal with a two-line banner, and a display of four
    workers before [init]. *)
Definition banner_world : world :=
  mkWorld (mkScreen 24 160) false true true [] (Some (mkBanner ["WORDFENCE"; "CLI"]%string 2 9)) [].

Definition four_workers : display := mkDisplay 0 4 (mkWindow 0 0 0 0 []) None [].

Lemma banner_world_wf : forall bn, w_banner banner_world = Some bn -> banner_wf bn.
Proof. intros bn E. injection E as <-. split; cbn; lia. Qed.

Lemma init_ok_iff_last_line_witness :
  METRIC_BOX_WIDTH + 2 <= cols (w_screen banner_world) /\ 0 <= lines (w_screen banner_world) /\
  (forall bn, w_banner banner_world = Some bn -> banner_wf bn) /\
  (N.of_nat (worker_count four_workers) <= 10 ^ 40)%N /\
  (outcome init (banner_world, four_workers) = Ok tt <->
   packed_last_line (lines (w_screen banner_world)) (cols (w_screen banner_world))
     (option_map row_count (w_banner banner_world)) (worker_count four_workers)
   < lines (w_screen banner_world)) /\
  (outcome init (banner_world, four_workers) = Ok tt \/
   outcome init (banner_world, four_workers) = Exc CursesError).
Proof.
  assert (Hn : (N.of_nat (worker_count four_workers) <= 10 ^ 40)%N) by (vm_compute; discriminate).
  split; [cbn; unfold METRIC_BOX_WIDTH; lia|split; [cbn; lia|split; [exact banner_world_wf|split; [exact Hn|]]]].
  apply init_ok_iff_last_line; [cbn; unfold METRIC_BOX_WIDTH; lia|cbn; lia|exact banner_world_wf|exact Hn].
Defined.

Lemma init_ok_iff_rows_witness :
  METRIC_BOX_WIDTH + 2 <= cols (w_screen banner_world) /\ 0 <= lines (w_screen banner_world) /\
  (forall bn, w_banner banner_world = Some bn -> banner_wf bn) /\
  (1 <= worker_count four_workers)%nat /\ (N.of_nat (worker_count four_workers) <= 10 ^ 40)%N /\
  (outcome init (banner_world, four_workers) = Ok tt <->
   last_line_of (METRICS_COUNT + 2)
     (ceil_div (Z.of_nat (worker_count four_workers)) (packer_per_row (cols (w_screen banner_world))))
     (match w_banner banner_world with Some bn => row_count bn | None => 0 end)
   < lines (w_screen banner_world)).
Proof.
  assert (Hn : (N.of_nat (worker_count four_workers) <= 10 ^ 40)%N) by (vm_compute; discriminate).
  split; [cbn; unfold METRIC_BOX_WIDTH; lia|split; [cbn; lia|split; [exact banner_world_wf|split; [cbn; lia|split; [exact Hn|]]]]].
  apply init_ok_iff_rows; [cbn; unfold METRIC_BOX_WIDTH; lia|cbn; lia|exact banner_world_wf|cbn; lia|exact Hn].
Defined.

Definition example_banner : banner := mkBanner ["WORDFENCE"; "CLI"]%string 2 9.

Definition example_banner_box : Box.box :=
  Box.mkBox false None (Box.BannerBox example_banner) (mkWindow 0 0 2 160 []).

Lemma update_banner_box_rows_witness :
  Box.cls example_banner_box = Box.BannerBox example_banner /\
  Box.border example_banner_box = false /\ Box.title example_banner_box = None /\
  banner_wf example_banner /\ 0 < cols (mkScreen 24 160) /\
  Box.update (mkScreen 24 160) example_banner_box =
  (Box.set_window example_banner_box
     (mkWindow (win_y (Box.window example_banner_box)) (win_x (Box.window example_banner_box))
        (row_count example_banner) (cols (mkScreen 24 160))
        (banner_ops 0 0 (banner_rows example_banner))), Ok tt).
Proof.
  assert (Hwf : banner_wf example_banner) by (split; cbn; lia).
  split; [reflexivity|split; [reflexivity|split; [reflexivity|split; [exact Hwf|split; [cbn; lia|]]]]].
  apply update_banner_box_rows; [reflexivity|reflexivity|reflexivity|exact Hwf|cbn; lia].
Defined.


(** Two workers on 5 x 80: [get_layout_values] puts both boxes on one
    row ending at line 5, the last line it expects to be free. *)
Definition boundary_world : world := mkWorld (mkScreen 5 80) false true true [] None [].

Definition two_workers : display := mkDisplay 0 2 (mkWindow 0 0 0 0 []) None [].

Lemma requirements_met_boundary_crash_witness :
  METRIC_BOX_WIDTH + 2 < cols (w_screen boundary_world) /\ 0 <= lines (w_screen boundary_world) /\
  (forall bn, w_banner boundary_world = Some bn -> banner_wf bn) /\
  (1 <= worker_count two_workers)%nat /\ (N.of_nat (worker_count two_workers) <= 10 ^ 40)%N /\
  get_layout_values (world_env boundary_world) (Z.of_nat (worker_count two_workers)) None None None true =
    Ok (mkLayoutValues 5 80 2 1 6 0 5) /\
  lines (w_screen boundary_world) = last_metric_line (mkLayoutValues 5 80 2 1 6 0 5) /\
  requirements_met (world_env boundary_world) (Z.of_nat (worker_count two_workers)) true = Ok true /\
  outcome init (boundary_world, two_workers) = Exc CursesError.
Proof.
  assert (Hc : METRIC_BOX_WIDTH + 2 < cols (w_screen boundary_world)) by (cbn; unfold METRIC_BOX_WIDTH; lia).
  assert (Hl : 0 <= lines (w_screen boundary_world)) by (cbn; lia).
  assert (Hbn : forall bn, w_banner boundary_world = Some bn -> banner_wf bn) by discriminate.
  assert (Hn : (1 <= worker_count two_workers)%nat) by (cbn; lia).
  assert (Hwc : (N.of_nat (worker_count two_workers) <= 10 ^ 40)%N) by (vm_compute; discriminate).
  assert (Hlv : get_layout_values (world_env boundary_world) (Z.of_nat (worker_count two_workers)) None None None true =
                Ok (mkLayoutValues 5 80 2 1 6 0 5)) by (vm_compute; reflexivity).
  destruct (requirements_met_boundary_crash boundary_world two_workers true _ Hc Hl Hbn Hn Hwc Hlv) as [Hi Hr].
  split; [exact Hc|split; [exact Hl|split; [exact Hbn|split; [exact Hn|split; [exact Hwc|]]]]].
  split; [exact Hlv|split; [reflexivity|split; [apply Hr; reflexivity|apply Hi; cbn; lia]]].
Defined.
